(** * camweb: request filtering, dispatch and content resolution

    A shallow embedding of [website/camweb.go], the front-door web server of
    the Camlistore project site, and the properties of its request pipeline.

    Go strings are byte sequences and are modelled by [string] (a list of
    8-bit [ascii] characters).  A handler is a function from a request to the
    list of observable actions it performs, in order: calls on the
    [http.ResponseWriter], calls of the [net/http] response helpers, log
    lines, file-system accesses and delegations to the library backends
    (file servers, reverse proxies, CGI).  The file system, the loaded
    templates and the command-line flags are read-only inputs. *)

From Stdlib Require Import ZArith Ascii String List Bool Lia.
From stdpp Require Import base tactics option gmap strings.

Local Open Scope Z_scope.

#[local] Arguments String.append !_ _ / : simpl nomatch.

(** ** Package [strings] *)

Module strings.

(** [s[i:]]: slicing past the end of the string is a run-time panic,
    rendered as [None]. *)
Fixpoint slice_from (i : nat) (s : string) : option string :=
  match i, s with
  | O, _ => Some s
  | S _, EmptyString => None
  | S j, String _ s' => slice_from j s'
  end.

Fixpoint HasPrefix (s prefix : string) {struct prefix} : bool :=
  match prefix, s with
  | EmptyString, _ => true
  | String _ _, EmptyString => false
  | String p prefix', String c s' => Ascii.eqb c p && HasPrefix s' prefix'
  end.

Fixpoint Contains (s substr : string) : bool :=
  HasPrefix s substr ||
  match s with
  | EmptyString => false
  | String _ s' => Contains s' substr
  end.

(** [strings.Index]: byte offset of the first occurrence, [None] for -1. *)
Fixpoint Index (s substr : string) : option nat :=
  if HasPrefix s substr then Some O
  else match s with
       | EmptyString => None
       | String _ s' => S <$> Index s' substr
       end.

(** The scan of [strings.Replace] for a non-empty [old]: non-overlapping
    occurrences are replaced from the left; [skip] counts the bytes of the
    occurrence just replaced that are still to be passed over, [n] is the
    number of replacements still allowed ([None]: no limit). *)
Fixpoint replace_scan (skip : nat) (n : option nat) (s old new : string) : string :=
  match s with
  | EmptyString => EmptyString
  | String c s' =>
      match skip with
      | S k => replace_scan k n s' old new
      | O =>
          match n with
          | Some O => s
          | _ =>
              if HasPrefix s old
              then new +:+ replace_scan (String.length old - 1) (Nat.pred <$> n) s' old new
              else String c (replace_scan O n s' old new)
          end
      end
  end.

(** [strings.Replace(s, old, new, n)]; a negative [n] means no limit.  Every
    call in the program passes a non-empty [old]; for an empty [old] Go
    inserts [new] at rune boundaries, which this model leaves out (the
    string is returned as it is). *)
Definition Replace (s old new : string) (n : Z) : string :=
  match old with
  | EmptyString => s
  | _ => replace_scan O (if n <? 0 then None else Some (Z.to_nat n)) s old new
  end.

Definition lower (c : ascii) : ascii :=
  let n := nat_of_ascii c in
  if (65 <=? n)%nat && (n <=? 90)%nat then ascii_of_nat (n + 32) else c.

Fixpoint lower_bytes (s : string) : string :=
  match s with
  | EmptyString => EmptyString
  | String c s' => String (lower c) (lower_bytes s')
  end.

Fixpoint ascii_only (s : string) : bool :=
  match s with
  | EmptyString => true
  | String c s' => (nat_of_ascii c <? 128)%nat && ascii_only s'
  end.

(** [strings.ToLower], that is [Map(unicode.ToLower, s)].  On a string of
    ASCII bytes the letters [A] to [Z] are lowered byte by byte.  A string
    with a byte from 0x80 on is decoded as UTF-8 and mapped by the case
    tables of package [unicode]; the model takes the result for such a
    string from the function [unicode_lower]. *)
Definition ToLower (unicode_lower : string → string) (s : string) : string :=
  if ascii_only s then lower_bytes s else unicode_lower s.

(** [strings.LastIndex]: byte offset of the last occurrence, [None] for -1. *)
Fixpoint LastIndex (s substr : string) : option nat :=
  match s with
  | EmptyString => if HasPrefix s substr then Some O else None
  | String _ s' =>
      match LastIndex s' substr with
      | Some i => Some (S i)
      | None => if HasPrefix s substr then Some O else None
      end
  end.

Fixpoint mem (c : ascii) (cutset : string) : bool :=
  match cutset with
  | EmptyString => false
  | String d cutset' => Ascii.eqb c d || mem c cutset'
  end.

(** [strings.TrimRight]: drops the trailing bytes that are in [cutset]. *)
Fixpoint TrimRight (s cutset : string) : string :=
  match s with
  | EmptyString => EmptyString
  | String c s' =>
      match TrimRight s' cutset with
      | EmptyString => if mem c cutset then EmptyString else String c EmptyString
      | t => String c t
      end
  end.

Fixpoint Join (elems : list string) (sep : string) : string :=
  match elems with
  | [] => EmptyString
  | [e] => e
  | e :: rest => e +:+ sep +:+ Join rest sep
  end.

(** [strings.Split(s, sep)] for a one-byte separator. *)
Fixpoint Split (s : string) (sep : ascii) : list string :=
  match s with
  | EmptyString => [EmptyString]
  | String c s' =>
      if Ascii.eqb c sep then EmptyString :: Split s' sep
      else match Split s' sep with
           | [] => [String c EmptyString]
           | e :: rest => String c e :: rest
           end
  end.

End strings.

(** ** Package [path/filepath] (Unix) *)

Module filepath.

(** One path element of [Clean], on the stack of elements kept so far
    (innermost first): empty and [.] elements are dropped, [..] removes the
    element before it, is dropped at the root, and is kept at the start of
    a relative path. *)
Definition clean_step (rooted : bool) (stack : list string) (elem : string) : list string :=
  if String.eqb elem "" || String.eqb elem "." then stack
  else if String.eqb elem ".." then
    match stack with
    | top :: below => if String.eqb top ".." then elem :: stack else below
    | [] => if rooted then [] else [elem]
    end
  else elem :: stack.

Definition Clean (path : string) : string :=
  if String.eqb path "" then "."
  else
    let rooted := strings.HasPrefix path "/" in
    let body := strings.Join (rev (fold_left (clean_step rooted) (strings.Split path "/") [])) "/" in
    if rooted then "/" +:+ body
    else if String.eqb body "" then "." else body.

Fixpoint drop_empty (elem : list string) : list string :=
  match elem with
  | e :: rest => if String.eqb e "" then drop_empty rest else elem
  | [] => []
  end.

(** [filepath.Join]: the elements from the first non-empty one on, joined
    with slashes and cleaned; the empty string when there is none. *)
Definition Join (elem : list string) : string :=
  match drop_empty elem with
  | [] => ""
  | rest => Clean (strings.Join rest "/")
  end.

End filepath.

(** ** Package [net/url] *)

(** The URL type and its two printing methods, after the library as it was
    when the program was written (Go 1.1): the path is kept decoded and is
    encoded again whenever the URL is printed. *)

Module url.

Record URL := {
  Scheme : string;
  Opaque : string;          (* encoded opaque data *)
  User : option string;     (* user information, as [Userinfo.String] prints it *)
  Host : string;
  Path : string;            (* decoded path *)
  RawQuery : string;        (* encoded query, without the question mark *)
  Fragment : string
}.

Inductive encoding := encodePath | encodeFragment.

Definition alnum (c : ascii) : bool :=
  let n := nat_of_ascii c in
  ((65 <=? n) && (n <=? 90) || (97 <=? n) && (n <=? 122) || (48 <=? n) && (n <=? 57))%nat.

(** Which bytes [escape] percent-encodes: everything but the unreserved
    characters and, in a path, every reserved character except [?]. *)
Definition shouldEscape (c : ascii) (mode : encoding) : bool :=
  if alnum c then false
  else if strings.mem c "-_.~" then false
  else if strings.mem c "$&+,/:;=?@" then
    match mode with
    | encodePath => Ascii.eqb c "?"
    | encodeFragment => false
    end
  else true.

Definition hexdigit (n : nat) : ascii :=
  match String.get n "0123456789ABCDEF" with
  | Some c => c
  | None => "0"%char
  end.

Fixpoint escape (s : string) (mode : encoding) : string :=
  match s with
  | EmptyString => EmptyString
  | String c s' =>
      if shouldEscape c mode
      then String "%" (String (hexdigit (nat_of_ascii c / 16))
                        (String (hexdigit (nat_of_ascii c mod 16)) (escape s' mode)))
      else String c (escape s' mode)
  end.

(** [URL.RequestURI]: the encoded [path?query] (or [opaque?query]) that
    would be used in an HTTP request for the URL. *)
Definition RequestURI (u : URL) : string :=
  let result :=
    if String.eqb (Opaque u) "" then
      let p := escape (Path u) encodePath in
      if String.eqb p "" then "/" else p
    else if strings.HasPrefix (Opaque u) "//" then Scheme u +:+ ":" +:+ Opaque u
    else Opaque u in
  if String.eqb (RawQuery u) "" then result else result +:+ "?" +:+ RawQuery u.

(** [URL.String]: the URL reassembled from its parts. *)
Definition String_ (u : URL) : string :=
  (if String.eqb (Scheme u) "" then "" else Scheme u +:+ ":") +:+
  (if String.eqb (Opaque u) "" then
     (if negb (String.eqb (Scheme u) "") || negb (String.eqb (Host u) "") || bool_decide (User u ≠ None)
      then "//" +:+ (match User u with Some ui => ui +:+ "@" | None => "" end) +:+ Host u
      else "") +:+
     escape (Path u) encodePath
   else Opaque u) +:+
  (if String.eqb (RawQuery u) "" then "" else "?" +:+ RawQuery u) +:+
  (if String.eqb (Fragment u) "" then "" else "#" +:+ escape (Fragment u) encodeFragment).

(** *** Parsing

    The program hands the URLs it parses to the proxy constructor unread,
    so the model keeps of [Parse] whether it returns a URL or an error. *)

Definition ishex (c : ascii) : bool :=
  let n := nat_of_ascii c in
  ((48 <=? n) && (n <=? 57) || (97 <=? n) && (n <=? 102) || (65 <=? n) && (n <=? 70))%nat.

Definition letter (c : ascii) : bool :=
  let n := nat_of_ascii c in
  ((97 <=? n) && (n <=? 122) || (65 <=? n) && (n <=? 90))%nat.

Definition digit (c : ascii) : bool :=
  let n := nat_of_ascii c in ((48 <=? n) && (n <=? 57))%nat.

(** Whether [unescape] succeeds (in the modes that leave [+] alone): every
    percent sign is followed by two hexadecimal digits. *)
Fixpoint unescape_ok (s : string) : bool :=
  match s with
  | EmptyString => true
  | String c s' =>
      if Ascii.eqb c "%" then
        match s' with
        | String a (String b s'') => ishex a && ishex b && unescape_ok s''
        | _ => false
        end
      else unescape_ok s'
  end.

(** The loop of [getscheme] at offset [i], with [s] the input from [i] on:
    the scheme and what follows its colon, an empty scheme and the whole
    input when there is no scheme, [None] for the error of a colon at the
    start. *)
Fixpoint getscheme_at (i : nat) (rawurl s : string) : option (string * string) :=
  match s with
  | EmptyString => Some ("", rawurl)
  | String c s' =>
      if letter c then getscheme_at (S i) rawurl s'
      else if digit c || strings.mem c "+-." then
        if (i =? 0)%nat then Some ("", rawurl) else getscheme_at (S i) rawurl s'
      else if Ascii.eqb c ":" then
        if (i =? 0)%nat then None else Some (String.substring 0 i rawurl, s')
      else Some ("", rawurl)
  end.

Definition getscheme (rawurl : string) : option (string * string) :=
  getscheme_at 0 rawurl rawurl.

(** [split(s, c, cutc)]: [s] cut at the first [c], which goes to the second
    part unless [cutc]; [s] and the empty string when there is no [c]. *)
Fixpoint split (s : string) (c : ascii) (cutc : bool) : string * string :=
  match s with
  | EmptyString => ("", "")
  | String d s' =>
      if Ascii.eqb d c then ("", if cutc then s' else s)
      else let '(t, u) := split s' c cutc in (String d t, u)
  end.

(** [parseAuthority]: the host, which follows the last [@]; [None] when the
    user information in front of it does not unescape. *)
Definition parseAuthority (authority : string) : option string :=
  match strings.LastIndex authority "@" with
  | None => Some authority
  | Some i =>
      let userinfo := String.substring 0 i authority in
      let host := default "" (strings.slice_from (S i) authority) in
      if match strings.Index userinfo ":" with
         | None => unescape_ok userinfo
         | Some _ =>
             let '(username, password) := split userinfo ":" true in
             unescape_ok username && unescape_ok password
         end
      then Some host else None
  end.

(** [parse(rawurl, false)] *)
Definition parse_ok (rawurl : string) : bool :=
  if String.eqb rawurl "*" then true
  else
    match getscheme rawurl with
    | None => false
    | Some (scheme, rest) =>
        let '(rest, _) := split rest "?" true in
        if negb (strings.HasPrefix rest "/") && negb (String.eqb scheme "") then true
        else
          match
            (if (negb (String.eqb scheme "") || negb (strings.HasPrefix rest "///"))
                && strings.HasPrefix rest "//"
             then
               let '(authority, rest) := split (default "" (strings.slice_from 2 rest)) "/" false in
               match parseAuthority authority with
               | Some host => if strings.Contains host "%" then None else Some rest
               | None => None
               end
             else Some rest)
          with
          | Some rest => unescape_ok rest
          | None => false
          end
    end.

(** Whether [Parse(rawurl)] returns a URL ([err == nil]). *)
Definition Parse_ok (rawurl : string) : bool :=
  let '(u, frag) := split rawurl "#" true in
  parse_ok u && unescape_ok frag.

(** The URL of an origin-form request line [path?query]. *)
Definition origin (path rawquery : string) : URL :=
  {| Scheme := ""; Opaque := ""; User := None; Host := "";
     Path := path; RawQuery := rawquery; Fragment := "" |}.

End url.

(** ** Package [regexp] *)

Module regexp.

(** The fragment of the RE2 syntax that the program's two patterns use.
    Capturing groups carry their number. *)
Inductive Regexp :=
| Lit (s : string)                  (* a literal string *)
| Class (p : ascii → bool)          (* one byte of a character class *)
| Cat (r1 r2 : Regexp)              (* r1 r2 *)
| Plus (r : Regexp)                 (* r+, greedy *)
| Capture (i : nat) (r : Regexp)    (* (r), the i-th group *)
| BeginText                         (* ^ *)
| EndText.                          (* $ *)

(** What remains to be matched after a sub-expression: it receives the
    offset reached, the rest of the input and the groups captured so far. *)
Definition cont := nat → string → gmap nat string → option (nat * gmap nat string).

(** The matcher type of a sub-expression. *)
Definition matcher := nat → string → gmap nat string → cont → option (nat * gmap nat string).

(** The iterations of a greedy repetition: after each match of the body,
    one more iteration is tried first (as long as the body consumed input),
    and only when that fails the rest of the expression.  [fuel] bounds the
    number of iterations and is larger than the input is long. *)
Fixpoint iterate (body : matcher) (k : cont) (fuel : nat)
    (pos : nat) (s : string) (caps : gmap nat string) : option (nat * gmap nat string) :=
  match fuel with
  | O => None
  | S fuel' =>
      body pos s caps (λ pos' s' caps',
        match (if (pos <? pos')%nat then iterate body k fuel' pos' s' caps' else None) with
        | Some m => Some m
        | None => k pos' s' caps'
        end)
  end.

(** Backtracking matcher with Go's leftmost-first preference: [run r pos s
    caps k] matches [r] at offset [pos], where [s] is the input from [pos]
    on, and hands every way of matching it to [k], the preferred way first,
    until [k] succeeds. *)
Fixpoint run (r : Regexp) (pos : nat) (s : string) (caps : gmap nat string) (k : cont)
  : option (nat * gmap nat string) :=
  match r with
  | Lit l =>
      if strings.HasPrefix s l
      then match strings.slice_from (String.length l) s with
           | Some s' => k (pos + String.length l)%nat s' caps
           | None => None
           end
      else None
  | Class p =>
      match s with
      | String c s' => if p c then k (S pos) s' caps else None
      | EmptyString => None
      end
  | Cat r1 r2 => run r1 pos s caps (λ pos' s' caps', run r2 pos' s' caps' k)
  | Plus r1 => iterate (run r1) k (S (String.length s)) pos s caps
  | Capture i r1 =>
      run r1 pos s caps (λ pos' s' caps',
        k pos' s' (<[i := String.substring 0 (pos' - pos) s]> caps'))
  | BeginText => if (pos =? 0)%nat then k pos s caps else None
  | EndText => match s with EmptyString => k pos s caps | String _ _ => None end
  end.

Fixpoint NumSubexp (r : Regexp) : nat :=
  match r with
  | Cat r1 r2 => NumSubexp r1 + NumSubexp r2
  | Plus r1 => NumSubexp r1
  | Capture _ r1 => S (NumSubexp r1)
  | _ => 0
  end.

(** The leftmost match: the start offsets are tried in increasing order.
    The result is the text of the whole match followed by the text of each
    group (empty for a group that took no part in the match). *)
Fixpoint find_at (r : Regexp) (pos : nat) (s : string) : option (list string) :=
  match run r pos s ∅ (λ pos' _ caps', Some (pos', caps')) with
  | Some (e, caps) =>
      Some (String.substring 0 (e - pos) s ::
            map (λ i, default "" (caps !! i)) (seq 1 (NumSubexp r)))
  | None =>
      match s with
      | EmptyString => None
      | String _ s' => find_at r (S pos) s'
      end
  end.

(** [Regexp.FindSubmatch] and [Regexp.FindStringSubmatch]; [None] is the
    nil slice returned when there is no match. *)
Definition FindSubmatch (r : Regexp) (b : string) : option (list string) := find_at r 0 b.

Definition FindStringSubmatch (r : Regexp) (s : string) : option (list string) := find_at r 0 s.

(** [\d] *)
Definition digit (c : ascii) : bool :=
  let n := nat_of_ascii c in ((48 <=? n) && (n <=? 57))%nat.

(** [[^c]] *)
Definition other_than (c : ascii) (d : ascii) : bool := negb (Ascii.eqb d c).

End regexp.

(** ** Package [net/http] *)

Module http.

Record Request := {
  Method : string;
  URL : url.URL;
  Header : gmap string (list string);   (* keys in canonical form *)
  Host : string;
  RequestURI : string;                  (* the request target as sent *)
  TLS : bool                            (* [r.TLS != nil] *)
}.

(** [Header.Get]: the first value of the key, or the empty string. *)
Definition Header_Get (h : gmap string (list string)) (key : string) : string :=
  match h !! key with
  | Some (v :: _) => v
  | _ => ""
  end.

Definition with_path (r : Request) (p : string) : Request :=
  {| Method := Method r;
     URL := {| url.Scheme := url.Scheme (URL r); url.Opaque := url.Opaque (URL r);
               url.User := url.User (URL r); url.Host := url.Host (URL r);
               url.Path := p; url.RawQuery := url.RawQuery (URL r);
               url.Fragment := url.Fragment (URL r) |};
     Header := Header r; Host := Host r; RequestURI := RequestURI r; TLS := TLS r |}.

(** The handlers that the standard library and the rest of the repository
    provide; serving a request with one of them is an action of its own. *)
Inductive Backend :=
| FileServer (dir : string)                           (* http.FileServer(http.Dir(dir)) *)
| ReverseProxy (target : string)                      (* httputil.NewSingleHostReverseProxy *)
| CgiHandler (path root : string) (env : list string) (* cgi.Handler *)
| GodocHandler.                                       (* godocHandler{} *)

Inductive event :=
| EvSetHeader (key value : string)         (* w.Header().Set(key, value) *)
| EvWriteHeader (code : Z)                 (* w.WriteHeader(code) *)
| EvWrite (data : string)                  (* w.Write(data) *)
| EvError (error : string) (code : Z)      (* http.Error(w, error, code) *)
| EvRedirect (urlStr : string) (code : Z)  (* http.Redirect(w, r, urlStr, code) *)
| EvLog (line : string)                    (* log.Print, log.Printf *)
| EvLstat (name : string)                  (* os.Lstat(name) *)
| EvReadFile (name : string)               (* ioutil.ReadFile(name) *)
| EvExec (name : string) (args : list string)   (* exec.Command(name, args...).Output() *)
| EvServe (b : Backend) (r : Request)      (* b.ServeHTTP(w, r) *)
| EvPanic.                                 (* run-time panic of the handler *)

Definition Handler := Request → list event.

Definition StatusFound : Z := 302.
Definition StatusMovedPermanently : Z := 301.
Definition StatusBadRequest : Z := 400.
Definition StatusUnauthorized : Z := 401.
Definition StatusNotFound : Z := 404.

Definition Error (error : string) (code : Z) : list event := [EvError error code].

Definition Redirect (urlStr : string) (code : Z) : list event := [EvRedirect urlStr code].

Definition NotFound : Handler := λ _, Error "404 page not found" StatusNotFound.

Definition RedirectHandler (urlStr : string) (code : Z) : Handler := λ _, Redirect urlStr code.

Definition serve (b : Backend) : Handler := λ r, [EvServe b r].

Definition StripPrefix (prefix : string) (h : Handler) : Handler := λ r,
  if strings.HasPrefix (url.Path (URL r)) prefix
  then match strings.slice_from (String.length prefix) (url.Path (URL r)) with
       | Some p => h (with_path r p)
       | None => [EvPanic]
       end
  else NotFound r.

(** *** [ServeMux] *)

(** The request multiplexer, after [net/http] as of Go 1.1. *)

Record muxEntry := {
  explicit : bool;
  h : Handler;
  pattern : string
}.

(** The multiplexer: its map from patterns to entries, and whether any
    pattern contains a host name. *)
Record ServeMux := {
  m : gmap string muxEntry;
  hosts : bool
}.

Definition NewServeMux : ServeMux := {| m := ∅; hosts := false |}.

(** [m[key].explicit], false for a key that is not in the map. *)
Definition is_explicit (m : gmap string muxEntry) (key : string) : bool :=
  match m !! key with
  | Some e => explicit e
  | None => false
  end.

Fixpoint last_byte (s : string) : option ascii :=
  match s with
  | EmptyString => None
  | String c EmptyString => Some c
  | String _ s' => last_byte s'
  end.

Fixpoint drop_last (s : string) : string :=
  match s with
  | EmptyString => EmptyString
  | String _ EmptyString => EmptyString
  | String c s' => String c (drop_last s')
  end.

Definition ends_with_slash (s : string) : bool :=
  match last_byte s with
  | Some c => Ascii.eqb c "/"
  | None => false
  end.

(** [ServeMux.Handle]: [None] where the library panics (empty pattern, or a
    pattern registered twice).  A pattern [/tree/] also registers a permanent
    redirect from [/tree], unless [/tree] is registered explicitly. *)
Definition Handle (mux : ServeMux) (pat : string) (handler : Handler) : option ServeMux :=
  if String.eqb pat "" then None
  else if is_explicit (m mux) pat then None
  else
    let m1 := <[pat := {| explicit := true; h := handler; pattern := pat |}]> (m mux) in
    let hosts1 := hosts mux || negb (strings.HasPrefix pat "/") in
    if ends_with_slash pat && negb (is_explicit m1 (drop_last pat)) then
      let path :=
        if strings.HasPrefix pat "/" then pat
        else match strings.Index pat "/" with
             | Some i => default pat (strings.slice_from i pat)
             | None => pat
             end in
      Some {| m := <[drop_last pat := {| explicit := false;
                                         h := RedirectHandler path StatusMovedPermanently;
                                         pattern := pat |}]> m1;
              hosts := hosts1 |}
    else Some {| m := m1; hosts := hosts1 |}.

(** Does a path match a pattern?  A pattern that ends in a slash names a
    subtree, any other pattern a single path. *)
Definition pathMatch (pat path : string) : bool :=
  if String.eqb pat "" then false
  else if ends_with_slash pat then strings.HasPrefix path pat
  else String.eqb pat path.

(** One iteration of the loop of [ServeMux.match] over the map: a matching
    pattern replaces the best one so far when there is none or it is longer. *)
Definition longer_match (path : string)
    (best : option (string * muxEntry)) (ke : string * muxEntry) : option (string * muxEntry) :=
  if pathMatch (fst ke) path then
    match best with
    | None => Some ke
    | Some b => if (String.length (fst b) <? String.length (fst ke))%nat then Some ke else best
    end
  else best.

(** [ServeMux.match]: the entry of the longest pattern that matches.  The
    loop ranges over the map in an order of its own; two different patterns
    of the same length never match the same path, so the order does not
    matter. *)
Definition match_ (mux : ServeMux) (path : string) : option muxEntry :=
  snd <$> fold_left (longer_match path) (map_to_list (m mux)) None.

(** [ServeMux.handler]: host-specific patterns take precedence. *)
Definition handler (mux : ServeMux) (host path : string) : Handler :=
  match (if hosts mux then match_ mux (host +:+ path) else None) with
  | Some e => h e
  | None =>
      match match_ mux path with
      | Some e => h e
      | None => NotFound
      end
  end.

Definition cleanPath (p : string) : string :=
  if String.eqb p "" then "/"
  else
    let p := if strings.HasPrefix p "/" then p else "/" +:+ p in
    let np := filepath.Clean p in
    if ends_with_slash p && negb (String.eqb np "/") then np +:+ "/" else np.

(** [ServeMux.ServeHTTP]: a request whose path is not in canonical form is
    redirected to the canonical path; otherwise the handler of the matching
    pattern serves it. *)
Definition ServeMux_ServeHTTP (mux : ServeMux) : Handler := λ r,
  if String.eqb (RequestURI r) "*" then
    [EvSetHeader "Connection" "close"; EvWriteHeader StatusBadRequest]
  else
    let p := cleanPath (url.Path (URL r)) in
    if negb (String.eqb (Method r) "CONNECT") && negb (String.eqb p (url.Path (URL r)))
    then RedirectHandler p StatusMovedPermanently r
    else handler mux (Host r) (url.Path (URL r)) r.

End http.

(** ** The environment of the program *)

(** A Go [(value, error)] pair; an error is kept as its message. *)
Inductive result (A : Type) :=
| Ok (a : A)
| Err (err : string).

Arguments Ok {A} a.
Arguments Err {A} err.

Record FileInfo := { IsDir : bool }.

(** What the operating system answers: the file system as [os.Lstat],
    [os.Stat] and [ioutil.ReadFile] see it, the output of external commands,
    the environment and the working directory. *)
Record OS := {
  Lstat : string → result FileInfo;
  Stat : string → result FileInfo;
  ReadFile : string → result string;
  Output : string → list string → string;
  Environ : list string;
  Getwd : result string
}.

Record PageData := {
  Title : string;
  Subtitle : string;
  Content : string
}.

(** A parsed template: the writes that executing it on a value makes on
    its writer, in order (none at all for a template without output), and
    the error it stops with, if any. *)
Record Template (A : Type) := { Execute : A → list string * option string }.

Arguments Execute {A} t data.

(** [bytes.Buffer]: the bytes written into the buffer, in one piece. *)
Definition Bytes (writes : list string) : string := fold_right String.append "" writes.

(** The command-line flags. *)
Record Flags := {
  httpAddr : string;
  httpsAddr : string;
  root : string;
  gitwebScript : string;
  gitwebFiles : string;
  logDir : string;
  logStdout : bool;
  tlsCertFile : string;
  tlsKeyFile : string;
  gerritUser : string;
  gerritHost : string;
  buildbotBackend : string;
  buildbotHost : string
}.

Definition defaultAddr : string := ":31798".

Definition defaultFlags : Flags :=
  {| httpAddr := defaultAddr; httpsAddr := ""; root := "";
     gitwebScript := "/usr/lib/cgi-bin/gitweb.cgi";
     gitwebFiles := "/usr/share/gitweb/static";
     logDir := ""; logStdout := true; tlsCertFile := ""; tlsKeyFile := "";
     gerritUser := "ubuntu"; gerritHost := ""; buildbotBackend := ""; buildbotHost := "" |}.

Definition set_root (f : Flags) (v : string) : Flags :=
  {| httpAddr := httpAddr f; httpsAddr := httpsAddr f; root := v;
     gitwebScript := gitwebScript f; gitwebFiles := gitwebFiles f;
     logDir := logDir f; logStdout := logStdout f; tlsCertFile := tlsCertFile f;
     tlsKeyFile := tlsKeyFile f; gerritUser := gerritUser f; gerritHost := gerritHost f;
     buildbotBackend := buildbotBackend f; buildbotHost := buildbotHost f |}.

Definition set_gitwebFiles (f : Flags) (v : string) : Flags :=
  {| httpAddr := httpAddr f; httpsAddr := httpsAddr f; root := root f;
     gitwebScript := gitwebScript f; gitwebFiles := v;
     logDir := logDir f; logStdout := logStdout f; tlsCertFile := tlsCertFile f;
     tlsKeyFile := tlsKeyFile f; gerritUser := gerritUser f; gerritHost := gerritHost f;
     buildbotBackend := buildbotBackend f; buildbotHost := buildbotHost f |}.

(** ** [camweb.go] *)

Import http.

(** [<h1>([^<]+)</h1>] *)
Definition h1TitlePattern : regexp.Regexp :=
  regexp.Cat (regexp.Lit "<h1>")
    (regexp.Cat (regexp.Capture 1 (regexp.Plus (regexp.Class (regexp.other_than "<"))))
       (regexp.Lit "</h1>")).

(** [^/issue/(\d+)$] *)
Definition issueNum : regexp.Regexp :=
  regexp.Cat regexp.BeginText
    (regexp.Cat (regexp.Lit "/issue/")
       (regexp.Cat (regexp.Capture 1 (regexp.Plus (regexp.Class regexp.digit)))
          regexp.EndText)).

Section camweb.

Variable os : OS.
Variable flags : Flags.
Variables (pageHtml : Template PageData) (errorHtml : Template string).

(** The lower-casing of text that is not ASCII, see [strings.ToLower]. *)
Variable unicode_lower : string → string.

(** Returns the log line of a failed execution, if any, and the bytes of
    the buffer that the template wrote into. *)
Definition applyTemplate {A : Type} (t : Template A) (name : string) (data : A)
  : list event * string :=
  let '(writes, err) := Execute t data in
  (match err with
   | Some e => [EvLog (name +:+ ".Execute: " +:+ e)]
   | None => []
   end, Bytes writes).

(** The page template is executed into the response writer: each of its
    writes is an [EvWrite], and a template that writes nothing makes no call
    on the response writer. *)
Definition servePage (title subtitle : string) (content : string) : list event :=
  let d := {| Title := title; Subtitle := subtitle; Content := content |} in
  let '(writes, err) := Execute pageHtml d in
  map EvWrite writes ++
  match err with
  | Some e => [EvLog ("godocHTML.Execute: " +:+ e)]
  | None => []
  end.

Definition serveError (r : Request) (relpath : string) (err : string) : list event :=
  let '(logged, contents) := applyTemplate errorHtml "errorHtml" err in
  logged ++ [EvWriteHeader StatusNotFound] ++ servePage ("File " +:+ relpath) "" contents.

Definition serveFile (req : Request) (relPath absPath : string) : list event :=
  EvReadFile absPath ::
  match ReadFile os absPath with
  | Err err => serveError req absPath err
  | Ok data =>
      let title :=
        match regexp.FindSubmatch h1TitlePattern data with
        | Some m => if (1 <? length m)%nat then default "" (m !! 1%nat) else ""
        | None => ""
        end in
      servePage title "" data
  end.

(** The final [switch] of [mainHandler]: only a target that is not a
    directory is served. *)
Definition serveResolved (req : Request) (relPath absPath : string) (fi : FileInfo)
  : list event :=
  if negb (IsDir fi) then serveFile req relPath absPath else [].

Definition mainHandler : Handler := λ req,
  match strings.slice_from 1 (url.Path (URL req)) with
  | None => [EvPanic]
  | Some relPath =>
      if strings.Contains relPath ".." then []
      else if strings.HasPrefix relPath "gw/" then
        match strings.slice_from 3 relPath with
        | Some path =>
            Redirect ("http://camlistore.org/code/?p=camlistore.git;f=" +:+ path +:+ ";hb=master")
              StatusFound
        | None => [EvPanic]
        end
      else
        let absPath := filepath.Join [root flags; "content"; relPath] in
        EvLstat absPath ::
        match Lstat os absPath with
        | Err err => EvLog err :: serveError req relPath err
        | Ok fi =>
            if IsDir fi then
              let relPath := relPath +:+ "/index.html" in
              let absPath := filepath.Join [root flags; "content"; relPath] in
              EvLstat absPath ::
              match Lstat os absPath with
              | Err err => EvLog err :: serveError req relPath err
              | Ok fi => serveResolved req relPath absPath fi
              end
            else serveResolved req relPath absPath fi
        end
  end.

Definition gitwebHandler (Cgi Static : Handler) : Handler := λ r,
  if String.eqb (url.Path (URL r)) "/code/" || strings.HasPrefix (url.Path (URL r)) "/code/?"
  then Cgi r
  else Static r.

Definition isBot (r : Request) : bool :=
  let agent := Header_Get (Header r) "User-Agent" in
  strings.Contains agent "Baidu" || strings.Contains agent "bingbot" ||
  strings.Contains agent "Ezooms" || strings.Contains agent "Googlebot".

Definition noWwwHandler (Handler : http.Handler) : http.Handler := λ r,
  let ru := url.RequestURI (URL r) in
  if strings.Contains ru "/code/" && strings.Contains ru "?" && isBot r then
    Error "bye" StatusUnauthorized ++ [EvLog "bot denied"]
  else
    let host := strings.ToLower unicode_lower (Host r) in
    if String.eqb host "www.camlistore.org" then
      Redirect ("http://camlistore.org" +:+ url.RequestURI (URL r)) StatusFound
    else Handler r.

Definition issueRedirect : Handler := λ r,
  match regexp.FindStringSubmatch issueNum (url.Path (URL r)) with
  | None => Error "Bad request" 400
  | Some m =>
      Redirect ("https://code.google.com/p/camlistore/issues/detail?id=" +:+ default "" (m !! 1%nat))
        StatusFound
  end.

Definition fixUpGitwebUrls (handler : Handler) : Handler := λ req,
  let oldUrl := url.String_ (URL req) in
  let newUrl := strings.Replace oldUrl "%3B" ";" (-1) in
  if String.eqb newUrl oldUrl then handler req
  else Redirect newUrl StatusFound.

Definition ipHandler : Handler := λ r,
  let args := ["-f"; "inet"; "addr"; "show"; "dev"; "eth0"] in
  let str := Output os "ip" args in
  EvExec "ip" args ::
  match strings.Index str "inet " with
  | None => []
  | Some pos =>
      match strings.slice_from (pos + 5) str with
      | None => [EvPanic]
      | Some str =>
          match strings.Index str "/" with
          | None => []
          | Some pos => [EvWrite (String.substring 0 pos str)]
          end
      end
  end.

(** The handler that [main] registers for the code-review route. *)
Definition gerritHandler : Handler :=
  let proxyHandler := serve (ReverseProxy ("http://" +:+ gerritHost flags +:+ ":8000/")) in
  if negb (String.eqb (httpsAddr flags) "") then
    λ req,
      if TLS req then proxyHandler req
      else Redirect ("https://camlistore.org" +:+ url.RequestURI (URL req)) StatusFound
  else proxyHandler.

Definition latestGits : string := filepath.Join [root flags; "latestgits"].

Definition testCgi : Handler :=
  serve (CgiHandler (filepath.Join [root flags; "test.cgi"]) "/test.cgi" []).

Definition gitwebCgi : Backend :=
  CgiHandler (gitwebScript flags) "/code/"
    (Environ os ++
     ["GITWEB_CONFIG=" +:+ filepath.Join [root flags; "gitweb-camli.conf"];
      "CAMWEB_ROOT=" +:+ filepath.Join [root flags];
      "CAMWEB_GITDIR=" +:+ latestGits]).

(** The calls of [mux.Handle] and [mux.HandleFunc] that [main] makes when
    it gets through all of them, in order.  A proxy is kept by the text of
    its URL. *)
Definition registrations : list (string * Handler) :=
  [("/favicon.ico", serve (FileServer (filepath.Join [root flags; "static"])));
   ("/robots.txt", serve (FileServer (filepath.Join [root flags; "static"])));
   ("/static/", StripPrefix "/static/" (serve (FileServer (filepath.Join [root flags; "static"]))));
   ("/talks/", StripPrefix "/talks/" (serve (FileServer (filepath.Join [root flags; "talks"]))));
   ("/pkg/", serve GodocHandler);
   ("/cmd/", serve GodocHandler);
   ("/r/", gerritHandler);
   ("/debugz/ip", ipHandler);
   ("/test.cgi", testCgi);
   ("/test.cgi/foo", testCgi);
   ("/code", RedirectHandler "/code/" StatusFound)] ++
  (if negb (String.eqb (gitwebScript flags) "") then
     [("/code/", fixUpGitwebUrls
                   (gitwebHandler (serve gitwebCgi)
                      (StripPrefix "/code/" (serve (FileServer (gitwebFiles flags))))))]
   else []) ++
  [("/issue/", issueRedirect);
   ("/", mainHandler)] ++
  (if negb (String.eqb (buildbotHost flags) "") && negb (String.eqb (buildbotBackend flags) "") then
     [(strings.TrimRight (buildbotHost flags) "/" +:+ "/", serve (ReverseProxy (buildbotBackend flags)))]
   else []).

(** The multiplexer after all registrations; [None] where [main] does not
    get that far.  [main] ignores the error of parsing the code-review URL,
    and the proxy constructor then panics on the nil URL; it stops with
    [log.Fatalf] when the build-status URL does not parse; and a
    registration can panic. *)
Definition mux : option ServeMux :=
  if negb (url.Parse_ok ("http://" +:+ gerritHost flags +:+ ":8000/")) then None
  else if negb (String.eqb (buildbotHost flags) "") && negb (String.eqb (buildbotBackend flags) "")
          && negb (url.Parse_ok (buildbotBackend flags)) then None
  else
    fold_left (λ (mux : option ServeMux) (ph : string * Handler),
                 mux ≫= λ mux, Handle mux (fst ph) (snd ph))
              registrations (Some NewServeMux).

(** The handler that both servers run.  ([main] wraps the request logger
    of [logging.go] around it when logging is on.) *)
Definition handler : option Handler :=
  (λ mux, noWwwHandler (ServeMux_ServeHTTP mux)) <$> mux.

End camweb.

Definition fixupGitwebFiles (os : OS) (flags : Flags) : Flags :=
  let not_a_dir :=
    match Stat os (gitwebFiles flags) with
    | Err _ => true
    | Ok fi => negb (IsDir fi)
    end in
  if not_a_dir && String.eqb (gitwebFiles flags) "/usr/share/gitweb/static"
  then set_gitwebFiles flags "/usr/share/gitweb"
  else flags.

(** The flags as [main] leaves them before the routes are registered;
    [None] where it stops because the working directory is not known. *)
Definition startup (os : OS) (flags : Flags) : option Flags :=
  (if String.eqb (root flags) "" then
     match Getwd os with
     | Ok wd => Some (set_root flags wd)
     | Err _ => None
     end
   else Some flags) ≫= λ flags, Some (fixupGitwebFiles os flags).

Definition main (os : OS) (flags : Flags) (pageHtml : Template PageData) (errorHtml : Template string)
    (unicode_lower : string → string) : option Handler :=
  startup os flags ≫= λ flags, handler os flags pageHtml errorHtml unicode_lower.

(** ** Vocabulary of the properties *)

(** The user-agent substrings of the bot check. *)
Definition botAgents : list string := ["Baidu"; "bingbot"; "Ezooms"; "Googlebot"].

(** A relative path with a parent-directory segment. *)
Definition traversal_segment (relPath : string) : Prop :=
  In ".." (strings.Split relPath "/").

Fixpoint all_bytes (p : ascii → bool) (s : string) : bool :=
  match s with
  | EmptyString => true
  | String c s' => p c && all_bytes p s'
  end.

(** The actions that make up the response to the client. *)
Definition response_event (e : event) : bool :=
  match e with
  | EvSetHeader _ _ | EvWriteHeader _ | EvWrite _ | EvError _ _ | EvRedirect _ _
  | EvServe _ _ => true
  | _ => false
  end.

Definition response (trace : list event) : list event := List.filter response_event trace.

(** Pages are what the page template writes for a title, an empty subtitle
    and a body: the writes of the template, in order. *)
Definition rendered (pageHtml : Template PageData) (title content : string) : list string :=
  fst (Execute pageHtml {| Title := title; Subtitle := ""; Content := content |}).

(** The error page for a name and an error: status 404, then the page
    titled with the name whose body is what the error template writes. *)
Definition error_page (pageHtml : Template PageData) (errorHtml : Template string)
    (name err : string) : list event :=
  EvWriteHeader 404 ::
  map EvWrite (rendered pageHtml ("File " +:+ name) (Bytes (fst (Execute errorHtml err)))).

(** The three answers of the fallback handler: a redirect to gitweb, the
    error page with status 404, or a rendered page. *)
Inductive fallback_answer (pageHtml : Template PageData) (errorHtml : Template string)
  : list event → Prop :=
| answer_redirect (target : string) :
    fallback_answer pageHtml errorHtml [EvRedirect target 302]
| answer_error_page (name err : string) :
    fallback_answer pageHtml errorHtml (error_page pageHtml errorHtml name err)
| answer_page (title data : string) :
    fallback_answer pageHtml errorHtml (map EvWrite (rendered pageHtml title data)).

(** The title of a served file as computed by [serveFile]. *)
Definition served_title (data : string) : string :=
  match regexp.FindSubmatch h1TitlePattern data with
  | Some m => if (1 <? length m)%nat then default "" (m !! 1%nat) else ""
  | None => ""
  end.

(** What a request that resolves to a file of the content tree is answered
    with: the page rendered from the bytes of the file under the title found
    in them, or the error page for the absolute name when the file cannot be
    read. *)
Definition served (os : OS) (pageHtml : Template PageData) (errorHtml : Template string)
    (absPath : string) : list event :=
  match ReadFile os absPath with
  | Ok data => map EvWrite (rendered pageHtml (served_title data) data)
  | Err err => error_page pageHtml errorHtml absPath err
  end.

(** The answer to a request for the relative path [relPath], case by case:
    nothing for a path with two consecutive dots; the redirect to gitweb
    under [gw/]; the error page when the path, or the [index.html] of the
    directory it names, cannot be examined; nothing when that [index.html]
    is a directory; and otherwise what the file found is served with. *)
Definition content_answer (os : OS) (flags : Flags)
    (pageHtml : Template PageData) (errorHtml : Template string) (relPath : string)
  : list event :=
  if strings.Contains relPath ".." then []
  else if strings.HasPrefix relPath "gw/" then
    [EvRedirect ("http://camlistore.org/code/?p=camlistore.git;f="
                 +:+ default "" (strings.slice_from 3 relPath) +:+ ";hb=master") 302]
  else
    let absPath := filepath.Join [root flags; "content"; relPath] in
    match Lstat os absPath with
    | Err err => error_page pageHtml errorHtml relPath err
    | Ok {| IsDir := false |} => served os pageHtml errorHtml absPath
    | Ok {| IsDir := true |} =>
        let indexPath := filepath.Join [root flags; "content"; relPath +:+ "/index.html"] in
        match Lstat os indexPath with
        | Err err => error_page pageHtml errorHtml (relPath +:+ "/index.html") err
        | Ok {| IsDir := false |} => served os pageHtml errorHtml indexPath
        | Ok {| IsDir := true |} => []
        end
    end.

(** The title as the specification words it: the text between the first
    [<h1>] of the file and the first [</h1>] after it, and the empty string
    when there is no such pair. *)
Definition first_h1_text (data : string) : string :=
  match strings.Index data "<h1>" with
  | None => ""
  | Some i =>
      match strings.slice_from (i + 4) data with
      | None => ""
      | Some rest =>
          match strings.Index rest "</h1>" with
          | None => ""
          | Some j => String.substring 0 j rest
          end
      end
  end.

(** An occurrence of [<h1>t</h1>] that the title pattern accepts: [t] is not
    empty and has no [<] in it. *)
Definition h1_occurrence (data pre t post : string) : Prop :=
  data = pre +:+ "<h1>" +:+ t +:+ "</h1>" +:+ post ∧
  t ≠ "" ∧ all_bytes (regexp.other_than "<") t = true.

(** The longest prefix of bytes of a class, and what follows it. *)
Fixpoint take_while (p : ascii → bool) (s : string) : string :=
  match s with
  | EmptyString => EmptyString
  | String c s' => if p c then String c (take_while p s') else EmptyString
  end.

Fixpoint drop_while (p : ascii → bool) (s : string) : string :=
  match s with
  | EmptyString => EmptyString
  | String c s' => if p c then drop_while p s' else s
  end.

(** An accepted [<h1>t</h1>] at the very start of a string. *)
Definition h1_here (s : string) : option string :=
  if strings.HasPrefix s "<h1>" then
    match strings.slice_from 4 s with
    | Some s1 =>
        let t := take_while (regexp.other_than "<") s1 in
        if negb (String.eqb t "") && strings.HasPrefix (drop_while (regexp.other_than "<") s1) "</h1>"
        then Some t else None
    | None => None
    end
  else None.

(** The first accepted [<h1>t</h1>], scanning from the left. *)
Fixpoint first_h1 (s : string) : option string :=
  match h1_here s with
  | Some t => Some t
  | None =>
      match s with
      | EmptyString => None
      | String _ s' => first_h1 s'
      end
  end.

(** The numeric id of an issue path: [/issue/] followed by one or more
    decimal digits and nothing else. *)
Definition issue_id (path : string) : option string :=
  if strings.HasPrefix path "/issue/" then
    match strings.slice_from 7 path with
    | Some d => if negb (String.eqb d "") && all_bytes regexp.digit d then Some d else None
    | None => None
    end
  else None.

(** ** A small site, for evaluating the handlers *)

(** A file tree: [None] is a directory, [Some data] a regular file. *)
Definition os_of_tree (tree : gmap string (option string)) (ip : string) : OS :=
  {| Lstat := λ name,
       match tree !! name with
       | Some None => Ok {| IsDir := true |}
       | Some (Some _) => Ok {| IsDir := false |}
       | None => Err ("lstat " +:+ name +:+ ": no such file or directory")
       end;
     Stat := λ name,
       match tree !! name with
       | Some None => Ok {| IsDir := true |}
       | Some (Some _) => Ok {| IsDir := false |}
       | None => Err ("stat " +:+ name +:+ ": no such file or directory")
       end;
     ReadFile := λ name,
       match tree !! name with
       | Some (Some data) => Ok data
       | Some None => Err ("read " +:+ name +:+ ": is a directory")
       | None => Err ("open " +:+ name +:+ ": no such file or directory")
       end;
     Output := λ _ _, ip;
     Environ := [];
     Getwd := Ok "/srv/camweb" |}.

Definition site_tree : gmap string (option string) :=
  {[ "/srv/camweb/content" := None;
     "/srv/camweb/content/docs" := None;
     "/srv/camweb/content/docs/index.html" := Some "<html><h1>Docs</h1><p>Overview</p></html>";
     "/srv/camweb/content/plain.html" := Some "<h1><b>Hi</b></h1>";
     "/srv/camweb/content/gw" := None;
     "/srv/camweb/content/gw/x" := None;
     "/srv/camweb/content/gw/x/index.html" := Some "<h1>Mirror</h1>";
     "/srv/camweb/content/empty" := None;
     "/srv/camweb/content/empty/index.html" := None ]}.

Definition site_os : OS := os_of_tree site_tree "    inet 10.0.0.7/24 brd 10.0.0.255 scope global eth0".

Definition site_flags : Flags := set_root defaultFlags "/srv/camweb".

Definition site_page : Template PageData :=
  {| Execute := λ d, (["<title>" +:+ Title d +:+ "</title>" +:+ Content d], None) |}.

Definition site_error : Template string :=
  {| Execute := λ err, (["<pre>"; err; "</pre>"], None) |}.

Definition get (host path query agent : string) : Request :=
  {| Method := "GET"; URL := url.origin path query;
     Header := {[ "User-Agent" := [agent] ]};
     Host := host;
     RequestURI := url.RequestURI (url.origin path query);
     TLS := false |}.

(** The hosts of the requests below are ASCII, for which the case tables
    are not consulted. *)
Definition site_lower : string → string := λ s, s.

Definition site_handler : Handler := λ r,
  match main site_os site_flags site_page site_error site_lower with
  | Some h => h r
  | None => [EvPanic]
  end.

(** ** The template formatters of [camweb.go] *)

(** [template.HTMLEscape]: the five characters that are special in HTML are
    replaced by entities (as of Go 1.1). *)
Definition escape_byte (c : ascii) : string :=
  if Ascii.eqb c "034" then "&#34;"
  else if Ascii.eqb c "'" then "&#39;"
  else if Ascii.eqb c "&" then "&amp;"
  else if Ascii.eqb c "<" then "&lt;"
  else if Ascii.eqb c ">" then "&gt;"
  else String c EmptyString.

Fixpoint HTMLEscape (b : string) : string :=
  match b with
  | EmptyString => EmptyString
  | String c b' => escape_byte c +:+ HTMLEscape b'
  end.

(** The dynamic type of a template value, as [writeAny] switches on it: a
    byte slice, a string, or anything else, kept by what [fmt.Fprint] prints
    for it. *)
Inductive value :=
| VBytes (v : string)
| VString (v : string)
| VOther (printed : string).

(** A writer is modelled by the bytes written to it.  [writeText]: *)
Definition writeText (text : string) (html : bool) : string :=
  if html then HTMLEscape text else text.

Definition writeAny (html : bool) (x : value) : string :=
  match x with
  | VBytes v => writeText v html
  | VString v => writeText v html
  | VOther printed =>
      if html then
        let buf := printed in
        writeText buf true
      else printed
  end.

(** The formatters take the values as a variadic list and use [x[0]]: with
    no value they panic ([None]).  Otherwise they give the bytes written to
    [w] and the string returned. *)
Definition textFmt (format : string) (x : list value) : option (string * string) :=
  match x with
  | x0 :: _ => Some (writeAny false x0, "")
  | [] => None
  end.

Definition htmlFmt (format : string) (x : list value) : option (string * string) :=
  match x with
  | x0 :: _ => Some (writeAny true x0, "")
  | [] => None
  end.

Definition htmlEscFmt (format : string) (x : list value) : option (string * string) :=
  match x with
  | x0 :: _ =>
      let buf := writeAny false x0 in
      Some (HTMLEscape buf, "")
  | [] => None
  end.

(** The map [fmap] of the formatters by name. *)
Definition formatters : gmap string (string → list value → option (string * string)) :=
  {[ "" := textFmt; "html" := htmlFmt; "htmlesc" := htmlEscFmt ]}.

(** ** Vocabulary of the further properties *)

(** The names of the files that a trace examines or reads, in order. *)
Fixpoint accessed (trace : list event) : list string :=
  match trace with
  | [] => []
  | EvLstat name :: trace' => name :: accessed trace'
  | EvReadFile name :: trace' => name :: accessed trace'
  | _ :: trace' => accessed trace'
  end.

Fixpoint panics (trace : list event) : bool :=
  match trace with
  | [] => false
  | EvPanic :: _ => true
  | _ :: trace' => panics trace'
  end.

(** A file name in the content directory: the directory itself, or a name
    below it. *)
Definition under_content (flags : Flags) (name : string) : Prop :=
  ∃ rest, name = filepath.Join [root flags; "content"] +:+ rest ∧
          (rest = "" ∨ strings.HasPrefix rest "/" = true).

(** The bytes of markup: the angle brackets, the double quote (code 34)
    and the apostrophe. *)
Definition markup (c : ascii) : bool :=
  Ascii.eqb c "<" || Ascii.eqb c ">" || Ascii.eqb c "034" || Ascii.eqb c "'".

Definition build_status_pattern (flags : Flags) : string :=
  strings.TrimRight (buildbotHost flags) "/" +:+ "/".

Definition build_status_enabled (flags : Flags) : bool :=
  negb (String.eqb (buildbotHost flags) "") && negb (String.eqb (buildbotBackend flags) "").


(** ** Evaluation with other flags *)

Definition set_gitwebScript (f : Flags) (v : string) : Flags :=
  {| httpAddr := httpAddr f; httpsAddr := httpsAddr f; root := root f;
     gitwebScript := v; gitwebFiles := gitwebFiles f;
     logDir := logDir f; logStdout := logStdout f; tlsCertFile := tlsCertFile f;
     tlsKeyFile := tlsKeyFile f; gerritUser := gerritUser f; gerritHost := gerritHost f;
     buildbotBackend := buildbotBackend f; buildbotHost := buildbotHost f |}.

(** A content tree with a directory whose [index.html] is a directory. *)
Definition nested_tree : gmap string (option string) :=
  {[ "/srv/camweb/content/d" := None; "/srv/camweb/content/d/index.html" := None ]}.

Definition set_buildbot (f : Flags) (host backend : string) : Flags :=
  {| httpAddr := httpAddr f; httpsAddr := httpsAddr f; root := root f;
     gitwebScript := gitwebScript f; gitwebFiles := gitwebFiles f;
     logDir := logDir f; logStdout := logStdout f; tlsCertFile := tlsCertFile f;
     tlsKeyFile := tlsKeyFile f; gerritUser := gerritUser f; gerritHost := gerritHost f;
     buildbotBackend := backend; buildbotHost := host |}.

Definition set_gerritHost (f : Flags) (v : string) : Flags :=
  {| httpAddr := httpAddr f; httpsAddr := httpsAddr f; root := root f;
     gitwebScript := gitwebScript f; gitwebFiles := gitwebFiles f;
     logDir := logDir f; logStdout := logStdout f; tlsCertFile := tlsCertFile f;
     tlsKeyFile := tlsKeyFile f; gerritUser := gerritUser f; gerritHost := v;
     buildbotBackend := buildbotBackend f; buildbotHost := buildbotHost f |}.

(** A page template without output. *)
Definition blank_page : Template PageData := {| Execute := λ _, ([], None) |}.
(** * Evaluation on concrete inputs *)

Example Replace_semicolons :
  strings.Replace "/code/?p=x%3Bf=y%3Bhb=master" "%3B" ";" (-1) = "/code/?p=x;f=y;hb=master".
Proof. reflexivity. Qed.

Example Replace_leftmost : strings.Replace "aaaa" "aa" "b" (-1) = "bb".
Proof. reflexivity. Qed.

Example Replace_limited : strings.Replace "aaaa" "aa" "b" 1 = "baa".
Proof. reflexivity. Qed.

Example ToLower_host (unicode_lower : string → string) :
  strings.ToLower unicode_lower "WWW.Camlistore.ORG" = "www.camlistore.org".
Proof. reflexivity. Qed.

Example ToLower_beyond_ASCII (unicode_lower : string → string) :
  strings.ToLower unicode_lower (String (ascii_of_nat 195) (String (ascii_of_nat 137) "COLE"))
  = unicode_lower (String (ascii_of_nat 195) (String (ascii_of_nat 137) "COLE")).
Proof. reflexivity. Qed.

Example LastIndex_at : strings.LastIndex "a@b@c" "@" = Some 3%nat.
Proof. reflexivity. Qed.

Example Parse_backend : url.Parse_ok "http://localhost:8010/" = true.
Proof. reflexivity. Qed.

Example Parse_bad_escape : url.Parse_ok "%zz" = false.
Proof. reflexivity. Qed.

Example Parse_escape_in_host : url.Parse_ok "http://build%41.example.org:8000/" = false.
Proof. reflexivity. Qed.

Example Parse_escape_in_user : url.Parse_ok "http://u%41:p@example.org/%7Euser?x=%zz" = true.
Proof. reflexivity. Qed.

Example Parse_colon_first : url.Parse_ok ":8000" = false.
Proof. reflexivity. Qed.

Example Parse_opaque : url.Parse_ok "mailto:%zz" = true.
Proof. reflexivity. Qed.

Example Parse_fragment : url.Parse_ok "http://example.org/#%zz" = false.
Proof. reflexivity. Qed.

Example TrimRight_slashes : strings.TrimRight "build.example.org//" "/" = "build.example.org".
Proof. reflexivity. Qed.

Example Split_slashes : strings.Split "a//b/" "/" = ["a"; ""; "b"; ""].
Proof. reflexivity. Qed.

Example Clean_double_slash :
  filepath.Clean "/srv/web/content/doc//index.html" = "/srv/web/content/doc/index.html".
Proof. reflexivity. Qed.

Example Clean_relative : filepath.Clean "a/./b/../../../c/" = "../c".
Proof. reflexivity. Qed.

Example Clean_root : filepath.Clean "/../a/.." = "/".
Proof. reflexivity. Qed.

Example Join_skips_empty : filepath.Join [""; "content"; "doc/"] = "content/doc".
Proof. reflexivity. Qed.

Example RequestURI_query :
  url.RequestURI (url.origin "/code/" "p=camlistore.git;a=summary") = "/code/?p=camlistore.git;a=summary".
Proof. reflexivity. Qed.

Example RequestURI_escapes : url.RequestURI (url.origin "/code/?x y" "") = "/code/%3Fx%20y".
Proof. reflexivity. Qed.

Example String_keeps_query : url.String_ (url.origin "/code/" "p=x%3Bf=y") = "/code/?p=x%3Bf=y".
Proof. reflexivity. Qed.

Example title_leftmost_accepted :
  regexp.FindSubmatch h1TitlePattern "<p><h1></h1><h1>a<h1>Title</h1>x<h1>B</h1>"
  = Some ["<h1>Title</h1>"; "Title"].
Proof. vm_compute. reflexivity. Qed.

Example issue_number : regexp.FindStringSubmatch issueNum "/issue/1234" = Some ["/issue/1234"; "1234"].
Proof. vm_compute. reflexivity. Qed.

Example issue_trailing : regexp.FindStringSubmatch issueNum "/issue/12a" = None.
Proof. vm_compute. reflexivity. Qed.

(** The end-to-end cases of the specification, on the small site. *)

Example get_issue :
  site_handler (get "camlistore.org" "/issue/1234" "" "curl")
  = [EvRedirect "https://code.google.com/p/camlistore/issues/detail?id=1234" 302].
Proof. vm_compute. reflexivity. Qed.

Example get_issue_abc :
  site_handler (get "camlistore.org" "/issue/abc" "" "curl") = [EvError "Bad request" 400].
Proof. vm_compute. reflexivity. Qed.

Example get_nonexistent :
  response (site_handler (get "camlistore.org" "/nonexistent/page" "" "curl"))
  = [EvWriteHeader 404;
     EvWrite "<title>File nonexistent/page</title><pre>lstat /srv/camweb/content/nonexistent/page: no such file or directory</pre>"].
Proof. vm_compute. reflexivity. Qed.

Example get_code_broken_url :
  site_handler (get "camlistore.org" "/code/" "p=x%3Bf=y" "curl") = [EvRedirect "/code/?p=x;f=y" 302].
Proof. vm_compute. reflexivity. Qed.

Example get_docs :
  site_handler (get "camlistore.org" "/docs/" "" "curl")
  = [EvLstat "/srv/camweb/content/docs"; EvLstat "/srv/camweb/content/docs/index.html";
     EvReadFile "/srv/camweb/content/docs/index.html";
     EvWrite "<title>Docs</title><html><h1>Docs</h1><p>Overview</p></html>"].
Proof. vm_compute. reflexivity. Qed.

Example get_static_redirect :
  site_handler (get "camlistore.org" "/static" "" "curl") = [EvRedirect "/static/" 301].
Proof. vm_compute. reflexivity. Qed.

Example get_ip :
  site_handler (get "camlistore.org" "/debugz/ip" "" "curl")
  = [EvExec "ip" ["-f"; "inet"; "addr"; "show"; "dev"; "eth0"]; EvWrite "10.0.0.7"].
Proof. vm_compute. reflexivity. Qed.

Example get_traversal_redirected :
  site_handler (get "camlistore.org" "/docs/../secret" "" "curl") = [EvRedirect "/secret" 301].
Proof. vm_compute. reflexivity. Qed.

Example get_index_directory :
  site_handler (get "camlistore.org" "/empty/" "" "curl")
  = [EvLstat "/srv/camweb/content/empty"; EvLstat "/srv/camweb/content/empty/index.html"].
Proof. vm_compute. reflexivity. Qed.

Example get_gw :
  site_handler (get "camlistore.org" "/gw/doc/README" "" "curl")
  = [EvRedirect "http://camlistore.org/code/?p=camlistore.git;f=doc/README;hb=master" 302].
Proof. vm_compute. reflexivity. Qed.

(** * Facts about strings *)

Lemma append_assoc (a b c : string) : (a +:+ b) +:+ c = a +:+ b +:+ c.
Proof. induction a as [|x a IH]; simpl; [reflexivity | now rewrite IH]. Qed.

Lemma append_nil_r (a : string) : a +:+ "" = a.
Proof. induction a as [|x a IH]; simpl; [reflexivity | now rewrite IH]. Qed.

Lemma length_append (a b : string) :
  String.length (a +:+ b) = (String.length a + String.length b)%nat.
Proof. induction a as [|x a IH]; simpl; [reflexivity | now rewrite IH]. Qed.

Lemma substring_all (s : string) : String.substring 0 (String.length s) s = s.
Proof. induction s as [|x s IH]; simpl; [reflexivity | now rewrite IH]. Qed.

Lemma substring_prefix (a b : string) : String.substring 0 (String.length a) (a +:+ b) = a.
Proof.
  induction a as [|x a IH]; simpl.
  - now destruct b.
  - now rewrite IH.
Qed.

Lemma slice_from_append (a b : string) : strings.slice_from (String.length a) (a +:+ b) = Some b.
Proof. induction a as [|x a IH]; simpl; [reflexivity | exact IH]. Qed.

Lemma HasPrefix_iff (s p : string) : strings.HasPrefix s p = true ↔ ∃ t, s = p +:+ t.
Proof.
  revert s. induction p as [|x p IH]; intros s; simpl.
  - split; [intros _; now exists s | reflexivity].
  - destruct s as [|c s].
    + split; [discriminate | intros [t Ht]; discriminate].
    + rewrite andb_true_iff, Ascii.eqb_eq, IH. split.
      * intros [-> [t ->]]. now exists t.
      * intros [t Ht]. injection Ht as -> ->. split; [reflexivity | now exists t].
Qed.

Lemma HasPrefix_append (p t : string) : strings.HasPrefix (p +:+ t) p = true.
Proof. apply HasPrefix_iff. now exists t. Qed.

Lemma HasPrefix_extend (s p t : string) :
  strings.HasPrefix s p = true → strings.HasPrefix (s +:+ t) p = true.
Proof.
  rewrite !HasPrefix_iff. intros [u ->]. exists (u +:+ t). apply append_assoc.
Qed.

Lemma Contains_iff (s sub : string) :
  strings.Contains s sub = true ↔ ∃ a b, s = a +:+ sub +:+ b.
Proof.
  induction s as [|c s IH]; simpl.
  - rewrite orb_false_r, HasPrefix_iff. split.
    + intros [t Ht]. now exists "", t.
    + intros [a [b Hab]]. destruct a; [now exists b | discriminate].
  - rewrite orb_true_iff, HasPrefix_iff, IH. split.
    + intros [[t Ht] | [a [b Hab]]].
      * now exists "", t.
      * exists (String c a), b. simpl. now rewrite Hab.
    + intros [a [b Hab]]. destruct a as [|x a].
      * left. now exists b.
      * right. simpl in Hab. injection Hab as _ ->. now exists a, b.
Qed.

Lemma Contains_prefix (s sub : string) :
  strings.HasPrefix s sub = true → strings.Contains s sub = true.
Proof. destruct s; simpl; intros ->; reflexivity. Qed.

Lemma Split_head (s : string) (sep : ascii) (e : string) (rest : list string) :
  strings.Split s sep = e :: rest → ∃ b, s = e +:+ b.
Proof.
  revert e rest. induction s as [|c s IH]; intros e rest; simpl.
  - intros [= <- <-]. now exists "".
  - destruct (Ascii.eqb c sep).
    + intros [= <- <-]. now exists (String c s).
    + destruct (strings.Split s sep) as [|e0 rest0] eqn:Hs.
      * intros [= <- <-]. now exists s.
      * intros [= <- <-]. destruct (IH e0 rest0 eq_refl) as [b ->]. now exists b.
Qed.

(** Every element of a split is a substring, so a path with a [..] segment
    contains the two dots. *)
Lemma Split_element (s : string) (sep : ascii) (e : string) :
  In e (strings.Split s sep) → ∃ a b, s = a +:+ e +:+ b.
Proof.
  revert e. induction s as [|c s IH]; intros e; simpl.
  - intros [<- | []]. now exists "", "".
  - destruct (Ascii.eqb c sep).
    + intros [<- | Hin].
      * now exists "", (String c s).
      * destruct (IH e Hin) as [a [b ->]]. now exists (String c a), b.
    + destruct (strings.Split s sep) as [|e0 rest] eqn:Hs.
      * intros [<- | []]. now exists "", s.
      * intros [<- | Hin].
        -- destruct (Split_head _ _ _ _ Hs) as [b ->]. now exists "", b.
        -- destruct (IH e (or_intror Hin)) as [a [b ->]]. now exists (String c a), b.
Qed.

Lemma traversal_segment_Contains (relPath : string) :
  traversal_segment relPath → strings.Contains relPath ".." = true.
Proof. intros H. apply Contains_iff. exact (Split_element _ _ _ H). Qed.

Lemma Split_nonempty (s : string) (sep : ascii) : strings.Split s sep ≠ [].
Proof.
  destruct s as [|c s]; simpl; [discriminate |].
  destruct (Ascii.eqb c sep); [discriminate |].
  destruct (strings.Split s sep); discriminate.
Qed.

Lemma Split_append (a b : string) (sep : ascii) :
  strings.Split (a +:+ String sep b) sep = strings.Split a sep ++ strings.Split b sep.
Proof.
  induction a as [|c a IH]; simpl.
  - now rewrite Ascii.eqb_refl.
  - rewrite IH. destruct (Ascii.eqb c sep); [reflexivity |].
    pose proof (Split_nonempty a sep) as Hne.
    destruct (strings.Split a sep); [contradiction | reflexivity].
Qed.

(** * The filter middleware *)

(** The handler of [main] is the filter around the multiplexer. *)
Lemma main_filter (os : OS) (flags : Flags)
    (pageHtml : Template PageData) (errorHtml : Template string)
    (unicode_lower : string → string) (h : http.Handler) :
  main os flags pageHtml errorHtml unicode_lower = Some h →
  ∃ inner, h = noWwwHandler unicode_lower inner.
Proof.
  unfold main. destruct (startup os flags) as [flags' |]; [| discriminate]. simpl.
  unfold handler. destruct (mux os flags' pageHtml errorHtml) as [mux0 |]; [| discriminate].
  intros [= <-]. now exists (ServeMux_ServeHTTP mux0).
Qed.

Lemma isBot_agent (r : Request) (bot : string) :
  In bot botAgents →
  strings.Contains (Header_Get (Header r) "User-Agent") bot = true →
  isBot r = true.
Proof.
  unfold isBot, botAgents. simpl.
  intros [<- | [<- | [<- | [<- | []]]]] ->; rewrite ?orb_true_r; reflexivity.
Qed.

(** C1.  A request whose request URI contains [/code/] and a question mark
    and whose User-Agent contains one of the bot substrings is answered by
    the filter with status 401 (and a log line) and nothing else: whatever
    handler is wrapped, it is not run, so no backend, the CGI one included,
    serves the request, and no redirect is sent even when the host is the
    secondary host name.  The same holds for the handler that [main] builds. *)
Theorem bot_denied_before_dispatch (unicode_lower : string → string)
    (Handler : http.Handler) (r : Request) (bot : string) :
  strings.Contains (url.RequestURI (URL r)) "/code/" = true →
  strings.Contains (url.RequestURI (URL r)) "?" = true →
  In bot botAgents →
  strings.Contains (Header_Get (Header r) "User-Agent") bot = true →
  noWwwHandler unicode_lower Handler r = [EvError "bye" 401; EvLog "bot denied"] ∧
  (∀ b r', ¬ In (EvServe b r') (noWwwHandler unicode_lower Handler r)) ∧
  (∀ u code, ¬ In (EvRedirect u code) (noWwwHandler unicode_lower Handler r)) ∧
  (∀ os flags pageHtml errorHtml h,
     main os flags pageHtml errorHtml unicode_lower = Some h → h r = [EvError "bye" 401; EvLog "bot denied"]).
Proof.
  intros Hcode Hquery Hbot Hagent.
  assert (Hdeny : ∀ H : http.Handler, noWwwHandler unicode_lower H r = [EvError "bye" 401; EvLog "bot denied"]).
  { intros H. unfold noWwwHandler. rewrite Hcode, Hquery, (isBot_agent r bot Hbot Hagent). reflexivity. }
  split; [apply Hdeny |]. rewrite Hdeny. split; [| split].
  - intros b r' [H | [H | []]]; discriminate.
  - intros u code [H | [H | []]]; discriminate.
  - intros os flags pageHtml errorHtml h Hmain.
    destruct (main_filter _ _ _ _ _ _ Hmain) as [inner ->]. apply Hdeny.
Qed.

Lemma bot_denied_witness :
  site_handler (get "www.camlistore.org" "/code/" "p=camlistore.git;a=summary"
                  "Mozilla/5.0 (compatible; Baiduspider/2.0)")
  = [EvError "bye" 401; EvLog "bot denied"].
Proof.
  pose proof (bot_denied_before_dispatch site_lower (λ _, [])
                (get "www.camlistore.org" "/code/" "p=camlistore.git;a=summary"
                   "Mozilla/5.0 (compatible; Baiduspider/2.0)") "Baidu") as H.
  destruct H as [_ [_ [_ H]]];
    [reflexivity | reflexivity | simpl; auto | reflexivity |].
  unfold site_handler.
  destruct (main site_os site_flags site_page site_error site_lower) as [h |] eqn:Hmain;
    [| discriminate].
  exact (H _ _ _ _ h Hmain).
Defined.




(** * The code-review route *)

(** C6.  [main] registers [gerritHandler] for the pattern [/r/].  With a
    non-empty HTTPS address a request without TLS is redirected (302) to
    [https://camlistore.org] followed by its request URI and is not proxied,
    and a request with TLS is proxied to the code-review upstream; with an
    empty HTTPS address every request is proxied, with or without TLS. *)
Theorem gerrit_route_tls_gate (os : OS) (flags : Flags)
    (pageHtml : Template PageData) (errorHtml : Template string) (r : Request) :
  let upstream := ReverseProxy ("http://" +:+ gerritHost flags +:+ ":8000/") in
  In ("/r/", gerritHandler flags) (registrations os flags pageHtml errorHtml) ∧
  (httpsAddr flags ≠ "" → TLS r = false →
   gerritHandler flags r
     = [EvRedirect ("https://camlistore.org" +:+ url.RequestURI (URL r)) 302]) ∧
  (httpsAddr flags ≠ "" → TLS r = true → gerritHandler flags r = [EvServe upstream r]) ∧
  (httpsAddr flags = "" → gerritHandler flags r = [EvServe upstream r]).
Proof.
  intros upstream. split; [| split; [| split]].
  - unfold registrations. apply in_or_app. left. simpl. tauto.
  - intros Hs Htls. unfold gerritHandler.
    apply String.eqb_neq in Hs. rewrite Hs. simpl. now rewrite Htls.
  - intros Hs Htls. unfold gerritHandler.
    apply String.eqb_neq in Hs. rewrite Hs. simpl. now rewrite Htls.
  - intros Hs. unfold gerritHandler. rewrite Hs. reflexivity.
Qed.

Lemma gerrit_route_witness :
  let https := set_root {| httpAddr := ":80"; httpsAddr := ":443"; root := "";
                          gitwebScript := ""; gitwebFiles := ""; logDir := "";
                          logStdout := true; tlsCertFile := "cert.pem"; tlsKeyFile := "key.pem";
                          gerritUser := "ubuntu"; gerritHost := "gerrit.internal";
                          buildbotBackend := ""; buildbotHost := "" |} "/srv/camweb" in
  let r := get "camlistore.org" "/r/123" "" "curl" in
  gerritHandler https r = [EvRedirect "https://camlistore.org/r/123" 302] ∧
  gerritHandler site_flags r = [EvServe (ReverseProxy "http://:8000/") r].
Proof.
  intros https r.
  pose proof (gerrit_route_tls_gate site_os https site_page site_error r) as [_ [H1 _]].
  pose proof (gerrit_route_tls_gate site_os site_flags site_page site_error r) as [_ [_ [_ H2]]].
  split; [apply H1; [discriminate | reflexivity] | apply H2; reflexivity].
Defined.

(** * The fallback content handler *)

Lemma mainHandler_dotdot (os : OS) (flags : Flags)
    (pageHtml : Template PageData) (errorHtml : Template string)
    (req : Request) (c : ascii) (relPath : string) :
  url.Path (URL req) = String c relPath →
  strings.Contains relPath ".." = true →
  mainHandler os flags pageHtml errorHtml req = [].
Proof.
  intros Hpath Hdots. unfold mainHandler. rewrite Hpath. simpl. now rewrite Hdots.
Qed.

(** C3.  When the request path, without its first byte, has a [..] segment,
    the fallback handler does nothing at all: no response is written and the
    file system is neither examined nor read. *)
Theorem traversal_refused (os : OS) (flags : Flags)
    (pageHtml : Template PageData) (errorHtml : Template string)
    (req : Request) (c : ascii) (relPath : string) :
  url.Path (URL req) = String c relPath →
  traversal_segment relPath →
  mainHandler os flags pageHtml errorHtml req = [].
Proof.
  intros Hpath Hseg.
  exact (mainHandler_dotdot _ _ _ _ _ _ _ Hpath (traversal_segment_Contains _ Hseg)).
Qed.

Lemma traversal_refused_witness :
  mainHandler site_os site_flags site_page site_error
    (get "camlistore.org" "/docs/../../../etc/passwd" "" "curl") = [].
Proof.
  apply (traversal_refused site_os site_flags site_page site_error _ "/"%char
           "docs/../../../etc/passwd"); [reflexivity |].
  unfold traversal_segment. simpl. tauto.
Defined.

(** * The matcher on the two patterns of the program *)

Lemma take_drop_while (p : ascii → bool) (s : string) : take_while p s +:+ drop_while p s = s.
Proof.
  induction s as [|c s IH]; simpl; [reflexivity |].
  destruct (p c); simpl; [now rewrite IH | reflexivity].
Qed.

Lemma take_while_empty (p : ascii → bool) (s : string) :
  take_while p s = "" → drop_while p s = s.
Proof. destruct s as [|c s]; simpl; [reflexivity |]. now destruct (p c). Qed.

Lemma take_while_all (p : ascii → bool) (s : string) : all_bytes p (take_while p s) = true.
Proof.
  induction s as [|c s IH]; simpl; [reflexivity |].
  destruct (p c) eqn:Hc; simpl; [now rewrite Hc | reflexivity].
Qed.

Lemma drop_while_all (p : ascii → bool) (s : string) :
  drop_while p s = "" ↔ all_bytes p s = true.
Proof.
  induction s as [|c s IH]; simpl; [tauto |].
  destruct (p c); simpl; [exact IH | split; discriminate].
Qed.

Lemma take_while_append (p : ascii → bool) (t rest : string) :
  all_bytes p t = true → take_while p rest = "" →
  take_while p (t +:+ rest) = t ∧ drop_while p (t +:+ rest) = rest.
Proof.
  intros Ht Hrest. induction t as [|c t IH]; simpl in *.
  - split; [exact Hrest | now apply take_while_empty].
  - apply andb_true_iff in Ht as [Hc Ht]. rewrite Hc.
    destruct (IH Ht) as [-> ->]. now split.
Qed.

(** A greedy repetition of a one-byte class, in front of a continuation
    that cannot start with a byte of the class, takes the longest run. *)
Lemma iterate_Class (p : ascii → bool) (k : regexp.cont) :
  (∀ pos c s caps, p c = true → k pos (String c s) caps = None) →
  ∀ s fuel pos caps, (String.length s < fuel)%nat →
    regexp.iterate (regexp.run (regexp.Class p)) k fuel pos s caps
    = if String.eqb (take_while p s) "" then None
      else k (pos + String.length (take_while p s))%nat (drop_while p s) caps.
Proof.
  intros Hk. induction s as [|c s IH]; intros fuel pos caps Hfuel;
    (destruct fuel as [|fuel]; [simpl in Hfuel; lia |]); simpl.
  - reflexivity.
  - destruct (p c) eqn:Hc; simpl; [| reflexivity].
    assert (Hlt : (pos <? S pos)%nat = true) by (apply Nat.ltb_lt; lia).
    rewrite Hlt, IH by (simpl in Hfuel; lia).
    destruct (String.eqb (take_while p s) "") eqn:Hempty.
    + apply String.eqb_eq in Hempty. rewrite Hempty. simpl.
      rewrite (take_while_empty _ _ Hempty). now rewrite Nat.add_1_r.
    + replace (pos + S (String.length (take_while p s)))%nat
        with (S pos + String.length (take_while p s))%nat by lia.
      destruct (k _ (drop_while p s) caps) as [m |] eqn:Hm; [reflexivity |].
      destruct s as [|d s]; [discriminate |]. simpl in Hempty.
      destruct (p d) eqn:Hd; [| discriminate]. now apply Hk.
Qed.

Lemma HasPrefix_slice (s p : string) :
  strings.HasPrefix s p = true →
  ∃ t, s = p +:+ t ∧ strings.slice_from (String.length p) s = Some t.
Proof.
  intros H. apply HasPrefix_iff in H as [t ->]. exists t. split; [reflexivity |].
  apply slice_from_append.
Qed.

(** Case analysis on whether [s] starts with the literal [lit]: where it
    does, [s] becomes [lit +:+ s1], and the slice of it after the literal,
    wherever it occurs, [Some s1]. *)
Ltac literal_prefix s lit s1 :=
  let Hpre := fresh "Hpre" in
  let Hs := fresh "Hs" in
  destruct (strings.HasPrefix s lit) eqn:Hpre;
  [ destruct (HasPrefix_slice _ _ Hpre) as [s1 [-> Hs]];
    simpl String.length in Hs; rewrite ?Hs in * | ].

Lemma run_h1TitlePattern (pos : nat) (s : string) :
  regexp.run h1TitlePattern pos s ∅ (λ pos' _ caps', Some (pos', caps'))
  = (λ t, ((pos + 4 + String.length t + 5)%nat, {[ 1%nat := t ]})) <$> h1_here s.
Proof.
  unfold h1TitlePattern, h1_here.
  cbn [regexp.run]. change (String.length "<h1>") with 4%nat.
  literal_prefix s "<h1>" s1; [| reflexivity].
  etransitivity.
  { apply (iterate_Class (regexp.other_than "<")); [| lia].
    intros pos' c s' caps Hc. unfold regexp.other_than in Hc.
    cbn [strings.HasPrefix]. destruct (Ascii.eqb c "<"); [discriminate | reflexivity]. }
  destruct (String.eqb (take_while (regexp.other_than "<") s1) "") eqn:Hempty;
    simpl negb; cbn [andb]; [reflexivity |].
  destruct (strings.HasPrefix (drop_while (regexp.other_than "<") s1) "</h1>") eqn:Hclose;
    [| reflexivity].
  destruct (HasPrefix_slice _ _ Hclose) as [post [Hdrop Hpost]].
  rewrite Hpost. cbn [fmap option_fmap option_map]. do 2 f_equal.
  rewrite insert_empty. f_equal.
  replace (pos + 4 + String.length (take_while (regexp.other_than "<") s1) - (pos + 4))%nat
    with (String.length (take_while (regexp.other_than "<") s1)) by lia.
  rewrite <- (take_drop_while (regexp.other_than "<") s1) at 2.
  apply substring_prefix.
Qed.

Lemma find_at_unfold (r : regexp.Regexp) (pos : nat) (s : string) :
  regexp.find_at r pos s
  = match regexp.run r pos s ∅ (λ pos' _ caps', Some (pos', caps')) with
    | Some (e, caps) =>
        Some (String.substring 0 (e - pos) s ::
              map (λ i, default "" (caps !! i)) (seq 1 (regexp.NumSubexp r)))
    | None =>
        match s with
        | EmptyString => None
        | String _ s' => regexp.find_at r (S pos) s'
        end
    end.
Proof. destruct s; reflexivity. Qed.

Lemma first_h1_unfold (s : string) :
  first_h1 s = match h1_here s with
               | Some t => Some t
               | None => match s with EmptyString => None | String _ s' => first_h1 s' end
               end.
Proof. destruct s; reflexivity. Qed.

Lemma find_at_h1TitlePattern (s : string) (pos : nat) :
  match regexp.find_at h1TitlePattern pos s with
  | Some m => if (1 <? length m)%nat then default "" (m !! 1%nat) else ""
  | None => ""
  end = default "" (first_h1 s).
Proof.
  revert pos. induction s as [|c s IH]; intros pos;
    rewrite find_at_unfold, run_h1TitlePattern, first_h1_unfold;
    destruct (h1_here _) as [t |]; cbn [fmap option_fmap option_map];
    try reflexivity.
  apply IH.
Qed.

Lemma served_title_first_h1 (data : string) : served_title data = default "" (first_h1 data).
Proof. apply find_at_h1TitlePattern. Qed.

Lemma h1_here_iff (s t : string) :
  h1_here s = Some t ↔ ∃ post, h1_occurrence s "" t post.
Proof.
  unfold h1_here, h1_occurrence. split.
  - literal_prefix s "<h1>" s1; [| discriminate].
    destruct (String.eqb (take_while (regexp.other_than "<") s1) "") eqn:Hempty;
      [discriminate |].
    destruct (strings.HasPrefix (drop_while (regexp.other_than "<") s1) "</h1>") eqn:Hclose;
      [| discriminate].
    intros [= <-]. apply HasPrefix_iff in Hclose as [post Hpost]. exists post.
    split; [| split].
    + rewrite <- Hpost. now rewrite take_drop_while.
    + now apply String.eqb_neq.
    + apply take_while_all.
  - intros [post [-> [Hne Hall]]].
    change ("" +:+ "<h1>" +:+ t +:+ "</h1>" +:+ post)
      with ("<h1>" +:+ t +:+ "</h1>" +:+ post).
    rewrite HasPrefix_append.
    change 4%nat with (String.length "<h1>"). rewrite slice_from_append.
    destruct (take_while_append (regexp.other_than "<") t ("</h1>" +:+ post) Hall eq_refl)
      as [-> ->].
    apply String.eqb_neq in Hne. rewrite Hne. reflexivity.
Qed.

Lemma h1_occurrence_cons (c : ascii) (s pre t post : string) :
  h1_occurrence s pre t post → h1_occurrence (String c s) (String c pre) t post.
Proof. intros [-> H]. split; [reflexivity | exact H]. Qed.

(** The scan finds the leftmost accepted occurrence. *)
Lemma first_h1_leftmost (data pre t post : string) :
  h1_occurrence data pre t post →
  (∀ pre' t' post', h1_occurrence data pre' t' post' →
     (String.length pre ≤ String.length pre')%nat) →
  first_h1 data = Some t.
Proof.
  revert data. induction pre as [|c pre IH]; intros data Hocc Hleft;
    rewrite first_h1_unfold.
  - assert (Hhere : h1_here data = Some t) by (apply h1_here_iff; now exists post).
    now rewrite Hhere.
  - destruct (h1_here data) as [t' |] eqn:Hhere.
    + apply h1_here_iff in Hhere as [post' Hocc'].
      specialize (Hleft _ _ _ Hocc'). simpl in Hleft. lia.
    + destruct Hocc as [-> Ht]. simpl. apply IH.
      * split; [reflexivity | exact Ht].
      * intros pre' t' post' Hocc'.
        specialize (Hleft _ _ _ (h1_occurrence_cons c _ _ _ _ Hocc')).
        simpl in Hleft. lia.
Qed.

Lemma first_h1_none (data : string) :
  (∀ pre t post, ¬ h1_occurrence data pre t post) → first_h1 data = None.
Proof.
  induction data as [|c s IH]; intros Hnone; rewrite first_h1_unfold.
  - destruct (h1_here "") as [t |] eqn:Hhere; [| reflexivity].
    apply h1_here_iff in Hhere as [post Hocc]. now destruct (Hnone _ _ _ Hocc).
  - destruct (h1_here (String c s)) as [t |] eqn:Hhere.
    + apply h1_here_iff in Hhere as [post Hocc]. now destruct (Hnone _ _ _ Hocc).
    + apply IH. intros pre t post Hocc.
      exact (Hnone _ _ _ (h1_occurrence_cons c _ _ _ _ Hocc)).
Qed.

Lemma serveFile_read (os : OS) (pageHtml : Template PageData) (errorHtml : Template string)
    (req : Request) (relPath absPath data : string) :
  ReadFile os absPath = Ok data →
  serveFile os pageHtml errorHtml req relPath absPath
  = EvReadFile absPath :: servePage pageHtml (served_title data) "" data.
Proof. intros H. unfold serveFile. now rewrite H. Qed.

(** C9 (as the code has it).  For a content file that is read successfully,
    the page is rendered with the title [t] of the leftmost occurrence of
    [<h1>t</h1>] in the file bytes in which [t] is not empty and contains no
    [<]; when the file has no such occurrence the title is empty. *)
Theorem title_is_leftmost_accepted_h1 (os : OS)
    (pageHtml : Template PageData) (errorHtml : Template string)
    (req : Request) (relPath absPath data : string) :
  ReadFile os absPath = Ok data →
  (∀ pre t post,
     h1_occurrence data pre t post →
     (∀ pre' t' post', h1_occurrence data pre' t' post' →
        (String.length pre ≤ String.length pre')%nat) →
     serveFile os pageHtml errorHtml req relPath absPath
     = EvReadFile absPath :: servePage pageHtml t "" data) ∧
  ((∀ pre t post, ¬ h1_occurrence data pre t post) →
   serveFile os pageHtml errorHtml req relPath absPath
   = EvReadFile absPath :: servePage pageHtml "" "" data).
Proof.
  intros Hread.
  rewrite (serveFile_read _ _ _ _ _ _ _ Hread), served_title_first_h1. split.
  - intros pre t post Hocc Hleft. now rewrite (first_h1_leftmost _ _ _ _ Hocc Hleft).
  - intros Hnone. now rewrite (first_h1_none _ Hnone).
Qed.

Lemma title_is_leftmost_accepted_h1_witness :
  serveFile site_os site_page site_error (get "camlistore.org" "/docs/index.html" "" "curl")
    "docs/index.html" "/srv/camweb/content/docs/index.html"
  = [EvReadFile "/srv/camweb/content/docs/index.html";
     EvWrite "<title>Docs</title><html><h1>Docs</h1><p>Overview</p></html>"].
Proof.
  pose proof (title_is_leftmost_accepted_h1 site_os site_page site_error
                (get "camlistore.org" "/docs/index.html" "" "curl")
                "docs/index.html" "/srv/camweb/content/docs/index.html"
                "<html><h1>Docs</h1><p>Overview</p></html>" eq_refl) as [H _].
  apply (H "<html>" "Docs" "<p>Overview</p></html>").
  - split; [reflexivity | split; [discriminate | reflexivity]].
  - intros pre' t' post' [Hdata _].
    destruct pre' as [|c0 [|c1 [|c2 [|c3 [|c4 [|c5 pre']]]]]]; simpl; try lia;
      discriminate Hdata.
Defined.

(** C9 fails as worded: the file [<h1><b>Hi</b></h1>] has a literal
    [<h1>...</h1>] whose inner text is [<b>Hi</b>], and is served with an
    empty title. *)
Lemma title_differs_from_first_h1_text :
  let name := "/srv/camweb/content/plain.html" in
  let data := "<h1><b>Hi</b></h1>" in
  ReadFile site_os name = Ok data ∧
  first_h1_text data = "<b>Hi</b>" ∧
  serveFile site_os site_page site_error (get "camlistore.org" "/plain.html" "" "curl")
    "plain.html" name
  = EvReadFile name :: servePage site_page "" "" data ∧
  serveFile site_os site_page site_error (get "camlistore.org" "/plain.html" "" "curl")
    "plain.html" name
  ≠ EvReadFile name :: servePage site_page (first_h1_text data) "" data.
Proof.
  intros name data. split; [reflexivity |]. split; [reflexivity |].
  split; [vm_compute; reflexivity |]. vm_compute. discriminate.
Qed.

(** * The issue redirect *)

Lemma run_issueNum (s : string) :
  regexp.run issueNum 0 s ∅ (λ pos' _ caps', Some (pos', caps'))
  = (λ d, ((7 + String.length d)%nat, {[ 1%nat := d ]})) <$> issue_id s.
Proof.
  unfold issueNum, issue_id.
  cbn [regexp.run Nat.eqb]. change (String.length "/issue/") with 7%nat.
  literal_prefix s "/issue/" s1; [| reflexivity].
  etransitivity.
  { apply (iterate_Class regexp.digit); [| lia]. reflexivity. }
  destruct (String.eqb (take_while regexp.digit s1) "") eqn:Hempty.
  - apply String.eqb_eq in Hempty.
    destruct s1 as [|c s1]; [reflexivity |]. simpl in Hempty |- *.
    destruct (regexp.digit c); [discriminate | reflexivity].
  - destruct (drop_while regexp.digit s1) as [|c rest] eqn:Hdrop.
    + pose proof (take_drop_while regexp.digit s1) as Htd.
      rewrite Hdrop, append_nil_r in Htd. rewrite Htd in *.
      apply drop_while_all in Hdrop. rewrite Hempty, Hdrop.
      cbn [negb andb fmap option_fmap option_map]. do 2 f_equal.
      rewrite insert_empty. f_equal.
      replace (0 + 7 + String.length s1 - (0 + 7))%nat with (String.length s1) by lia.
      apply substring_all.
    + assert (Hall : all_bytes regexp.digit s1 = false).
      { destruct (all_bytes regexp.digit s1) eqn:Hall; [| reflexivity].
        apply drop_while_all in Hall. congruence. }
      rewrite Hall, andb_false_r. reflexivity.
Qed.

Lemma find_at_issueNum_later (s : string) (pos : nat) :
  regexp.find_at issueNum (S pos) s = None.
Proof.
  revert pos. induction s as [|c s IH]; intros pos; rewrite find_at_unfold.
  - reflexivity.
  - cbn [issueNum regexp.run Nat.eqb]. apply IH.
Qed.

Lemma FindStringSubmatch_issueNum (path : string) :
  regexp.FindStringSubmatch issueNum path = (λ d, [path; d]) <$> issue_id path.
Proof.
  unfold regexp.FindStringSubmatch. rewrite find_at_unfold, run_issueNum.
  destruct (issue_id path) as [d |] eqn:Hid; cbn [fmap option_fmap option_map].
  - unfold issue_id in Hid.
    literal_prefix path "/issue/" s1; [| discriminate].
    destruct (negb (String.eqb s1 "") && all_bytes regexp.digit s1); [| discriminate].
    injection Hid as <-. simpl map. rewrite lookup_singleton_eq. simpl default.
    do 2 f_equal.
    replace (7 + String.length s1 - 0)%nat with (String.length ("/issue/" +:+ s1))
      by (rewrite length_append; simpl; lia).
    apply substring_all.
  - destruct path; [reflexivity | apply find_at_issueNum_later].
Qed.

Lemma issue_id_iff (path d : string) :
  issue_id path = Some d ↔
  path = "/issue/" +:+ d ∧ d ≠ "" ∧ all_bytes regexp.digit d = true.
Proof.
  unfold issue_id. split.
  - literal_prefix path "/issue/" s1; [| discriminate].
    destruct (String.eqb s1 "") eqn:Hempty; [discriminate |].
    destruct (all_bytes regexp.digit s1) eqn:Hall; [| discriminate].
    intros [= <-]. apply String.eqb_neq in Hempty. auto.
  - intros [-> [Hne Hall]]. rewrite HasPrefix_append.
    change 7%nat with (String.length "/issue/"). rewrite slice_from_append, Hall.
    apply String.eqb_neq in Hne. now rewrite Hne.
Qed.

(** C7.  A request whose path is [/issue/] followed by one or more decimal
    digits and nothing else is answered with a 302 redirect to the issue
    tracker URL that ends in [id=] and those digits; every other request that
    reaches the handler is answered with status 400 and the body
    [Bad request].  The request method plays no part. *)
Theorem issue_redirect_or_bad_request (r : Request) :
  (∀ d, url.Path (URL r) = "/issue/" +:+ d → d ≠ "" → all_bytes regexp.digit d = true →
        issueRedirect r
        = [EvRedirect ("https://code.google.com/p/camlistore/issues/detail?" +:+ "id=" +:+ d) 302]) ∧
  ((∀ d, url.Path (URL r) = "/issue/" +:+ d → d ≠ "" → all_bytes regexp.digit d = true → False) →
   issueRedirect r = [EvError "Bad request" 400]).
Proof.
  unfold issueRedirect. rewrite FindStringSubmatch_issueNum. split.
  - intros d Hpath Hne Hall.
    assert (Hid : issue_id (url.Path (URL r)) = Some d) by (apply issue_id_iff; auto).
    rewrite Hid. reflexivity.
  - intros Hnone. destruct (issue_id (url.Path (URL r))) as [d |] eqn:Hid; [| reflexivity].
    apply issue_id_iff in Hid as [Hpath [Hne Hall]]. destruct (Hnone d Hpath Hne Hall).
Qed.

Lemma issue_redirect_witness :
  issueRedirect (get "camlistore.org" "/issue/1234" "" "curl")
  = [EvRedirect "https://code.google.com/p/camlistore/issues/detail?id=1234" 302] ∧
  issueRedirect (get "camlistore.org" "/issue/abc" "" "curl") = [EvError "Bad request" 400].
Proof.
  split.
  - apply (proj1 (issue_redirect_or_bad_request (get "camlistore.org" "/issue/1234" "" "curl"))
             "1234"); [reflexivity | discriminate | reflexivity].
  - apply (proj2 (issue_redirect_or_bad_request (get "camlistore.org" "/issue/abc" "" "curl"))).
    intros d Hpath Hne Hall. simpl in Hpath. injection Hpath as <-. discriminate Hall.
Defined.

(** * The gitweb URL fixer *)

Lemma Join_cons (e : string) (rest : list string) (sep : string) :
  rest ≠ [] → strings.Join (e :: rest) sep = e +:+ sep +:+ strings.Join rest sep.
Proof. destruct rest; [contradiction | reflexivity]. Qed.

Lemma Join_head (e : string) (rest : list string) (sep : string) :
  ∃ u, strings.Join (e :: rest) sep = e +:+ u.
Proof.
  destruct rest as [|e' rest].
  - exists "". simpl. now rewrite append_nil_r.
  - now exists (sep +:+ strings.Join (e' :: rest) sep).
Qed.

Lemma Join_String (c : ascii) (e : string) (rest : list string) (sep : string) :
  strings.Join (String c e :: rest) sep = String c (strings.Join (e :: rest) sep).
Proof. destruct rest; reflexivity. Qed.

Lemma Join_length (pieces : list string) (sep : string) :
  pieces ≠ [] →
  String.length (strings.Join pieces sep)
  = (list_sum (map String.length pieces) + (length pieces - 1) * String.length sep)%nat.
Proof.
  induction pieces as [|e rest IH]; [contradiction |]. intros _.
  destruct rest as [|e' rest].
  - simpl. lia.
  - rewrite Join_cons by discriminate. rewrite !length_append, IH by discriminate.
    simpl. lia.
Qed.

Section replace.

Variables old new : string.
Hypothesis old_nonempty : old ≠ "".

Lemma replace_scan_skip (a t : string) (n : option nat) :
  strings.replace_scan (String.length a) n (a +:+ t) old new
  = strings.replace_scan 0 n t old new.
Proof. induction a as [|x a IH]; simpl; [reflexivity | exact IH]. Qed.

Lemma replace_scan_match (t : string) :
  strings.replace_scan 0 None (old +:+ t) old new
  = new +:+ strings.replace_scan 0 None t old new.
Proof.
  pose proof (HasPrefix_append old t) as Hpre.
  pose proof (replace_scan_skip) as Hskip.
  destruct old as [|x old']; [contradiction |].
  specialize (Hskip old' t None).
  change (String x old' +:+ t) with (String x (old' +:+ t)) in *.
  cbn [strings.replace_scan]. rewrite Hpre. f_equal.
  replace (String.length (String x old') - 1)%nat with (String.length old')
    by (simpl; lia).
  exact Hskip.
Qed.

Lemma replace_scan_other (c : ascii) (s : string) :
  strings.HasPrefix (String c s) old = false →
  strings.replace_scan 0 None (String c s) old new
  = String c (strings.replace_scan 0 None s old new).
Proof. intros H. cbn [strings.replace_scan]. now rewrite H. Qed.

Lemma Contains_empty : strings.Contains "" old = false.
Proof. destruct old; [contradiction | reflexivity]. Qed.

Lemma replace_scan_free (s : string) :
  strings.Contains s old = false → strings.replace_scan 0 None s old new = s.
Proof.
  induction s as [|c s IH]; [reflexivity |]. intros H.
  cbn [strings.Contains] in H. apply orb_false_iff in H as [Hpre Hrest].
  rewrite replace_scan_other by exact Hpre. now rewrite IH.
Qed.

(** The input splits at occurrences of [old] into pieces that are free of
    it, and the output is the same pieces joined by [new]. *)
Lemma replace_scan_pieces (n : nat) (s : string) :
  (String.length s ≤ n)%nat →
  ∃ pieces, pieces ≠ [] ∧
    Forall (λ p, strings.Contains p old = false) pieces ∧
    s = strings.Join pieces old ∧
    strings.replace_scan 0 None s old new = strings.Join pieces new.
Proof.
  revert s. induction n as [|n IH]; intros s Hlen.
  - destruct s; [| simpl in Hlen; lia]. exists [""].
    repeat split; [discriminate |]. constructor; [apply Contains_empty | constructor].
  - destruct s as [|c s].
    { exists [""]. repeat split; [discriminate |].
      constructor; [apply Contains_empty | constructor]. }
    destruct (strings.HasPrefix (String c s) old) eqn:Hpre.
    + apply HasPrefix_iff in Hpre as [t Ht].
      assert (Hshort : (String.length t ≤ n)%nat).
      { apply (f_equal String.length) in Ht. rewrite length_append in Ht.
        simpl in Ht, Hlen. destruct old; [contradiction | simpl in Ht; lia]. }
      destruct (IH t Hshort) as [ps [Hne [Hfree [Hin Hout]]]].
      exists ("" :: ps). rewrite Ht, replace_scan_match, !Join_cons by exact Hne.
      repeat split; [discriminate | | now rewrite <- Hin | now rewrite Hout].
      constructor; [apply Contains_empty | exact Hfree].
    + assert (Hshort : (String.length s ≤ n)%nat) by (simpl in Hlen; lia).
      destruct (IH s Hshort) as [ps [Hne [Hfree [Hin Hout]]]].
      destruct ps as [|p0 rest]; [contradiction |].
      exists (String c p0 :: rest). rewrite replace_scan_other by exact Hpre.
      rewrite !Join_String, <- Hin, Hout.
      repeat split; [discriminate |].
      apply Forall_cons in Hfree as [Hp0 Hrest]. constructor; [| exact Hrest].
      cbn [strings.Contains]. rewrite Hp0, orb_false_r.
      destruct (strings.HasPrefix (String c p0) old) eqn:Hpre0; [| reflexivity].
      destruct (Join_head p0 rest old) as [u Hu].
      rewrite <- Hpre. rewrite Hin, Hu.
      change (String c (p0 +:+ u)) with (String c p0 +:+ u).
      symmetry. now apply HasPrefix_extend.
Qed.

Lemma replace_scan_shorter (s : string) :
  (String.length new < String.length old)%nat →
  strings.Contains s old = true →
  strings.replace_scan 0 None s old new ≠ s.
Proof.
  intros Hshorter Hocc Heq.
  destruct (replace_scan_pieces (String.length s) s (le_n _))
    as [ps [Hne [Hfree [Hin Hout]]]].
  destruct ps as [|p0 [|p1 rest]]; [contradiction | |].
  - simpl in Hin. subst p0. apply Forall_cons in Hfree as [Hfree _]. congruence.
  - apply (f_equal String.length) in Hin, Hout. rewrite Heq in Hout.
    rewrite Join_length in Hin, Hout by discriminate.
    simpl length in Hin, Hout. nia.
Qed.

End replace.

Lemma Replace_all (s old new : string) :
  old ≠ "" → strings.Replace s old new (-1) = strings.replace_scan 0 None s old new.
Proof. intros H. destruct old; [contradiction | reflexivity]. Qed.

(** C4.  When the URL of the request, printed by [URL.String], contains
    [%3B], the fixer answers with a 302 redirect and does not run the wrapped
    handler; the URL splits at the occurrences of [%3B] into pieces free of
    [%3B], and the redirect target is the same pieces joined by [;], so that
    every occurrence is replaced and nothing else changes.  When the URL
    contains no [%3B] the request goes to the wrapped handler as it is. *)
Theorem gitweb_url_fixed (handler : Handler) (req : Request) :
  (strings.Contains (url.String_ (URL req)) "%3B" = true →
   ∃ pieces,
     Forall (λ p, strings.Contains p "%3B" = false) pieces ∧
     url.String_ (URL req) = strings.Join pieces "%3B" ∧
     fixUpGitwebUrls handler req = [EvRedirect (strings.Join pieces ";") 302]) ∧
  (strings.Contains (url.String_ (URL req)) "%3B" = false →
   fixUpGitwebUrls handler req = handler req).
Proof.
  unfold fixUpGitwebUrls. rewrite Replace_all by discriminate. split.
  - intros Hocc.
    assert (Hne : "%3B" ≠ "") by discriminate.
    destruct (replace_scan_pieces "%3B" ";" Hne _ (url.String_ (URL req)) (le_n _))
      as [ps [_ [Hfree [Hin Hout]]]].
    exists ps. split; [exact Hfree |]. split; [exact Hin |].
    pose proof (replace_scan_shorter "%3B" ";" Hne (url.String_ (URL req))) as Hdiff.
    apply String.eqb_neq in Hdiff; [| simpl; lia | exact Hocc].
    rewrite Hdiff, Hout. reflexivity.
  - intros Hfree. rewrite replace_scan_free by (discriminate || exact Hfree).
    now rewrite String.eqb_refl.
Qed.

Lemma gitweb_url_fixed_witness :
  fixUpGitwebUrls (λ _, []) (get "camlistore.org" "/code/" "p=camlistore.git%3Bf=doc/x.txt%3Bhb=master" "curl")
  = [EvRedirect "/code/?p=camlistore.git;f=doc/x.txt;hb=master" 302] ∧
  fixUpGitwebUrls (serve GodocHandler) (get "camlistore.org" "/code/" "p=camlistore.git" "curl")
  = [EvServe GodocHandler (get "camlistore.org" "/code/" "p=camlistore.git" "curl")].
Proof.
  split.
  - destruct (proj1 (gitweb_url_fixed (λ _, [])
        (get "camlistore.org" "/code/" "p=camlistore.git%3Bf=doc/x.txt%3Bhb=master" "curl"))
        eq_refl) as [ps [_ [_ H]]].
    rewrite H. vm_compute in H. injection H as H. now rewrite H.
  - exact (proj2 (gitweb_url_fixed (serve GodocHandler)
        (get "camlistore.org" "/code/" "p=camlistore.git" "curl")) eq_refl).
Defined.

(** * Content resolution *)

Lemma clean_step_empty (rooted : bool) (stack : list string) :
  filepath.clean_step rooted stack "" = stack.
Proof. reflexivity. Qed.

(** A doubled slash does not change the cleaned path. *)
Lemma Clean_collapses_slashes (a b : string) :
  a ≠ "" → filepath.Clean (a +:+ "//" +:+ b) = filepath.Clean (a +:+ "/" +:+ b).
Proof.
  intros Ha. destruct a as [|c a]; [contradiction |]. unfold filepath.Clean.
  change (String c a +:+ "//" +:+ b) with (String c (a +:+ String "/" (String "/" b))).
  change (String c a +:+ "/" +:+ b) with (String c (a +:+ String "/" b)).
  cbn [String.eqb strings.HasPrefix].
  change (String c (a +:+ String "/" (String "/" b)))
    with (String c a +:+ String "/" (String "/" b)).
  change (String c (a +:+ String "/" b)) with (String c a +:+ String "/" b).
  rewrite !Split_append.
  change (strings.Split (String "/" b) "/") with ("" :: strings.Split b "/").
  rewrite !fold_left_app. cbn [fold_left]. rewrite clean_step_empty. reflexivity.
Qed.

Lemma Join_content (root : string) :
  ∃ a, a ≠ "" ∧ ∀ x, filepath.Join [root; "content"; x] = filepath.Clean (a +:+ "/" +:+ x).
Proof.
  destruct root as [|c root].
  - exists "content". split; [discriminate | reflexivity].
  - exists (String c root +:+ "/content"). split; [discriminate |].
    intros x. unfold filepath.Join. cbn [filepath.drop_empty String.eqb strings.Join].
    now rewrite !append_assoc.
Qed.

Lemma Join_index (root foo : string) :
  filepath.Join [root; "content"; (foo +:+ "/") +:+ "/index.html"]
  = filepath.Join [root; "content"; foo +:+ "/index.html"].
Proof.
  destruct (Join_content root) as [a [Ha Hjoin]]. rewrite !Hjoin.
  rewrite append_assoc. 
  change ("/" +:+ "/index.html") with ("//" +:+ "index.html").
  change ("/index.html") with ("/" +:+ "index.html").
  rewrite <- !(append_assoc a "/" (foo +:+ _)), <- !(append_assoc (a +:+ "/") foo).
  apply Clean_collapses_slashes.
  destruct a; [contradiction | discriminate].
Qed.

Lemma Contains_dotdot_slash (a b : string) :
  strings.Contains (a +:+ String "/" b) ".."
  = strings.Contains a ".." || strings.Contains (String "/" b) "..".
Proof.
  induction a as [|c a IH].
  - reflexivity.
  - change (String c a +:+ String "/" b) with (String c (a +:+ String "/" b)).
    cbn [strings.Contains]. rewrite IH, orb_assoc. f_equal. f_equal.
    destruct a as [|d a]; cbn [strings.HasPrefix String.append].
    + now rewrite !andb_false_r.
    + reflexivity.
Qed.

Lemma HasPrefix_gw_slash (foo rest : string) :
  strings.HasPrefix (foo +:+ String "/" rest) "gw/" = strings.HasPrefix (foo +:+ "/") "gw/".
Proof.
  destruct foo as [|c0 [|c1 [|c2 foo]]]; cbn [strings.HasPrefix String.append];
    rewrite ?andb_true_r, ?andb_false_r; reflexivity.
Qed.

Lemma response_app (t1 t2 : list event) : response (t1 ++ t2) = response t1 ++ response t2.
Proof. apply List.filter_app. Qed.

Lemma response_skip (e : event) (t : list event) :
  response_event e = false → response (e :: t) = response t.
Proof. intros H. unfold response. simpl. now rewrite H. Qed.

Lemma response_writes (writes : list string) :
  response (map EvWrite writes) = map EvWrite writes.
Proof. induction writes as [|w writes IH]; [reflexivity |]. cbn. now f_equal. Qed.

Lemma response_servePage (pageHtml : Template PageData) (title content : string) :
  response (servePage pageHtml title "" content) = map EvWrite (rendered pageHtml title content).
Proof.
  unfold servePage, rendered.
  destruct (Execute pageHtml _) as [writes [e |]]; rewrite response_app, response_writes;
    apply app_nil_r.
Qed.

Lemma response_serveError (pageHtml : Template PageData) (errorHtml : Template string)
    (r : Request) (relpath err : string) :
  response (serveError pageHtml errorHtml r relpath err)
  = error_page pageHtml errorHtml relpath err.
Proof.
  unfold serveError, applyTemplate, error_page.
  destruct (Execute errorHtml err) as [writes [e |]]; rewrite !response_app, response_servePage;
    reflexivity.
Qed.

Lemma response_serveFile (os : OS) (pageHtml : Template PageData)
    (errorHtml : Template string) (req : Request) (relPath absPath : string) :
  response (serveFile os pageHtml errorHtml req relPath absPath)
  = served os pageHtml errorHtml absPath.
Proof.
  unfold serveFile, served. rewrite response_skip by reflexivity.
  destruct (ReadFile os absPath) as [data | err].
  - apply response_servePage.
  - apply response_serveError.
Qed.

Lemma fallback_answer_served (os : OS) (pageHtml : Template PageData)
    (errorHtml : Template string) (absPath : string) :
  fallback_answer pageHtml errorHtml (served os pageHtml errorHtml absPath).
Proof. unfold served. destruct (ReadFile os absPath) as [data | err]; constructor. Qed.

Lemma mainHandler_resolves (os : OS) (flags : Flags)
    (pageHtml : Template PageData) (errorHtml : Template string)
    (req : Request) (c : ascii) (relPath : string) :
  url.Path (URL req) = String c relPath →
  strings.Contains relPath ".." = false →
  strings.HasPrefix relPath "gw/" = false →
  mainHandler os flags pageHtml errorHtml req
  = let absPath := filepath.Join [root flags; "content"; relPath] in
    EvLstat absPath ::
    match Lstat os absPath with
    | Err err => EvLog err :: serveError pageHtml errorHtml req relPath err
    | Ok fi =>
        if IsDir fi then
          let indexPath := filepath.Join [root flags; "content"; relPath +:+ "/index.html"] in
          EvLstat indexPath ::
          match Lstat os indexPath with
          | Err err =>
              EvLog err :: serveError pageHtml errorHtml req (relPath +:+ "/index.html") err
          | Ok fi' =>
              serveResolved os pageHtml errorHtml req (relPath +:+ "/index.html") indexPath fi'
          end
        else serveResolved os pageHtml errorHtml req relPath absPath fi
    end.
Proof.
  intros Hpath Hdots Hgw. unfold mainHandler. rewrite Hpath. cbn [strings.slice_from].
  now rewrite Hdots, Hgw.
Qed.

Lemma mainHandler_gw (os : OS) (flags : Flags)
    (pageHtml : Template PageData) (errorHtml : Template string)
    (req : Request) (c : ascii) (relPath : string) :
  url.Path (URL req) = String c relPath →
  strings.Contains relPath ".." = false →
  strings.HasPrefix relPath "gw/" = true →
  mainHandler os flags pageHtml errorHtml req
  = [EvRedirect ("http://camlistore.org/code/?p=camlistore.git;f="
                 +:+ default "" (strings.slice_from 3 relPath) +:+ ";hb=master") 302].
Proof.
  intros Hpath Hdots Hgw. unfold mainHandler. rewrite Hpath.
  change (strings.slice_from 1 (String c relPath)) with (Some relPath).
  cbv beta iota. rewrite Hdots, Hgw.
  destruct (HasPrefix_slice _ _ Hgw) as [t [_ Ht]].
  change (String.length "gw/") with 3%nat in Ht. now rewrite Ht.
Qed.

(** What the fallback handler sends to the client, for every request with a
    path of at least one byte. *)
Lemma mainHandler_response (os : OS) (flags : Flags)
    (pageHtml : Template PageData) (errorHtml : Template string)
    (req : Request) (c : ascii) (relPath : string) :
  url.Path (URL req) = String c relPath →
  response (mainHandler os flags pageHtml errorHtml req)
  = content_answer os flags pageHtml errorHtml relPath.
Proof.
  intros Hpath. unfold content_answer.
  destruct (strings.Contains relPath "..") eqn:Hdots.
  { now rewrite (mainHandler_dotdot _ _ _ _ _ _ _ Hpath Hdots). }
  destruct (strings.HasPrefix relPath "gw/") eqn:Hgw.
  { now rewrite (mainHandler_gw _ _ _ _ _ _ _ Hpath Hdots Hgw). }
  rewrite (mainHandler_resolves _ _ _ _ _ _ _ Hpath Hdots Hgw). cbv zeta.
  rewrite response_skip by reflexivity. unfold serveResolved.
  destruct (Lstat os (filepath.Join [root flags; "content"; relPath])) as [[[|]] | err];
    cbn [IsDir negb].
  - rewrite response_skip by reflexivity.
    destruct (Lstat os (filepath.Join [root flags; "content"; relPath +:+ "/index.html"]))
      as [[[|]] | err]; cbn [IsDir negb].
    + reflexivity.
    + apply response_serveFile.
    + rewrite response_skip by reflexivity. apply response_serveError.
  - apply response_serveFile.
  - rewrite response_skip by reflexivity. apply response_serveError.
Qed.

(** Every answer is a redirect, the error page or a rendered page, unless
    the path contains two dots or the index of a directory is a directory;
    and an answer without any action can only be the page of a file for
    which the page template writes nothing. *)
Lemma content_answer_cases (os : OS) (flags : Flags)
    (pageHtml : Template PageData) (errorHtml : Template string) (relPath : string) :
  strings.Contains relPath ".." = false →
  (Lstat os (filepath.Join [root flags; "content"; relPath]) = Ok {| IsDir := true |} →
   Lstat os (filepath.Join [root flags; "content"; relPath +:+ "/index.html"])
     ≠ Ok {| IsDir := true |}) →
  fallback_answer pageHtml errorHtml (content_answer os flags pageHtml errorHtml relPath) ∧
  (content_answer os flags pageHtml errorHtml relPath = [] →
   ∃ absPath data, ReadFile os absPath = Ok data ∧
                   rendered pageHtml (served_title data) data = []).
Proof.
  intros Hdots Hindex. unfold content_answer. rewrite Hdots.
  assert (Hserved : ∀ absPath,
            served os pageHtml errorHtml absPath = [] →
            ∃ absPath data, ReadFile os absPath = Ok data ∧
                            rendered pageHtml (served_title data) data = []).
  { intros absPath. unfold served. destruct (ReadFile os absPath) as [data | err] eqn:Hread;
      [| discriminate].
    intros Hnil. exists absPath, data. split; [exact Hread |].
    now destruct (rendered pageHtml (served_title data) data). }
  destruct (strings.HasPrefix relPath "gw/"); [split; [constructor | discriminate] |].
  cbv zeta.
  destruct (Lstat os (filepath.Join [root flags; "content"; relPath])) as [[[|]] | err].
  - specialize (Hindex eq_refl).
    destruct (Lstat os (filepath.Join [root flags; "content"; relPath +:+ "/index.html"]))
      as [[[|]] | err].
    + contradiction.
    + split; [apply fallback_answer_served | apply Hserved].
    + split; [constructor | discriminate].
  - split; [apply fallback_answer_served | apply Hserved].
  - split; [constructor | discriminate].
Qed.

(** C8 (as the code has it).  When the relative path contains no two
    consecutive dots, does not start with [gw/] and names a directory, the
    handler examines [<path>/index.html] under the content root next and
    serves that.  Hence, for [foo] whose first segment is not [gw], where
    [foo] is a directory with an [index.html] that is not a directory, the
    requests for [/foo/] and [/foo/index.html] get the same response. *)
Theorem directory_index_same_output (os : OS) (flags : Flags)
    (pageHtml : Template PageData) (errorHtml : Template string) :
  (∀ req c relPath,
     url.Path (URL req) = String c relPath →
     strings.Contains relPath ".." = false →
     strings.HasPrefix relPath "gw/" = false →
     Lstat os (filepath.Join [root flags; "content"; relPath]) = Ok {| IsDir := true |} →
     let indexPath := filepath.Join [root flags; "content"; relPath +:+ "/index.html"] in
     mainHandler os flags pageHtml errorHtml req
     = EvLstat (filepath.Join [root flags; "content"; relPath]) :: EvLstat indexPath ::
       match Lstat os indexPath with
       | Err err => EvLog err :: serveError pageHtml errorHtml req (relPath +:+ "/index.html") err
       | Ok fi => serveResolved os pageHtml errorHtml req (relPath +:+ "/index.html") indexPath fi
       end) ∧
  (∀ req1 req2 foo,
     url.Path (URL req1) = "/" +:+ foo +:+ "/" →
     url.Path (URL req2) = "/" +:+ foo +:+ "/index.html" →
     strings.HasPrefix (foo +:+ "/") "gw/" = false →
     Lstat os (filepath.Join [root flags; "content"; foo +:+ "/"]) = Ok {| IsDir := true |} →
     Lstat os (filepath.Join [root flags; "content"; foo +:+ "/index.html"])
       = Ok {| IsDir := false |} →
     response (mainHandler os flags pageHtml errorHtml req1)
     = response (mainHandler os flags pageHtml errorHtml req2)).
Proof.
  split.
  - intros req c relPath Hpath Hdots Hgw Hdir indexPath.
    rewrite (mainHandler_resolves _ _ _ _ _ _ _ Hpath Hdots Hgw). cbv zeta.
    rewrite Hdir. reflexivity.
  - intros req1 req2 foo Hpath1 Hpath2 Hgw Hdir Hindex.
    destruct (strings.Contains foo "..") eqn:Hdots.
    + assert (H1 : strings.Contains (foo +:+ "/") ".." = true).
      { change "/" with (String "/" ""). rewrite Contains_dotdot_slash, Hdots. reflexivity. }
      assert (H2 : strings.Contains (foo +:+ "/index.html") ".." = true).
      { change "/index.html" with (String "/" "index.html").
        rewrite Contains_dotdot_slash, Hdots. reflexivity. }
      rewrite (mainHandler_dotdot _ _ _ _ _ _ _ Hpath1 H1).
      rewrite (mainHandler_dotdot _ _ _ _ _ _ _ Hpath2 H2). reflexivity.
    + assert (H1 : strings.Contains (foo +:+ "/") ".." = false).
      { change "/" with (String "/" ""). rewrite Contains_dotdot_slash, Hdots. reflexivity. }
      assert (H2 : strings.Contains (foo +:+ "/index.html") ".." = false).
      { change "/index.html" with (String "/" "index.html").
        rewrite Contains_dotdot_slash, Hdots. reflexivity. }
      assert (Hgw2 : strings.HasPrefix (foo +:+ "/index.html") "gw/" = false).
      { change "/index.html" with (String "/" "index.html").
        now rewrite HasPrefix_gw_slash. }
      rewrite (mainHandler_resolves _ _ _ _ _ _ _ Hpath1 H1 Hgw).
      rewrite (mainHandler_resolves _ _ _ _ _ _ _ Hpath2 H2 Hgw2). cbv zeta.
      rewrite Hdir, Join_index, Hindex. reflexivity.
Qed.

Lemma directory_index_witness :
  response (mainHandler site_os site_flags site_page site_error
              (get "camlistore.org" "/docs/" "" "curl"))
  = response (mainHandler site_os site_flags site_page site_error
                (get "camlistore.org" "/docs/index.html" "" "curl")).
Proof.
  apply (proj2 (directory_index_same_output site_os site_flags site_page site_error)
           _ _ "docs"); reflexivity.
Defined.

(** C8 fails as worded: [gw/x] is a directory of the content tree with an
    [index.html], and the requests for [/gw/x/] and [/gw/x/index.html] are
    redirected to two different gitweb URLs. *)
Lemma directory_index_differs_under_gw :
  Lstat site_os (filepath.Join [root site_flags; "content"; "gw/x/"]) = Ok {| IsDir := true |} ∧
  Lstat site_os (filepath.Join [root site_flags; "content"; "gw/x/index.html"])
    = Ok {| IsDir := false |} ∧
  mainHandler site_os site_flags site_page site_error (get "camlistore.org" "/gw/x/" "" "curl")
    = [EvRedirect "http://camlistore.org/code/?p=camlistore.git;f=x/;hb=master" 302] ∧
  mainHandler site_os site_flags site_page site_error
    (get "camlistore.org" "/gw/x/index.html" "" "curl")
    = [EvRedirect "http://camlistore.org/code/?p=camlistore.git;f=x/index.html;hb=master" 302] ∧
  response (mainHandler site_os site_flags site_page site_error
              (get "camlistore.org" "/gw/x/" "" "curl"))
  ≠ response (mainHandler site_os site_flags site_page site_error
                (get "camlistore.org" "/gw/x/index.html" "" "curl")).
Proof.
  repeat split; try (vm_compute; reflexivity). vm_compute. discriminate.
Qed.

(** * The multiplexer *)

Lemma is_explicit_lookup (m : gmap string muxEntry) (key : string) (e : muxEntry) :
  m !! key = Some e → explicit e = true → is_explicit m key = true.
Proof. intros Hl He. unfold is_explicit. now rewrite Hl. Qed.

(** A later registration never replaces an explicitly registered pattern. *)
Lemma Handle_keeps_explicit (mux mux' : ServeMux) (pat : string) (handler : Handler)
    (key : string) (e : muxEntry) :
  Handle mux pat handler = Some mux' →
  m mux !! key = Some e → explicit e = true →
  m mux' !! key = Some e.
Proof.
  intros HH Hl He. unfold Handle in HH.
  destruct (String.eqb pat ""); [discriminate |].
  destruct (is_explicit (m mux) pat) eqn:Hexp; [discriminate |].
  assert (Hne : pat ≠ key).
  { intros ->. rewrite (is_explicit_lookup _ _ _ Hl He) in Hexp. discriminate. }
  set (m1 := <[pat := _]> (m mux)) in HH.
  assert (Hl1 : m1 !! key = Some e) by (unfold m1; now rewrite lookup_insert_ne).
  destruct (ends_with_slash pat && negb (is_explicit m1 (drop_last pat))) eqn:Himp;
    injection HH as <-; simpl; [| exact Hl1].
  apply andb_true_iff in Himp as [_ Himp]. apply negb_true_iff in Himp.
  rewrite lookup_insert_ne; [exact Hl1 |].
  intros Heq. rewrite <- Heq in Hl1.
  rewrite (is_explicit_lookup _ _ _ Hl1 He) in Himp. discriminate.
Qed.

Lemma registrations_keep_explicit (regs : list (string * Handler)) (mux mux' : ServeMux)
    (key : string) (e : muxEntry) :
  fold_left (λ (mux : option ServeMux) (ph : string * Handler),
               mux ≫= λ mux, Handle mux (fst ph) (snd ph)) regs (Some mux) = Some mux' →
  m mux !! key = Some e → explicit e = true →
  m mux' !! key = Some e.
Proof.
  revert mux. induction regs as [|ph regs IH]; intros mux Hfold Hl He; simpl in Hfold.
  - now injection Hfold as <-.
  - destruct (Handle mux (fst ph) (snd ph)) as [mux1 |] eqn:HH.
    + exact (IH mux1 Hfold (Handle_keeps_explicit _ _ _ _ _ _ HH Hl He) He).
    + exfalso. clear -Hfold. induction regs as [|ph' regs IH']; [discriminate | exact (IH' Hfold)].
Qed.

Section longest_match.

Variable path : string.

Lemma fold_step_stays (l : list (string * muxEntry)) (b : string * muxEntry) :
  (∀ ke, In ke l → pathMatch (fst ke) path = true →
         (String.length (fst ke) ≤ String.length (fst b))%nat) →
  fold_left (longer_match path) l (Some b) = Some b.
Proof.
  induction l as [|ke l IH]; intros Hle; simpl; [reflexivity |].
  assert (Hstep : longer_match path (Some b) ke = Some b).
  { unfold longer_match. destruct (pathMatch (fst ke) path) eqn:Hm; [| reflexivity].
    specialize (Hle ke (or_introl eq_refl) Hm).
    apply Nat.ltb_ge in Hle. now rewrite Hle. }
  rewrite Hstep. apply IH. intros ke' Hin. apply Hle. now right.
Qed.

Lemma fold_step_longest (l : list (string * muxEntry)) (acc : option (string * muxEntry))
    (k : string) (e : muxEntry) :
  (∀ b, acc = Some b → (String.length (fst b) < String.length k)%nat) →
  In (k, e) l →
  pathMatch k path = true →
  (∀ ke, In ke l → pathMatch (fst ke) path = true →
         ke = (k, e) ∨ (String.length (fst ke) < String.length k)%nat) →
  fold_left (longer_match path) l acc = Some (k, e).
Proof.
  revert acc. induction l as [|ke l IH]; intros acc Hacc Hin Hk Hall; [destruct Hin |].
  simpl. destruct (pathMatch (fst ke) path) eqn:Hm.
  - destruct (Hall ke (or_introl eq_refl) Hm) as [-> | Hlt].
    + assert (Hstep : longer_match path acc (k, e) = Some (k, e)).
      { unfold longer_match. simpl. rewrite Hk. destruct acc as [b |]; [| reflexivity].
        specialize (Hacc b eq_refl). apply Nat.ltb_lt in Hacc. now rewrite Hacc. }
      rewrite Hstep. apply fold_step_stays. intros ke' Hin' Hm'. simpl.
      destruct (Hall ke' (or_intror Hin') Hm') as [-> | Hlt]; simpl; lia.
    + destruct Hin as [-> | Hin]; [simpl in Hlt; lia |].
      apply IH; [| exact Hin | exact Hk | intros ke' Hin'; apply Hall; now right].
      intros b Hb. unfold longer_match in Hb. rewrite Hm in Hb.
      destruct acc as [b0 |].
      * destruct (String.length (fst b0) <? String.length (fst ke))%nat;
          injection Hb as <-; [exact Hlt | now apply Hacc].
      * injection Hb as <-. exact Hlt.
  - destruct Hin as [-> | Hin]; [simpl in Hm; congruence |].
    assert (Hstep : longer_match path acc ke = acc) by (unfold longer_match; now rewrite Hm).
    rewrite Hstep. apply IH; [exact Hacc | exact Hin | exact Hk |].
    intros ke' Hin'. apply Hall. now right.
Qed.

(** The entry of a matching pattern is chosen when every other matching
    pattern of the multiplexer is shorter. *)
Lemma match_longest (mux : ServeMux) (k : string) (e : muxEntry) :
  m mux !! k = Some e →
  pathMatch k path = true →
  (∀ k' e', m mux !! k' = Some e' → pathMatch k' path = true →
            k' = k ∨ (String.length k' < String.length k)%nat) →
  match_ mux path = Some e.
Proof.
  intros Hl Hk Hall. unfold match_.
  rewrite (fold_step_longest (map_to_list (m mux)) None k e); [reflexivity | discriminate | ..].
  - apply list_elem_of_In, elem_of_map_to_list. exact Hl.
  - exact Hk.
  - intros [k' e'] Hin Hm. apply list_elem_of_In, elem_of_map_to_list in Hin. simpl in *.
    destruct (Hall k' e' Hin Hm) as [-> | Hlt]; [left | now right].
    f_equal. congruence.
Qed.

End longest_match.

Lemma drop_last_shorter (s : string) :
  s ≠ "" → (String.length (drop_last s) < String.length s)%nat.
Proof.
  induction s as [|c s IH]; [contradiction |]. intros _.
  destruct s as [|d s]; simpl in *; [lia |].
  assert (String d s ≠ "") as Hne by discriminate. specialize (IH Hne). lia.
Qed.

Lemma Handle_registers (mux mux' : ServeMux) (pat : string) (handler : Handler) :
  Handle mux pat handler = Some mux' →
  m mux' !! pat = Some {| explicit := true; h := handler; pattern := pat |}.
Proof.
  unfold Handle. destruct (String.eqb pat "") eqn:Hpat; [discriminate |].
  destruct (is_explicit (m mux) pat); [discriminate |].
  destruct (ends_with_slash pat && _); intros [= <-]; simpl.
  - rewrite lookup_insert_ne; [apply lookup_insert_eq |].
    apply String.eqb_neq in Hpat. intros Heq.
    pose proof (drop_last_shorter pat Hpat) as Hlt. rewrite Heq in Hlt. lia.
  - apply lookup_insert_eq.
Qed.

Lemma registrations_None (regs : list (string * Handler)) :
  fold_left (λ (mux : option ServeMux) (ph : string * Handler),
               mux ≫= λ mux, Handle mux (fst ph) (snd ph)) regs None = None.
Proof. induction regs as [|ph regs IH]; [reflexivity | exact IH]. Qed.

(** After the registrations have gone through, each registered pattern is
    bound to the handler it was registered with. *)
Lemma registered_entry (regs : list (string * Handler)) (mux mux' : ServeMux)
    (pat : string) (handler : Handler) :
  In (pat, handler) regs →
  fold_left (λ (mux : option ServeMux) (ph : string * Handler),
               mux ≫= λ mux, Handle mux (fst ph) (snd ph)) regs (Some mux) = Some mux' →
  m mux' !! pat = Some {| explicit := true; h := handler; pattern := pat |}.
Proof.
  revert mux. induction regs as [|ph regs IH]; intros mux Hin Hfold; [destruct Hin |].
  simpl in Hfold.
  destruct (Handle mux (fst ph) (snd ph)) as [mux1 |] eqn:HH;
    [| rewrite registrations_None in Hfold; discriminate].
  destruct Hin as [-> | Hin].
  - apply (registrations_keep_explicit regs mux1 mux'); [exact Hfold | | reflexivity].
    exact (Handle_registers _ _ _ _ HH).
  - exact (IH mux1 Hin Hfold).
Qed.

(** When [main] gets as far as serving, its multiplexer is the result of
    the registrations. *)
Lemma mux_registered (os : OS) (flags : Flags)
    (pageHtml : Template PageData) (errorHtml : Template string) (mux0 : ServeMux) :
  mux os flags pageHtml errorHtml = Some mux0 →
  fold_left (λ (mux : option ServeMux) (ph : string * Handler),
               mux ≫= λ mux, Handle mux (fst ph) (snd ph))
            (registrations os flags pageHtml errorHtml) (Some NewServeMux) = Some mux0.
Proof.
  unfold mux. destruct (negb (url.Parse_ok _)); [discriminate |].
  destruct (_ && negb (url.Parse_ok _)); [discriminate |]. exact id.
Qed.

Lemma pathMatch_code (k : string) :
  pathMatch k "/code" = true → k = "/code" ∨ (String.length k < String.length "/code")%nat.
Proof.
  unfold pathMatch. destruct (String.eqb k ""); [discriminate |].
  destruct (ends_with_slash k) eqn:Hslash.
  - intros Hpre. right. apply HasPrefix_iff in Hpre as [t Ht].
    pose proof (f_equal String.length Ht) as Hlen. rewrite length_append in Hlen.
    simpl in Hlen |- *.
    destruct (Nat.eq_dec (String.length t) 0%nat) as [Hz |]; [| lia].
    destruct t; [| discriminate]. rewrite append_nil_r in Ht. subst k. discriminate.
  - intros H. left. now apply String.eqb_eq in H.
Qed.

(** * The gitweb route *)

(** C10 (as the code has it).  The gitweb handler runs the CGI handler for
    a path that is exactly [/code/] or that starts with [/code/?] (a decoded
    path may contain a question mark), and the static file handler for every
    other request it receives.  A request whose path is exactly [/code], and
    that no host-specific pattern claims, is answered by the multiplexer of
    [main] with a 302 redirect to [/code/]. *)
Theorem gitweb_route (os : OS) (flags : Flags)
    (pageHtml : Template PageData) (errorHtml : Template string) :
  (∀ (Cgi Static : Handler) r,
     url.Path (URL r) = "/code/" ∨ strings.HasPrefix (url.Path (URL r)) "/code/?" = true →
     gitwebHandler Cgi Static r = Cgi r) ∧
  (∀ (Cgi Static : Handler) r,
     url.Path (URL r) ≠ "/code/" → strings.HasPrefix (url.Path (URL r)) "/code/?" = false →
     gitwebHandler Cgi Static r = Static r) ∧
  (∀ mux0 r,
     mux os flags pageHtml errorHtml = Some mux0 →
     url.Path (URL r) = "/code" →
     RequestURI r ≠ "*" →
     (hosts mux0 = true → match_ mux0 (Host r +:+ "/code") = None) →
     ServeMux_ServeHTTP mux0 r = [EvRedirect "/code/" 302]).
Proof.
  split; [| split].
  - intros Cgi Static r [Hp | Hp]; unfold gitwebHandler; rewrite Hp; [reflexivity |].
    now rewrite orb_true_r.
  - intros Cgi Static r Hne Hpre. unfold gitwebHandler.
    apply String.eqb_neq in Hne. now rewrite Hne, Hpre.
  - intros mux0 r Hmux Hpath Huri Hhost.
    assert (Hentry : m mux0 !! "/code"
                     = Some {| explicit := true; h := RedirectHandler "/code/" StatusFound;
                               pattern := "/code" |}).
    { apply (registered_entry (registrations os flags pageHtml errorHtml) NewServeMux);
        [| exact (mux_registered _ _ _ _ _ Hmux)].
      unfold registrations. apply in_or_app. left. simpl. tauto. }
    assert (Hmatch : match_ mux0 "/code"
                     = Some {| explicit := true; h := RedirectHandler "/code/" StatusFound;
                               pattern := "/code" |}).
    { apply (match_longest "/code" mux0 "/code"); [exact Hentry | reflexivity |].
      intros k' e' _. apply pathMatch_code. }
    unfold ServeMux_ServeHTTP. apply String.eqb_neq in Huri. rewrite Huri, Hpath.
    change (cleanPath "/code") with "/code". rewrite String.eqb_refl, andb_false_r.
    unfold http.handler. rewrite Hmatch.
    destruct (hosts mux0); [rewrite (Hhost eq_refl) |]; reflexivity.
Qed.

Lemma site_mux_hosts :
  ∃ mux0, mux site_os (fixupGitwebFiles site_os site_flags) site_page site_error = Some mux0 ∧
          hosts mux0 = false.
Proof. eexists. split; [reflexivity | reflexivity]. Qed.

Lemma gitweb_route_witness :
  gitwebHandler (serve GodocHandler) (λ _, []) (get "camlistore.org" "/code/" "p=camlistore.git" "curl")
  = [EvServe GodocHandler (get "camlistore.org" "/code/" "p=camlistore.git" "curl")] ∧
  gitwebHandler (serve GodocHandler) (λ _, []) (get "camlistore.org" "/code/static/gitweb.css" "" "curl")
  = [] ∧
  site_handler (get "camlistore.org" "/code" "" "curl") = [EvRedirect "/code/" 302].
Proof.
  pose proof (gitweb_route site_os (fixupGitwebFiles site_os site_flags) site_page site_error)
    as [H1 [H2 H3]].
  split; [| split].
  - apply H1. left. reflexivity.
  - apply H2; [discriminate | reflexivity].
  - destruct site_mux_hosts as [mux0 [Hmux Hhosts]].
    unfold site_handler, main, handler.
    change (startup site_os site_flags) with (Some (fixupGitwebFiles site_os site_flags)).
    cbn [mbind option_bind]. rewrite Hmux. cbn [fmap option_fmap option_map].
    unfold noWwwHandler.
    change (url.RequestURI (URL (get "camlistore.org" "/code" "" "curl"))) with "/code".
    cbn [strings.Contains strings.HasPrefix Ascii.eqb Bool.eqb andb orb].
    change (strings.ToLower site_lower (Host (get "camlistore.org" "/code" "" "curl"))) with "camlistore.org".
    cbn [String.eqb Ascii.eqb Bool.eqb].
    apply (H3 mux0); [exact Hmux | reflexivity | discriminate |].
    rewrite Hhosts. discriminate.
Defined.

(** C10 fails as worded: the path [/code/?x] (sent as [/code/%3Fx]) is not
    [/code/], and the gitweb handler runs the CGI handler for it, not the
    static file handler; so does the whole server. *)
Lemma gitweb_cgi_for_question_mark_path :
  let r := get "camlistore.org" "/code/?x" "" "curl" in
  let static := StripPrefix "/code/" (serve (FileServer "/usr/share/gitweb")) in
  url.Path (URL r) ≠ "/code/" ∧
  url.RequestURI (URL r) = "/code/%3Fx" ∧
  gitwebHandler (serve (gitwebCgi site_os site_flags)) static r
  = [EvServe (gitwebCgi site_os site_flags) r] ∧
  gitwebHandler (serve (gitwebCgi site_os site_flags)) static r ≠ static r ∧
  site_handler r = [EvServe (gitwebCgi site_os site_flags) r].
Proof.
  intros r static. split; [discriminate |]. split; [reflexivity |].
  split; [reflexivity |]. split; [vm_compute; discriminate | vm_compute; reflexivity].
Qed.

(** * Dispatch and the fallback route *)

Section dispatch.

Variable path : string.

Lemma fold_longer_match_result (l : list (string * muxEntry))
    (acc : option (string * muxEntry)) (b : string * muxEntry) :
  fold_left (longer_match path) l acc = Some b →
  acc = Some b ∨ (In b l ∧ pathMatch (fst b) path = true).
Proof.
  revert acc. induction l as [|ke l IH]; intros acc Hfold; simpl in Hfold; [now left |].
  destruct (IH _ Hfold) as [Hstep | [Hin Hm]]; [| right; split; [now right | exact Hm]].
  unfold longer_match in Hstep. destruct (pathMatch (fst ke) path) eqn:Hm; [| now left].
  destruct acc as [b0 |].
  - destruct (String.length (fst b0) <? String.length (fst ke))%nat; [| now left].
    injection Hstep as <-. right. split; [now left | exact Hm].
  - injection Hstep as <-. right. split; [now left | exact Hm].
Qed.

Lemma fold_longer_match_Some (l : list (string * muxEntry)) (b : string * muxEntry) :
  is_Some (fold_left (longer_match path) l (Some b)).
Proof.
  revert b. induction l as [|ke l IH]; intros b; simpl; [now exists b |].
  unfold longer_match at 2. destruct (pathMatch (fst ke) path); [| apply IH].
  destruct (String.length (fst b) <? String.length (fst ke))%nat; apply IH.
Qed.

Lemma fold_longer_match_found (l : list (string * muxEntry))
    (acc : option (string * muxEntry)) (ke : string * muxEntry) :
  In ke l → pathMatch (fst ke) path = true →
  is_Some (fold_left (longer_match path) l acc).
Proof.
  revert acc. induction l as [|ke' l IH]; intros acc Hin Hm; [destruct Hin |]. simpl.
  destruct Hin as [-> | Hin]; [| now apply IH].
  unfold longer_match at 2. rewrite Hm. destruct acc as [b0 |].
  - destruct (String.length (fst b0) <? String.length (fst ke))%nat;
      apply fold_longer_match_Some.
  - apply fold_longer_match_Some.
Qed.

End dispatch.

Lemma match_result (mux : ServeMux) (path : string) (e : muxEntry) :
  match_ mux path = Some e →
  ∃ k, m mux !! k = Some e ∧ pathMatch k path = true.
Proof.
  unfold match_. destruct (fold_left _ _ _) as [[k e'] |] eqn:Hfold; [| discriminate].
  intros [= <-]. destruct (fold_longer_match_result _ _ _ _ Hfold) as [? | [Hin Hm]];
    [discriminate |].
  exists k. split; [| exact Hm]. now apply elem_of_map_to_list, list_elem_of_In.
Qed.

Lemma append_same_length (a b x y : string) :
  String.length a = String.length b → a +:+ x = b +:+ y → a = b.
Proof.
  revert b. induction a as [|c a IH]; intros [|d b] Hlen Heq; simpl in *;
    try discriminate; [reflexivity |].
  injection Heq as -> Heq. f_equal. apply IH; [lia | exact Heq].
Qed.

(** Two patterns of the same length that match the same path are equal. *)
Lemma pathMatch_no_tie (k1 k2 path : string) :
  pathMatch k1 path = true → pathMatch k2 path = true →
  String.length k1 = String.length k2 → k1 = k2.
Proof.
  unfold pathMatch.
  destruct (String.eqb k1 ""); [discriminate |]. destruct (String.eqb k2 ""); [discriminate |].
  destruct (ends_with_slash k1), (ends_with_slash k2);
    rewrite ?HasPrefix_iff, ?String.eqb_eq; intros H1 H2 Hlen.
  - destruct H1 as [t1 ->], H2 as [t2 H2]. exact (append_same_length _ _ _ _ Hlen H2).
  - destruct H1 as [t1 H1]. subst k2.
    pose proof (f_equal String.length H1) as HL. rewrite length_append in HL.
    destruct t1; [rewrite append_nil_r in H1; now symmetry | simpl in HL; lia].
  - destruct H2 as [t2 H2]. subst k1.
    pose proof (f_equal String.length H2) as HL. rewrite length_append in HL.
    destruct t2; [now rewrite append_nil_r in H2 | simpl in HL; lia].
  - congruence.
Qed.

Section any_order.

Variable path : string.

Lemma fold_longer_match_max (l : list (string * muxEntry))
    (acc : option (string * muxEntry)) (b : string * muxEntry) :
  fold_left (longer_match path) l acc = Some b →
  (∀ ke, In ke l → pathMatch (fst ke) path = true →
         (String.length (fst ke) ≤ String.length (fst b))%nat) ∧
  (∀ a, acc = Some a → (String.length (fst a) ≤ String.length (fst b))%nat).
Proof.
  revert acc. induction l as [|ke l IH]; intros acc Hfold; simpl in Hfold.
  - split; [intros ke [] | intros a Ha; rewrite Ha in Hfold; now injection Hfold as <-].
  - destruct (IH _ Hfold) as [Hl Hstep]. unfold longer_match in Hstep. split.
    + intros ke' [<- | Hin] Hm; [| now apply Hl]. rewrite Hm in Hstep.
      destruct acc as [b0 |]; [| now apply (Hstep ke)].
      destruct (String.length (fst b0) <? String.length (fst ke))%nat eqn:Hlt;
        [now apply (Hstep ke) |].
      apply Nat.ltb_ge in Hlt. specialize (Hstep b0 eq_refl). lia.
    + intros a ->. destruct (pathMatch (fst ke) path); [| now apply Hstep].
      destruct (String.length (fst a) <? String.length (fst ke))%nat eqn:Hlt;
        [| now apply Hstep].
      apply Nat.ltb_lt in Hlt. specialize (Hstep ke eq_refl). lia.
Qed.

Lemma fold_longer_match_none (l : list (string * muxEntry)) :
  (∀ ke, In ke l → pathMatch (fst ke) path = false) →
  fold_left (longer_match path) l None = None.
Proof.
  induction l as [|ke l IH]; intros Hnone; [reflexivity |]. simpl.
  unfold longer_match at 2. rewrite (Hnone ke (or_introl eq_refl)).
  apply IH. intros ke' Hin. apply Hnone. now right.
Qed.

(** The entry that [ServeMux.match] returns does not depend on the order in
    which the loop visits the map. *)
Lemma match_any_order (mux : ServeMux) (l : list (string * muxEntry)) :
  (∀ ke, In ke l ↔ m mux !! fst ke = Some (snd ke)) →
  snd <$> fold_left (longer_match path) l None = match_ mux path.
Proof.
  intros Hl. unfold match_.
  destruct (fold_left (longer_match path) (map_to_list (m mux)) None) as [[k e] |] eqn:Hfold.
  - destruct (fold_longer_match_result _ _ _ _ Hfold) as [? | [Hin Hm]]; [discriminate |].
    destruct (fold_longer_match_max _ _ _ Hfold) as [Hmax _].
    apply list_elem_of_In, elem_of_map_to_list in Hin. simpl in Hm, Hmax.
    rewrite (fold_step_longest path l None k e); [reflexivity | discriminate | ..].
    + now apply Hl.
    + exact Hm.
    + intros [k' e'] Hin' Hm'. apply Hl in Hin'. simpl in Hin', Hm' |- *.
      assert (Hle : (String.length k' ≤ String.length k)%nat).
      { apply (Hmax (k', e')); [| exact Hm'].
        now apply list_elem_of_In, elem_of_map_to_list. }
      destruct (Nat.eq_dec (String.length k') (String.length k)) as [Heq |]; [| right; lia].
      left. pose proof (pathMatch_no_tie _ _ _ Hm' Hm Heq) as ->. congruence.
  - rewrite fold_longer_match_none; [reflexivity |].
    intros [k' e'] Hin'. apply Hl in Hin'. simpl in Hin' |- *.
    destruct (pathMatch k' path) eqn:Hm'; [| reflexivity].
    assert (Hsome : is_Some (fold_left (longer_match path) (map_to_list (m mux)) None)).
    { apply (fold_longer_match_found path _ _ (k', e')); [| exact Hm'].
      now apply list_elem_of_In, elem_of_map_to_list. }
    rewrite Hfold in Hsome. now destruct Hsome.
Qed.

End any_order.

(** When the fallback pattern is registered, every rooted path is served by
    the handler of a registered pattern that matches it. *)
Lemma handler_dispatch (mux : ServeMux) (host path : string) (e : muxEntry) :
  m mux !! "/" = Some e →
  strings.HasPrefix path "/" = true →
  ∃ k e', m mux !! k = Some e' ∧
          (pathMatch k path = true ∨ pathMatch k (host +:+ path) = true) ∧
          http.handler mux host path = h e'.
Proof.
  intros Hroot Hpath. unfold http.handler.
  destruct (if hosts mux then match_ mux (host +:+ path) else None) as [e1 |] eqn:Hhost.
  - destruct (hosts mux); [| discriminate].
    destruct (match_result _ _ _ Hhost) as [k [Hk Hm]]. exists k, e1. auto.
  - assert (Hsome : is_Some (match_ mux path)).
    { unfold match_. apply fmap_is_Some.
      apply (fold_longer_match_found path _ _ ("/", e)); [| exact Hpath].
      now apply list_elem_of_In, elem_of_map_to_list. }
    destruct Hsome as [e2 He2]. rewrite He2.
    destruct (match_result _ _ _ He2) as [k [Hk Hm]]. exists k, e2. auto.
Qed.

(** ** What the multiplexer holds *)

Lemma Handle_entries (mux mux' : ServeMux) (pat : string) (handler : Handler)
    (k : string) (e : muxEntry) :
  Handle mux pat handler = Some mux' →
  m mux' !! k = Some e →
  m mux !! k = Some e ∨
  (k = pat ∧ h e = handler) ∨
  (k = drop_last pat ∧ ends_with_slash pat = true ∧
   (strings.HasPrefix pat "/" = true → h e = RedirectHandler pat StatusMovedPermanently) ∧
   ∃ path, h e = RedirectHandler path StatusMovedPermanently).
Proof.
  unfold Handle. destruct (String.eqb pat ""); [discriminate |].
  destruct (is_explicit (m mux) pat); [discriminate |].
  destruct (ends_with_slash pat && _) eqn:Htree; intros [= <-]; cbn [m]; intros Hk.
  - apply andb_true_iff in Htree as [Htree _].
    destruct (decide (drop_last pat = k)) as [<- | Hne1].
    + rewrite lookup_insert_eq in Hk. injection Hk as <-. right. right. cbn [h].
      split; [reflexivity |]. split; [exact Htree |].
      split; [| eauto]. intros Hroot.
      change (RedirectHandler (if strings.HasPrefix pat "/" then pat else
                match strings.Index pat "/" with
                | Some i => default pat (strings.slice_from i pat)
                | None => pat
                end) StatusMovedPermanently = RedirectHandler pat StatusMovedPermanently).
      now rewrite Hroot.
    + rewrite lookup_insert_ne in Hk by exact Hne1.
      destruct (decide (pat = k)) as [<- | Hne2].
      * rewrite lookup_insert_eq in Hk. injection Hk as <-. right. left. now split.
      * rewrite lookup_insert_ne in Hk by exact Hne2. now left.
  - destruct (decide (pat = k)) as [<- | Hne2].
    + rewrite lookup_insert_eq in Hk. injection Hk as <-. right. left. now split.
    + rewrite lookup_insert_ne in Hk by exact Hne2. now left.
Qed.

(** Every entry of the multiplexer comes from a registration: it holds the
    handler registered for its pattern, or the redirect that a subtree
    pattern brings with it for the pattern without the final slash. *)
Lemma mux_entries (regs : list (string * Handler)) (mux mux' : ServeMux)
    (k : string) (e : muxEntry) :
  fold_left (λ (mux : option ServeMux) (ph : string * Handler),
               mux ≫= λ mux, Handle mux (fst ph) (snd ph)) regs (Some mux) = Some mux' →
  m mux' !! k = Some e →
  m mux !! k = Some e ∨
  In (k, h e) regs ∨
  (∃ p, In p (map fst regs) ∧ k = drop_last p ∧ ends_with_slash p = true ∧
        (strings.HasPrefix p "/" = true → h e = RedirectHandler p StatusMovedPermanently) ∧
        ∃ path, h e = RedirectHandler path StatusMovedPermanently).
Proof.
  revert mux. induction regs as [|[p hd] regs IH]; intros mux Hfold Hk.
  - injection Hfold as <-. now left.
  - cbn [fold_left fst snd mbind option_bind] in Hfold.
    destruct (Handle mux p hd) as [mux1 |] eqn:HH;
      [| rewrite registrations_None in Hfold; discriminate].
    destruct (IH mux1 Hfold Hk) as [H1 | [Hin | [q [Hq Hrest]]]].
    + destruct (Handle_entries _ _ _ _ _ _ HH H1) as [H0 | [[-> <-] | [-> Hredir]]].
      * now left.
      * right. left. now left.
      * right. right. exists p. split; [now left | now split].
    + right. left. now right.
    + right. right. exists q. split; [now right | exact Hrest].
Qed.

Lemma handler_cases (mux : ServeMux) (host path : string) :
  http.handler mux host path = NotFound ∨
  ∃ k e, m mux !! k = Some e ∧
         (pathMatch k path = true ∨ pathMatch k (host +:+ path) = true) ∧
         http.handler mux host path = h e.
Proof.
  unfold http.handler.
  destruct (if hosts mux then match_ mux (host +:+ path) else None) as [e1 |] eqn:Hhost.
  - destruct (hosts mux); [| discriminate].
    destruct (match_result _ _ _ Hhost) as [k [Hk Hm]]. right. exists k, e1. auto.
  - destruct (match_ mux path) as [e2 |] eqn:Hm; [| now left].
    destruct (match_result _ _ _ Hm) as [k [Hk Hm']]. right. exists k, e2. auto.
Qed.

(** A path in canonical form starts with a slash. *)
Lemma cleanPath_rooted (p : string) :
  cleanPath p = p → strings.HasPrefix p "/" = true.
Proof.
  unfold cleanPath. destruct (String.eqb p "") eqn:Hempty.
  { apply String.eqb_eq in Hempty. subst p. discriminate. }
  destruct (strings.HasPrefix p "/") eqn:Hroot; [reflexivity |].
  unfold filepath.Clean. cbn [String.eqb String.append strings.HasPrefix Ascii.eqb].
  change (Ascii.eqb "/" "/") with true. cbn [andb].
  destruct (_ && _); intros Heq; rewrite <- Heq in Hroot; discriminate Hroot.
Qed.

(** C2 (as the code has it).  The handler of [main] answers a request
    itself (the bot denial, the redirect to the canonical host) or hands it
    to the multiplexer.  The multiplexer answers a request whose target is an
    asterisk with status 400 and one whose path is not in canonical form with a 301
    redirect to the canonical path; every other request goes to the handler
    of one entry whose pattern matches, a registered handler or the redirect
    that a subtree pattern brings with it, the pattern [/] of the fallback
    handler matching every rooted path (only a CONNECT request without a
    rooted path can match nothing, and gets status 404).  The fallback
    handler sends, for a path of at least one byte, exactly the answer of
    [content_answer]: nothing for two consecutive dots; the gitweb redirect
    under [gw/]; the error page with status 404 when the path or the index
    of the directory it names cannot be examined or the file found cannot be
    read; nothing when the index of a directory is a directory; otherwise
    the page rendered from the file.  Apart from the two cases of nothing,
    the answer is a redirect, the error page or the rendered page, and it
    consists of no action at all only if the page template writes nothing
    for the file found. *)
Theorem fallback_answers (os : OS) (flags : Flags)
    (pageHtml : Template PageData) (errorHtml : Template string) :
  (∀ unicode_lower server r,
     main os flags pageHtml errorHtml unicode_lower = Some server →
     ∃ flags' mux0,
       startup os flags = Some flags' ∧ mux os flags' pageHtml errorHtml = Some mux0 ∧
       (server r = [EvError "bye" 401; EvLog "bot denied"] ∨
        server r = [EvRedirect ("http://camlistore.org" +:+ url.RequestURI (URL r)) 302] ∨
        server r = ServeMux_ServeHTTP mux0 r)) ∧
  (∀ mux0 r,
     mux os flags pageHtml errorHtml = Some mux0 →
     (RequestURI r = "*" →
      ServeMux_ServeHTTP mux0 r = [EvSetHeader "Connection" "close"; EvWriteHeader 400]) ∧
     (RequestURI r ≠ "*" → Method r ≠ "CONNECT" →
      cleanPath (url.Path (URL r)) ≠ url.Path (URL r) →
      ServeMux_ServeHTTP mux0 r = [EvRedirect (cleanPath (url.Path (URL r))) 301]) ∧
     (RequestURI r ≠ "*" →
      Method r = "CONNECT" ∨ cleanPath (url.Path (URL r)) = url.Path (URL r) →
      (∃ k e, m mux0 !! k = Some e ∧
              (pathMatch k (url.Path (URL r)) = true ∨
               pathMatch k (Host r +:+ url.Path (URL r)) = true) ∧
              (In (k, h e) (registrations os flags pageHtml errorHtml) ∨
               ∃ target, h e = RedirectHandler target 301) ∧
              ServeMux_ServeHTTP mux0 r = h e r) ∨
      (Method r = "CONNECT" ∧ strings.HasPrefix (url.Path (URL r)) "/" = false ∧
       ServeMux_ServeHTTP mux0 r = [EvError "404 page not found" 404])) ∧
     m mux0 !! "/"
       = Some {| explicit := true; h := mainHandler os flags pageHtml errorHtml; pattern := "/" |}) ∧
  (∀ req c relPath,
     url.Path (URL req) = String c relPath →
     response (mainHandler os flags pageHtml errorHtml req)
     = content_answer os flags pageHtml errorHtml relPath) ∧
  (∀ relPath,
     strings.Contains relPath ".." = false →
     (Lstat os (filepath.Join [root flags; "content"; relPath]) = Ok {| IsDir := true |} →
      Lstat os (filepath.Join [root flags; "content"; relPath +:+ "/index.html"])
        ≠ Ok {| IsDir := true |}) →
     fallback_answer pageHtml errorHtml (content_answer os flags pageHtml errorHtml relPath) ∧
     (content_answer os flags pageHtml errorHtml relPath = [] →
      ∃ absPath data, ReadFile os absPath = Ok data ∧
                      rendered pageHtml (served_title data) data = [])).
Proof.
  split; [| split; [| split]].
  - intros unicode_lower server r Hmain. unfold main in Hmain.
    destruct (startup os flags) as [flags' |]; [| discriminate Hmain].
    cbn [mbind option_bind] in Hmain. unfold handler in Hmain.
    destruct (mux os flags' pageHtml errorHtml) as [mux0 |] eqn:Hmux; [| discriminate Hmain].
    injection Hmain as <-. exists flags', mux0. split; [reflexivity |]. split; [exact Hmux |].
    unfold noWwwHandler. destruct (_ && _ && isBot r); [now left |].
    destruct (String.eqb _ "www.camlistore.org"); [right; now left | right; now right].
  - intros mux0 r Hmux.
    assert (Hroot : m mux0 !! "/"
                    = Some {| explicit := true; h := mainHandler os flags pageHtml errorHtml;
                              pattern := "/" |}).
    { apply (registered_entry (registrations os flags pageHtml errorHtml) NewServeMux);
        [| exact (mux_registered _ _ _ _ _ Hmux)].
      unfold registrations. apply in_or_app. right. apply in_or_app. right.
      apply in_or_app. left. simpl. tauto. }
    assert (Hentry : ∀ k e, m mux0 !! k = Some e →
              In (k, h e) (registrations os flags pageHtml errorHtml) ∨
              ∃ target, h e = RedirectHandler target 301).
    { intros k e Hk.
      destruct (mux_entries _ _ _ _ _ (mux_registered _ _ _ _ _ Hmux) Hk)
        as [H0 | [Hin | [q [_ [_ [_ [_ Hredirect]]]]]]].
      - cbn [NewServeMux m] in H0. rewrite lookup_empty in H0. discriminate.
      - now left.
      - now right. }
    split; [| split; [| split; [| exact Hroot]]].
    + intros Hstar. unfold ServeMux_ServeHTTP. now rewrite Hstar.
    + intros Hstar Hmethod Hclean. unfold ServeMux_ServeHTTP.
      apply String.eqb_neq in Hstar, Hmethod. rewrite Hstar, Hmethod.
      assert (Hne : String.eqb (cleanPath (url.Path (URL r))) (url.Path (URL r)) = false)
        by now apply String.eqb_neq.
      now rewrite Hne.
    + intros Hstar Hcase.
      assert (Hserve : ServeMux_ServeHTTP mux0 r
                       = http.handler mux0 (Host r) (url.Path (URL r)) r).
      { unfold ServeMux_ServeHTTP. apply String.eqb_neq in Hstar. rewrite Hstar.
        destruct Hcase as [-> | ->]; [reflexivity |].
        now rewrite String.eqb_refl, andb_false_r. }
      rewrite Hserve.
      destruct (strings.HasPrefix (url.Path (URL r)) "/") eqn:Hrooted.
      * left. destruct (handler_dispatch _ (Host r) _ _ Hroot Hrooted) as [k [e [Hk [Hm ->]]]].
        exists k, e. auto.
      * destruct Hcase as [Hconnect | Hclean];
          [| rewrite (cleanPath_rooted _ Hclean) in Hrooted; discriminate Hrooted].
        destruct (handler_cases mux0 (Host r) (url.Path (URL r))) as [-> | [k [e [Hk [Hm ->]]]]].
        -- right. now repeat split.
        -- left. exists k, e. auto.
  - intros req c relPath Hpath. exact (mainHandler_response _ _ _ _ _ _ _ Hpath).
  - intros relPath Hdots Hindex. exact (content_answer_cases _ _ _ _ _ Hdots Hindex).
Qed.

Lemma fallback_answers_witness :
  response (mainHandler site_os site_flags site_page site_error
              (get "camlistore.org" "/nonexistent/page" "" "curl"))
  = [EvWriteHeader 404;
     EvWrite "<title>File nonexistent/page</title><pre>lstat /srv/camweb/content/nonexistent/page: no such file or directory</pre>"] ∧
  fallback_answer site_page site_error
    (content_answer site_os site_flags site_page site_error "docs/") ∧
  ∃ mux0, mux site_os site_flags site_page site_error = Some mux0 ∧
          ServeMux_ServeHTTP mux0 (get "camlistore.org" "/docs//x" "" "curl")
          = [EvRedirect "/docs/x" 301].
Proof.
  pose proof (fallback_answers site_os site_flags site_page site_error) as [_ [H2 [H3 H4]]].
  split; [| split].
  - rewrite (H3 (get "camlistore.org" "/nonexistent/page" "" "curl") "/"%char
               "nonexistent/page" eq_refl).
    reflexivity.
  - apply (proj1 (H4 "docs/" eq_refl ltac:(intros _; vm_compute; discriminate))).
  - destruct (mux site_os site_flags site_page site_error) as [mux0 |] eqn:Hmux;
      [| discriminate Hmux].
    exists mux0. split; [reflexivity |].
    apply (proj1 (proj2 (H2 mux0 (get "camlistore.org" "/docs//x" "" "curl") eq_refl)));
      [discriminate | discriminate | vm_compute; discriminate].
Defined.

(** C2 fails as worded: a request for [/notes..txt] reaches the fallback
    handler, which returns without writing anything, and so does the whole
    server. *)
Lemma fallback_silent_on_dots :
  mainHandler site_os site_flags site_page site_error
    (get "camlistore.org" "/notes..txt" "" "curl") = [] ∧
  site_handler (get "camlistore.org" "/notes..txt" "" "curl") = [] ∧
  ¬ fallback_answer site_page site_error
      (response (mainHandler site_os site_flags site_page site_error
                   (get "camlistore.org" "/notes..txt" "" "curl"))).
Proof.
  split; [reflexivity |]. split; [vm_compute; reflexivity |].
  intros H. inversion H.
Qed.

(** * Further properties of [camweb.go] *)

(** ** The template formatters *)

Lemma all_bytes_append (p : ascii → bool) (a b : string) :
  all_bytes p (a +:+ b) = all_bytes p a && all_bytes p b.
Proof. induction a as [|c a IH]; simpl; [reflexivity | now rewrite IH, andb_assoc]. Qed.

Lemma escape_byte_no_markup (c : ascii) :
  all_bytes (λ d, negb (markup d)) (escape_byte c) = true.
Proof.
  unfold escape_byte.
  destruct (Ascii.eqb c "034") eqn:H1; [reflexivity |].
  destruct (Ascii.eqb c "'") eqn:H2; [reflexivity |].
  destruct (Ascii.eqb c "&") eqn:H3; [reflexivity |].
  destruct (Ascii.eqb c "<") eqn:H4; [reflexivity |].
  destruct (Ascii.eqb c ">") eqn:H5; [reflexivity |].
  simpl. unfold markup. now rewrite H1, H2, H4, H5.
Qed.

Lemma HTMLEscape_no_markup (b : string) :
  all_bytes (λ d, negb (markup d)) (HTMLEscape b) = true.
Proof.
  induction b as [|c b IH]; [reflexivity |]. simpl.
  now rewrite all_bytes_append, escape_byte_no_markup, IH.
Qed.

Lemma HTMLEscape_plain (b : string) :
  all_bytes (λ d, negb (markup d || Ascii.eqb d "&")) b = true → HTMLEscape b = b.
Proof.
  induction b as [|c b IH]; [reflexivity |]. simpl. intros H.
  apply andb_true_iff in H as [Hc Hb]. rewrite (IH Hb).
  apply negb_true_iff, orb_false_iff in Hc as [Hm Hamp]. unfold markup in Hm.
  apply orb_false_iff in Hm as [Hm Hq]. apply orb_false_iff in Hm as [Hm Hdq].
  apply orb_false_iff in Hm as [Hlt Hgt].
  unfold escape_byte. now rewrite Hdq, Hq, Hamp, Hlt, Hgt.
Qed.

(** X1.  The formatters [html] and [htmlesc] write the same bytes for every
    value, whatever its dynamic type: both escape the text of the value. *)
Theorem html_formatters_agree (format format' : string) (x : list value) :
  htmlFmt format x = htmlEscFmt format' x.
Proof. destruct x as [|[v | v | printed] x]; reflexivity. Qed.

(** X2.  What the escaping formatters write contains no angle bracket, no
    double quote and no apostrophe, and they return the empty string; on a
    text without these bytes and without an ampersand they write what the
    default formatter writes. *)
Theorem escaping_formatters_safe (format : string) (x : list value) (out ret : string) :
  htmlEscFmt format x = Some (out, ret) →
  all_bytes (λ d, negb (markup d)) out = true ∧ ret = "" ∧
  (∀ raw, textFmt format x = Some (raw, "") →
          all_bytes (λ d, negb (markup d || Ascii.eqb d "&")) raw = true → out = raw).
Proof.
  destruct x as [|x0 x]; [discriminate |]. simpl. intros [= <- <-].
  split; [apply HTMLEscape_no_markup |]. split; [reflexivity |].
  intros raw [= <-] Hplain. now apply HTMLEscape_plain.
Qed.

Lemma escaping_formatters_witness :
  htmlEscFmt "" [VString "<b>Tom & 'Jerry'</b>"]
  = Some ("&lt;b&gt;Tom &amp; &#39;Jerry&#39;&lt;/b&gt;", "").
Proof.
  destruct (escaping_formatters_safe "" [VString "<b>Tom & 'Jerry'</b>"] _ _ eq_refl)
    as [_ [_ _]].
  reflexivity.
Defined.

(** ** The address handler *)

Lemma Index_Some_split (s sub : string) (n : nat) :
  strings.Index s sub = Some n →
  ∃ pre post, s = pre +:+ sub +:+ post ∧ String.length pre = n.
Proof.
  revert n. induction s as [|c s IH]; intros n; simpl.
  - destruct (strings.HasPrefix "" sub) eqn:Hpre; [| discriminate].
    intros [= <-]. apply HasPrefix_iff in Hpre as [t Ht]. now exists "", t.
  - destruct (strings.HasPrefix (String c s) sub) eqn:Hpre.
    + intros [= <-]. apply HasPrefix_iff in Hpre as [t Ht]. now exists "", t.
    + destruct (strings.Index s sub) as [m |]; [| discriminate]. intros [= <-].
      destruct (IH m eq_refl) as [pre [post [-> Hlen]]].
      exists (String c pre), post. simpl. now rewrite Hlen.
Qed.

Lemma Index_None_Contains (s sub : string) :
  strings.Index s sub = None ↔ strings.Contains s sub = false.
Proof.
  induction s as [|c s IH]; simpl.
  - destruct (strings.HasPrefix "" sub); simpl; split; congruence.
  - destruct (strings.HasPrefix (String c s) sub); simpl; [split; congruence |].
    rewrite <- IH. destruct (strings.Index s sub); simpl; split; congruence.
Qed.

(** The text before the first occurrence of a byte does not contain it. *)
Lemma Index_byte_first (s : string) (c : ascii) (n : nat) :
  strings.Index s (String c "") = Some n →
  strings.Contains (String.substring 0 n s) (String c "") = false ∧
  ∃ post, s = String.substring 0 n s +:+ String c post.
Proof.
  revert n. induction s as [|d s IH]; intros n; simpl; [discriminate |].
  rewrite andb_true_r. destruct (Ascii.eqb d c) eqn:Hd.
  - intros [= <-]. apply Ascii.eqb_eq in Hd as ->. split; [reflexivity | now exists s].
  - destruct (strings.Index s (String c "")) as [m |]; [| discriminate]. intros [= <-].
    destruct (IH m eq_refl) as [Hfree [post Hs]]. simpl.
    rewrite andb_true_r, Hd, Hfree. split; [reflexivity |].
    exists post. now rewrite <- Hs.
Qed.

Lemma HasPrefix_long (a b sub : string) :
  (String.length sub ≤ String.length a)%nat →
  strings.HasPrefix (a +:+ b) sub = strings.HasPrefix a sub.
Proof.
  revert a. induction sub as [|x sub IH]; intros a Hlen; [reflexivity |].
  destruct a as [|c a]; simpl in *; [lia |]. rewrite IH by lia. reflexivity.
Qed.

(** Where the first occurrence of [inet ] is. *)
Lemma Index_inet (pre post : string) :
  strings.Contains (pre +:+ "inet") "inet " = false →
  strings.Index (pre +:+ "inet " +:+ post) "inet " = Some (String.length pre).
Proof.
  induction pre as [|c pre IH]; intros Hfree.
  - reflexivity.
  - change (String c pre +:+ "inet") with (String c (pre +:+ "inet")) in Hfree.
    cbn [strings.Contains] in Hfree. apply orb_false_iff in Hfree as [Hhere Hrest].
    change (String c pre +:+ "inet " +:+ post) with (String c (pre +:+ "inet " +:+ post)).
    cbn [strings.Index].
    assert (Hpre : strings.HasPrefix (String c (pre +:+ "inet " +:+ post)) "inet " = false).
    { replace (pre +:+ "inet " +:+ post) with ((pre +:+ "inet") +:+ " " +:+ post)
        by (rewrite append_assoc; reflexivity).
      change (String c ((pre +:+ "inet") +:+ " " +:+ post))
        with (String c (pre +:+ "inet") +:+ " " +:+ post).
      rewrite HasPrefix_long; [exact Hhere |].
      simpl. rewrite length_append. simpl. lia. }
    rewrite Hpre, (IH Hrest). reflexivity.
Qed.

Lemma Index_byte_append (a post : string) (c : ascii) :
  strings.Contains a (String c "") = false →
  strings.Index (a +:+ String c post) (String c "") = Some (String.length a).
Proof.
  induction a as [|d a IH]; simpl.
  - intros _. now rewrite Ascii.eqb_refl.
  - rewrite !andb_true_r. intros H. apply orb_false_iff in H as [Hd Ha].
    now rewrite Hd, (IH Ha).
Qed.

(** X3.  When the output of the [ip] command has [inet ] for the first time
    in front of a text without slash that a slash follows, the handler
    writes exactly that text. *)
Theorem ipHandler_writes_address (os : OS) (r : Request) (pre addr rest : string) :
  Output os "ip" ["-f"; "inet"; "addr"; "show"; "dev"; "eth0"]
    = pre +:+ "inet " +:+ addr +:+ "/" +:+ rest →
  strings.Contains (pre +:+ "inet") "inet " = false →
  strings.Contains addr "/" = false →
  ipHandler os r = [EvExec "ip" ["-f"; "inet"; "addr"; "show"; "dev"; "eth0"]; EvWrite addr].
Proof.
  intros Hout Hfirst Hslash. unfold ipHandler. rewrite Hout, (Index_inet _ _ Hfirst).
  replace (pre +:+ "inet " +:+ addr +:+ "/" +:+ rest)
    with ((pre +:+ "inet ") +:+ addr +:+ "/" +:+ rest) by apply append_assoc.
  replace (String.length pre + 5)%nat with (String.length (pre +:+ "inet "))
    by (rewrite length_append; reflexivity).
  rewrite slice_from_append.
  change (addr +:+ "/" +:+ rest) with (addr +:+ String "/" rest).
  rewrite (Index_byte_append _ _ _ Hslash).
  now rewrite substring_prefix.
Qed.

Lemma ipHandler_writes_address_witness :
  ipHandler site_os (get "camlistore.org" "/debugz/ip" "" "curl")
  = [EvExec "ip" ["-f"; "inet"; "addr"; "show"; "dev"; "eth0"]; EvWrite "10.0.0.7"].
Proof.
  apply (ipHandler_writes_address site_os _ "    " "10.0.0.7"
           "24 brd 10.0.0.255 scope global eth0"); reflexivity.
Defined.

Lemma ipHandler_no_panic (os : OS) (r : Request) : panics (ipHandler os r) = false.
Proof.
  unfold ipHandler.
  destruct (strings.Index (Output os "ip" ["-f"; "inet"; "addr"; "show"; "dev"; "eth0"]) "inet ")
    as [pos |] eqn:Hinet; [| reflexivity].
  destruct (Index_Some_split _ _ _ Hinet) as [pre [post [Hout <-]]].
  rewrite Hout at 1.
  replace (pre +:+ "inet " +:+ post) with ((pre +:+ "inet ") +:+ post) by apply append_assoc.
  replace (String.length pre + 5)%nat with (String.length (pre +:+ "inet "))
    by (rewrite length_append; reflexivity).
  rewrite slice_from_append.
  destruct (strings.Index post "/"); reflexivity.
Qed.

(** X4.  The address handler never panics, and it writes at most once; what
    it writes has no slash and stands in the output of the command between
    [inet ] and a slash.  When the output has no [inet ] nothing is
    written. *)
Theorem ipHandler_total (os : OS) (r : Request) :
  let out := Output os "ip" ["-f"; "inet"; "addr"; "show"; "dev"; "eth0"] in
  panics (ipHandler os r) = false ∧
  (response (ipHandler os r) = [] ∨
   ∃ addr, response (ipHandler os r) = [EvWrite addr] ∧
           strings.Contains addr "/" = false ∧
           strings.Contains out ("inet " +:+ addr +:+ "/") = true) ∧
  (strings.Contains out "inet " = false → response (ipHandler os r) = []).
Proof.
  intros out. unfold ipHandler. fold out.
  destruct (strings.Index out "inet ") as [pos |] eqn:Hinet.
  - destruct (Index_Some_split _ _ _ Hinet) as [pre [post [Hout <-]]].
    assert (Hslice : strings.slice_from (String.length pre + 5) out = Some post).
    { rewrite Hout. replace (pre +:+ "inet " +:+ post) with ((pre +:+ "inet ") +:+ post)
        by apply append_assoc.
      replace (String.length pre + 5)%nat with (String.length (pre +:+ "inet "))
        by (rewrite length_append; reflexivity).
      apply slice_from_append. }
    rewrite Hslice.
    destruct (strings.Index post "/") as [n |] eqn:Hslash.
    + split; [reflexivity |]. split.
      * right. exists (String.substring 0 n post).
        destruct (Index_byte_first _ _ _ Hslash) as [Hfree [tail Hpost]].
        split; [reflexivity |]. split; [exact Hfree |].
        apply Contains_iff. exists pre, tail. rewrite Hout. f_equal.
        rewrite Hpost at 1. now rewrite !append_assoc.
      * intros Hnone. apply Index_None_Contains in Hnone. congruence.
    + split; [reflexivity |]. split; [now left | reflexivity].
  - split; [reflexivity |]. split; [now left | reflexivity].
Qed.

Lemma ipHandler_total_witness :
  response (ipHandler (os_of_tree ∅ "eth0: no address") (get "camlistore.org" "/debugz/ip" "" "curl"))
  = [].
Proof.
  exact (proj2 (proj2 (ipHandler_total (os_of_tree ∅ "eth0: no address")
                         (get "camlistore.org" "/debugz/ip" "" "curl"))) eq_refl).
Defined.

(** ** The filter: when the bot check cannot fire *)

Lemma Contains_byte_cons (c q : ascii) (s : string) :
  strings.Contains (String c s) (String q "")
  = Ascii.eqb c q || strings.Contains s (String q "").
Proof. simpl. now rewrite andb_true_r. Qed.

Lemma hexdigit_not_question (n : nat) : Ascii.eqb (url.hexdigit n) "?" = false.
Proof. do 16 (destruct n as [|n]; [reflexivity |]). reflexivity. Qed.

(** An encoded path has no question mark. *)
Lemma escape_path_no_question (s : string) :
  strings.Contains (url.escape s url.encodePath) "?" = false.
Proof.
  induction s as [|c s IH]; [reflexivity |]. cbn [url.escape].
  destruct (url.shouldEscape c url.encodePath) eqn:Hesc.
  - rewrite !Contains_byte_cons, !hexdigit_not_question, IH. reflexivity.
  - rewrite Contains_byte_cons, IH, orb_false_r.
    destruct (Ascii.eqb c "?") eqn:Hc; [| reflexivity].
    apply Ascii.eqb_eq in Hc. subst c. discriminate Hesc.
Qed.

Lemma RequestURI_no_query (u : url.URL) :
  url.Opaque u = "" → url.RawQuery u = "" →
  strings.Contains (url.RequestURI u) "?" = false.
Proof.
  intros Hop Hq. unfold url.RequestURI. rewrite Hop, Hq. simpl.
  destruct (String.eqb (url.escape (url.Path u) url.encodePath) "");
    [reflexivity | apply escape_path_no_question].
Qed.

Lemma Header_Get_missing (h : gmap string (list string)) (key : string) :
  h !! key = None ∨ h !! key = Some [] → Header_Get h key = "".
Proof. unfold Header_Get. now intros [-> | ->]. Qed.

(** X5.  A request without a query string (the URL having no opaque part),
    or without a User-Agent header, is never denied by the bot check,
    whatever its path and agent: it is redirected when the host is the
    secondary one and handed to the wrapped handler otherwise.  A question
    mark inside the path does not count as a query. *)
Theorem bot_check_needs_query_and_agent (unicode_lower : string → string)
    (Handler : http.Handler) (r : Request) :
  (url.Opaque (URL r) = "" ∧ url.RawQuery (URL r) = "") ∨
  (Header r !! "User-Agent" = None ∨ Header r !! "User-Agent" = Some []) →
  noWwwHandler unicode_lower Handler r
  = if String.eqb (strings.ToLower unicode_lower (Host r)) "www.camlistore.org"
    then [EvRedirect ("http://camlistore.org" +:+ url.RequestURI (URL r)) 302]
    else Handler r.
Proof.
  intros H. unfold noWwwHandler.
  assert (Hcheck : strings.Contains (url.RequestURI (URL r)) "/code/"
                   && strings.Contains (url.RequestURI (URL r)) "?" && isBot r = false).
  { destruct H as [[Hop Hq] | Hagent].
    - now rewrite (RequestURI_no_query _ Hop Hq), andb_false_r.
    - unfold isBot. rewrite (Header_Get_missing _ _ Hagent). simpl. apply andb_false_r. }
  rewrite Hcheck. reflexivity.
Qed.

Lemma bot_check_needs_query_witness :
  noWwwHandler site_lower (serve GodocHandler) (get "camlistore.org" "/code/?x" "" "Googlebot/2.1")
  = [EvServe GodocHandler (get "camlistore.org" "/code/?x" "" "Googlebot/2.1")].
Proof.
  exact (bot_check_needs_query_and_agent site_lower (serve GodocHandler)
           (get "camlistore.org" "/code/?x" "" "Googlebot/2.1") (or_introl (conj eq_refl eq_refl))).
Defined.

(** ** The URL fixer: the redirect target *)

Lemma HasPrefix_separator (a b : string) (c : ascii) (sub : string) :
  strings.mem c sub = false → sub ≠ "" →
  strings.HasPrefix (a +:+ String c b) sub = strings.HasPrefix a sub.
Proof.
  revert sub. induction a as [|d a IH]; intros [|x sub] Hmem Hne; try contradiction.
  - simpl in Hmem |- *. apply orb_false_iff in Hmem as [Hc _]. now rewrite Hc.
  - simpl in Hmem |- *. apply orb_false_iff in Hmem as [_ Hmem].
    destruct sub as [|y sub]; [reflexivity |]. now rewrite IH.
Qed.

(** A text that does not contain the byte [c] occurs in [a c b] only inside
    [a] or inside [b]. *)
Lemma Contains_separator (a b : string) (c : ascii) (sub : string) :
  strings.mem c sub = false → sub ≠ "" →
  strings.Contains (a +:+ String c b) sub = strings.Contains a sub || strings.Contains b sub.
Proof.
  intros Hmem Hne. induction a as [|d a IH].
  - change ("" +:+ String c b) with ("" +:+ String c b). cbn [String.append strings.Contains].
    change (String c b) with ("" +:+ String c b) at 1.
    rewrite (HasPrefix_separator "" b c sub Hmem Hne).
    destruct sub; [contradiction | reflexivity].
  - change (String d a +:+ String c b) with (String d (a +:+ String c b)).
    cbn [strings.Contains]. rewrite IH.
    change (String d (a +:+ String c b)) with (String d a +:+ String c b).
    now rewrite (HasPrefix_separator _ _ _ _ Hmem Hne), orb_assoc.
Qed.

Lemma Join_separator_free (pieces : list string) (c : ascii) (sub : string) :
  strings.mem c sub = false → sub ≠ "" →
  Forall (λ p, strings.Contains p sub = false) pieces →
  strings.Contains (strings.Join pieces (String c "")) sub = false.
Proof.
  intros Hmem Hne. induction pieces as [|p rest IH]; intros Hfree.
  - destruct sub; [contradiction | reflexivity].
  - apply Forall_cons in Hfree as [Hp Hrest]. destruct rest as [|q rest]; [exact Hp |].
    rewrite Join_cons by discriminate.
    change (p +:+ String c "" +:+ strings.Join (q :: rest) (String c ""))
      with (p +:+ String c (strings.Join (q :: rest) (String c ""))).
    now rewrite Contains_separator, Hp, (IH Hrest).
Qed.

(** X6.  The target of the redirect that the fixer sends contains no [%3B]
    any more and is at least two bytes shorter than the URL of the request. *)
Theorem fixed_url_is_clean (handler : Handler) (req : Request) :
  strings.Contains (url.String_ (URL req)) "%3B" = true →
  ∃ target,
    fixUpGitwebUrls handler req = [EvRedirect target 302] ∧
    strings.Contains target "%3B" = false ∧
    (String.length target + 2 ≤ String.length (url.String_ (URL req)))%nat.
Proof.
  intros Hocc. unfold fixUpGitwebUrls. rewrite Replace_all by discriminate.
  assert (Hne : "%3B" ≠ "") by discriminate.
  destruct (replace_scan_pieces "%3B" ";" Hne _ (url.String_ (URL req)) (le_n _))
    as [ps [Hps [Hfree [Hin Hout]]]].
  pose proof (replace_scan_shorter "%3B" ";" Hne (url.String_ (URL req))) as Hdiff.
  apply String.eqb_neq in Hdiff; [| simpl; lia | exact Hocc].
  rewrite Hdiff, Hout. exists (strings.Join ps ";"). split; [reflexivity |]. split.
  - apply Join_separator_free; [reflexivity | discriminate | exact Hfree].
  - destruct ps as [|p0 [|p1 rest]]; [contradiction | |].
    + simpl in Hin. apply Forall_cons in Hfree as [Hp0 _]. congruence.
    + rewrite Hin, !Join_length by discriminate. simpl. lia.
Qed.

Lemma fixed_url_is_clean_witness :
  ∃ target,
    fixUpGitwebUrls (λ _, []) (get "camlistore.org" "/code/" "p=x%3Bf=y" "curl")
    = [EvRedirect target 302] ∧
    strings.Contains target "%3B" = false ∧
    (String.length target + 2 ≤ 16)%nat.
Proof.
  exact (fixed_url_is_clean (λ _, []) (get "camlistore.org" "/code/" "p=x%3Bf=y" "curl")
           eq_refl).
Defined.

(** ** The fallback handler: where it looks *)

Lemma accessed_app (t1 t2 : list event) : accessed (t1 ++ t2) = accessed t1 ++ accessed t2.
Proof.
  induction t1 as [|e t1 IH]; [reflexivity |].
  destruct e; simpl; rewrite IH; reflexivity.
Qed.

Lemma panics_app (t1 t2 : list event) : panics (t1 ++ t2) = panics t1 || panics t2.
Proof.
  induction t1 as [|e t1 IH]; [reflexivity |]. destruct e; simpl; auto.
Qed.

Lemma servePage_quiet (pageHtml : Template PageData) (title subtitle content : string) :
  accessed (servePage pageHtml title subtitle content) = [] ∧
  panics (servePage pageHtml title subtitle content) = false.
Proof.
  unfold servePage. destruct (Execute pageHtml _) as [writes [e |]];
    rewrite accessed_app, panics_app; induction writes as [|w writes IH]; auto.
Qed.

Lemma serveError_quiet (pageHtml : Template PageData) (errorHtml : Template string)
    (r : Request) (relpath err : string) :
  accessed (serveError pageHtml errorHtml r relpath err) = [] ∧
  panics (serveError pageHtml errorHtml r relpath err) = false.
Proof.
  unfold serveError, applyTemplate.
  destruct (servePage_quiet pageHtml ("File " +:+ relpath) ""
              (Bytes (fst (Execute errorHtml err)))) as [Ha Hp].
  destruct (Execute errorHtml err) as [writes [e |]]; simpl in *;
    rewrite ?accessed_app, ?panics_app, Ha, Hp; now split.
Qed.

Lemma serveFile_quiet (os : OS) (pageHtml : Template PageData) (errorHtml : Template string)
    (req : Request) (relPath absPath : string) :
  accessed (serveFile os pageHtml errorHtml req relPath absPath) = [absPath] ∧
  panics (serveFile os pageHtml errorHtml req relPath absPath) = false.
Proof.
  unfold serveFile. simpl. destruct (ReadFile os absPath) as [data | err].
  - destruct (servePage_quiet pageHtml (served_title data) "" data) as [Ha Hp].
    unfold served_title in Ha, Hp. now rewrite Ha, Hp.
  - destruct (serveError_quiet pageHtml errorHtml req absPath err) as [-> ->]. now split.
Qed.

Lemma fold_clean_step_pushes (rooted : bool) (l stack : list string) :
  ¬ In ".." l →
  fold_left (filepath.clean_step rooted) l stack
  = rev (List.filter (λ e, negb (String.eqb e "" || String.eqb e ".")) l) ++ stack.
Proof.
  revert stack. induction l as [|e l IH]; intros stack Hno; [reflexivity |].
  assert (Hl : ¬ In ".." l) by (intros H; apply Hno; now right).
  assert (He : String.eqb e ".." = false).
  { apply String.eqb_neq. intros ->. apply Hno. now left. }
  cbn [fold_left List.filter]. rewrite (IH _ Hl). unfold filepath.clean_step at 1.
  destruct (String.eqb e "" || String.eqb e "."); cbn [negb]; [reflexivity |].
  rewrite He. cbn [rev]. now rewrite <- app_assoc.
Qed.

Lemma Join_app (l1 l2 : list string) (sep : string) :
  l1 ≠ [] → l2 ≠ [] →
  strings.Join (l1 ++ l2) sep = strings.Join l1 sep +:+ sep +:+ strings.Join l2 sep.
Proof.
  intros H1 H2. induction l1 as [|e l1 IH]; [contradiction |].
  destruct l1 as [|e' l1].
  - simpl app. now rewrite Join_cons.
  - change ((e :: e' :: l1) ++ l2) with (e :: ((e' :: l1) ++ l2)).
    rewrite !Join_cons by (try discriminate; destruct l1; discriminate).
    rewrite IH by discriminate. now rewrite !append_assoc.
Qed.

Lemma Join_snoc_nonempty (l : list string) (e sep : string) :
  e ≠ "" → String.eqb (strings.Join (l ++ [e]) sep) "" = false.
Proof.
  intros He. apply String.eqb_neq. intros Heq.
  apply (f_equal String.length) in Heq.
  rewrite Join_length in Heq by (destruct l; discriminate).
  rewrite map_app, list_sum_app in Heq. simpl in Heq.
  destruct e; [contradiction |].
  change (String.length (String a e)) with (S (String.length e)) in Heq. nia.
Qed.

(** Joining a directory that ends in the element [content] with a relative
    path without two consecutive dots gives the directory or a name below
    it. *)
Lemma Clean_below (dir rel : string) :
  (∃ l, strings.Split dir "/" = l ++ ["content"]) →
  strings.Contains rel ".." = false →
  ∃ rest, filepath.Clean (dir +:+ "/" +:+ rel) = filepath.Clean dir +:+ rest ∧
          (rest = "" ∨ strings.HasPrefix rest "/" = true).
Proof.
  intros [l Hsplit] Hdots.
  assert (Hne : dir ≠ "").
  { intros ->. simpl in Hsplit. destruct l as [|x [|y l]]; discriminate Hsplit. }
  assert (Hno : ¬ In ".." (strings.Split rel "/")).
  { intros Hin. rewrite (traversal_segment_Contains rel Hin) in Hdots. discriminate. }
  unfold filepath.Clean.
  assert (Hd : String.eqb dir "" = false) by now apply String.eqb_neq.
  assert (Hp : String.eqb (dir +:+ "/" +:+ rel) "" = false).
  { destruct dir; [contradiction | reflexivity]. }
  assert (Hrooted : strings.HasPrefix (dir +:+ "/" +:+ rel) "/" = strings.HasPrefix dir "/").
  { apply HasPrefix_long. destruct dir; [contradiction | simpl; lia]. }
  rewrite Hd, Hp, Hrooted.
  change (dir +:+ "/" +:+ rel) with (dir +:+ String "/" rel).
  rewrite Split_append, fold_left_app, (fold_clean_step_pushes _ _ _ Hno).
  rewrite Hsplit, fold_left_app. cbn [fold_left].
  set (below := fold_left (filepath.clean_step (strings.HasPrefix dir "/")) l []).
  change (filepath.clean_step (strings.HasPrefix dir "/") below "content")
    with ("content" :: below).
  set (more := List.filter (λ e, negb (String.eqb e "" || String.eqb e "."))
                 (strings.Split rel "/")).
  rewrite rev_app_distr, rev_involutive. cbn [rev].
  assert (Hbase : String.eqb (strings.Join (rev below ++ ["content"]) "/") "" = false)
    by (apply Join_snoc_nonempty; discriminate).
  destruct more as [|m more].
  - exists "". rewrite app_nil_r, append_nil_r. auto.
  - exists ("/" +:+ strings.Join (m :: more) "/").
    rewrite Join_app by (try discriminate; destruct (rev below); discriminate).
    split; [| now right].
    destruct (strings.HasPrefix dir "/").
    + now rewrite !append_assoc.
    + rewrite Hbase.
      destruct (String.eqb (strings.Join (rev below ++ ["content"]) "/" +:+
                            "/" +:+ strings.Join (m :: more) "/") "") eqn:Hlong;
        [| reflexivity].
      apply String.eqb_eq in Hlong. apply String.eqb_neq in Hbase.
      destruct (strings.Join (rev below ++ ["content"]) "/"); [contradiction | discriminate].
Qed.

Lemma Join_under_content (flags : Flags) (relPath : string) :
  strings.Contains relPath ".." = false →
  under_content flags (filepath.Join [root flags; "content"; relPath]).
Proof.
  intros Hdots. unfold under_content, filepath.Join.
  destruct (root flags) as [|c r] eqn:Hroot.
  - cbn [filepath.drop_empty String.eqb strings.Join].
    apply (Clean_below "content" relPath); [now exists [] | exact Hdots].
  - cbn [filepath.drop_empty String.eqb strings.Join].
    replace (String c r +:+ "/" +:+ "content" +:+ "/" +:+ relPath)
      with ((String c r +:+ "/content") +:+ "/" +:+ relPath)
      by (rewrite append_assoc; reflexivity).
    change (String c r +:+ "/" +:+ "content") with (String c r +:+ "/content").
    apply Clean_below; [| exact Hdots].
    exists (strings.Split (String c r) "/").
    change "/content" with (String "/" "content"). now rewrite Split_append.
Qed.

(** X7.  Whatever the request, every file that the fallback handler examines
    or reads is the content directory [filepath.Join(root, content)] or has
    a name that continues it with a slash: the handler never looks outside
    the content tree. *)
Theorem fallback_stays_under_content (os : OS) (flags : Flags)
    (pageHtml : Template PageData) (errorHtml : Template string) (req : Request) :
  Forall (under_content flags) (accessed (mainHandler os flags pageHtml errorHtml req)).
Proof.
  destruct (url.Path (URL req)) as [|c relPath] eqn:Hpath.
  { unfold mainHandler. rewrite Hpath. constructor. }
  destruct (strings.Contains relPath "..") eqn:Hdots.
  { rewrite (mainHandler_dotdot _ _ _ _ _ _ _ Hpath Hdots). constructor. }
  destruct (strings.HasPrefix relPath "gw/") eqn:Hgw.
  { unfold mainHandler. rewrite Hpath.
    change (strings.slice_from 1 (String c relPath)) with (Some relPath).
    cbv beta iota. rewrite Hdots, Hgw.
    destruct (strings.slice_from 3 relPath); constructor. }
  rewrite (mainHandler_resolves _ _ _ _ _ _ _ Hpath Hdots Hgw). cbv zeta.
  assert (Habs := Join_under_content flags relPath Hdots).
  assert (Hidx : under_content flags
                   (filepath.Join [root flags; "content"; relPath +:+ "/index.html"])).
  { apply Join_under_content. change "/index.html" with (String "/" "index.html").
    now rewrite Contains_dotdot_slash, Hdots. }
  unfold serveResolved. cbn [accessed]. constructor; [exact Habs |].
  destruct (Lstat os (filepath.Join [root flags; "content"; relPath])) as [[[|]] | err];
    cbn [IsDir negb accessed].
  - constructor; [exact Hidx |].
    destruct (Lstat os (filepath.Join [root flags; "content"; relPath +:+ "/index.html"]))
      as [[[|]] | err]; cbn [IsDir negb accessed].
    + constructor.
    + rewrite (proj1 (serveFile_quiet _ _ _ _ _ _)). now constructor.
    + rewrite (proj1 (serveError_quiet _ _ _ _ _)). constructor.
  - rewrite (proj1 (serveFile_quiet _ _ _ _ _ _)). now constructor.
  - rewrite (proj1 (serveError_quiet _ _ _ _ _)). constructor.
Qed.

Lemma mainHandler_no_panic (os : OS) (flags : Flags)
    (pageHtml : Template PageData) (errorHtml : Template string) (req : Request) :
  url.Path (URL req) ≠ "" →
  panics (mainHandler os flags pageHtml errorHtml req) = false.
Proof.
  intros Hne. destruct (url.Path (URL req)) as [|c relPath] eqn:Hpath; [contradiction |].
  destruct (strings.Contains relPath "..") eqn:Hdots.
  { now rewrite (mainHandler_dotdot _ _ _ _ _ _ _ Hpath Hdots). }
  destruct (strings.HasPrefix relPath "gw/") eqn:Hgw.
  { unfold mainHandler. rewrite Hpath.
    change (strings.slice_from 1 (String c relPath)) with (Some relPath).
    cbv beta iota. rewrite Hdots, Hgw.
    destruct (HasPrefix_slice _ _ Hgw) as [t [_ Ht]].
    change (String.length "gw/") with 3%nat in Ht. now rewrite Ht. }
  rewrite (mainHandler_resolves _ _ _ _ _ _ _ Hpath Hdots Hgw). cbv zeta.
  unfold serveResolved. cbn [panics].
  destruct (Lstat os (filepath.Join [root flags; "content"; relPath])) as [[[|]] | err];
    cbn [IsDir negb panics].
  - destruct (Lstat os (filepath.Join [root flags; "content"; relPath +:+ "/index.html"]))
      as [[[|]] | err]; cbn [IsDir negb panics].
    + reflexivity.
    + apply serveFile_quiet.
    + apply serveError_quiet.
  - apply serveFile_quiet.
  - apply serveError_quiet.
Qed.

(** X8.  The fallback handler panics exactly on a request with an empty
    path: with a path of at least one byte, as the multiplexer hands it
    over, it returns normally, whatever the file system holds. *)
Theorem fallback_never_panics (os : OS) (flags : Flags)
    (pageHtml : Template PageData) (errorHtml : Template string) (req : Request) :
  panics (mainHandler os flags pageHtml errorHtml req) = true ↔ url.Path (URL req) = "".
Proof.
  split.
  - intros Hpanic. destruct (String.eqb (url.Path (URL req)) "") eqn:Hempty;
      [now apply String.eqb_eq in Hempty |].
    apply String.eqb_neq in Hempty.
    rewrite (mainHandler_no_panic os flags pageHtml errorHtml req Hempty) in Hpanic.
    discriminate Hpanic.
  - intros Hempty. unfold mainHandler. now rewrite Hempty.
Qed.

Lemma fallback_never_panics_witness :
  panics (mainHandler site_os site_flags site_page site_error
            (get "camlistore.org" "" "" "curl")) = true.
Proof.
  apply (proj2 (fallback_never_panics site_os site_flags site_page site_error
                  (get "camlistore.org" "" "" "curl"))).
  reflexivity.
Defined.

(** X9.  A path (without two consecutive dots, not under [gw/]) that names
    something other than a directory is read once.  When the read succeeds
    the response is what the page template writes for the bytes of the file,
    and no status is set; when it fails the answer is the error page with
    status 404, whose title gives the absolute name of the file and whose
    body is what the error template wrote into its buffer. *)
Theorem found_file_served (os : OS) (flags : Flags)
    (pageHtml : Template PageData) (errorHtml : Template string)
    (req : Request) (c : ascii) (relPath : string) :
  url.Path (URL req) = String c relPath →
  strings.Contains relPath ".." = false →
  strings.HasPrefix relPath "gw/" = false →
  let absPath := filepath.Join [root flags; "content"; relPath] in
  Lstat os absPath = Ok {| IsDir := false |} →
  accessed (mainHandler os flags pageHtml errorHtml req) = [absPath; absPath] ∧
  (∀ data, ReadFile os absPath = Ok data →
     response (mainHandler os flags pageHtml errorHtml req)
     = map EvWrite (rendered pageHtml (served_title data) data)) ∧
  (∀ err, ReadFile os absPath = Err err →
     response (mainHandler os flags pageHtml errorHtml req)
     = EvWriteHeader 404 ::
       map EvWrite (rendered pageHtml ("File " +:+ absPath)
                      (Bytes (fst (Execute errorHtml err))))).
Proof.
  intros Hpath Hdots Hgw absPath Hstat.
  rewrite (mainHandler_resolves _ _ _ _ _ _ _ Hpath Hdots Hgw). cbv zeta.
  fold absPath. rewrite Hstat. unfold serveResolved. cbn [IsDir negb accessed].
  rewrite (proj1 (serveFile_quiet _ _ _ _ _ _)). split; [reflexivity |].
  rewrite response_skip by reflexivity. unfold serveFile.
  rewrite response_skip by reflexivity. split.
  - intros data ->. apply response_servePage.
  - intros err ->. apply response_serveError.
Qed.

Lemma found_file_served_witness :
  response (mainHandler site_os site_flags site_page site_error
              (get "camlistore.org" "/plain.html" "" "curl"))
  = [EvWrite "<title></title><h1><b>Hi</b></h1>"].
Proof.
  destruct (found_file_served site_os site_flags site_page site_error
              (get "camlistore.org" "/plain.html" "" "curl") "/"%char "plain.html"
              eq_refl eq_refl eq_refl eq_refl) as [_ [H _]].
  exact (H "<h1><b>Hi</b></h1>" eq_refl).
Defined.

(** X10.  A request for [/gw/p], where [gw/p] has no two consecutive dots,
    is redirected (302) to the gitweb URL with [f=p], whatever the content
    tree holds: the file system is not consulted. *)
Theorem gw_redirects_to_gitweb (os : OS) (flags : Flags)
    (pageHtml : Template PageData) (errorHtml : Template string)
    (req : Request) (c : ascii) (p : string) :
  url.Path (URL req) = String c ("gw/" +:+ p) →
  strings.Contains ("gw/" +:+ p) ".." = false →
  mainHandler os flags pageHtml errorHtml req
  = [EvRedirect ("http://camlistore.org/code/?p=camlistore.git;f=" +:+ p +:+ ";hb=master") 302] ∧
  accessed (mainHandler os flags pageHtml errorHtml req) = [].
Proof.
  intros Hpath Hdots.
  assert (H : mainHandler os flags pageHtml errorHtml req
              = [EvRedirect ("http://camlistore.org/code/?p=camlistore.git;f=" +:+ p +:+ ";hb=master")
                   302]).
  { unfold mainHandler. rewrite Hpath.
    change (strings.slice_from 1 (String c ("gw/" +:+ p))) with (Some ("gw/" +:+ p)).
    cbv beta iota. rewrite Hdots. reflexivity. }
  now rewrite H.
Qed.

Lemma gw_redirects_witness :
  mainHandler site_os site_flags site_page site_error
    (get "camlistore.org" "/gw/x/index.html" "" "curl")
  = [EvRedirect "http://camlistore.org/code/?p=camlistore.git;f=x/index.html;hb=master" 302].
Proof.
  exact (proj1 (gw_redirects_to_gitweb site_os site_flags site_page site_error
                  (get "camlistore.org" "/gw/x/index.html" "" "curl") "/"%char "x/index.html"
                  eq_refl eq_refl)).
Defined.

(** ** Startup *)

Lemma fixupGitwebFiles_frame (os : OS) (flags : Flags) :
  fixupGitwebFiles os flags = set_gitwebFiles flags (gitwebFiles (fixupGitwebFiles os flags)).
Proof.
  unfold fixupGitwebFiles. destruct (_ && _); [reflexivity | now destruct flags].
Qed.

(** X11.  [fixupGitwebFiles] replaces the gitweb files directory by
    [/usr/share/gitweb] when the flag has its default value and [os.Stat]
    fails on it or finds something that is not a directory.  It changes
    nothing when the directory is there, and nothing when the flag has
    another value: a directory given on the command line is kept even if it
    does not exist.  No other flag is touched, and running it again changes
    nothing more. *)
Theorem fixupGitwebFiles_only_default (os : OS) (flags : Flags) :
  let fixed := fixupGitwebFiles os flags in
  (gitwebFiles flags = "/usr/share/gitweb/static" →
   Stat os (gitwebFiles flags) ≠ Ok {| IsDir := true |} →
   fixed = set_gitwebFiles flags "/usr/share/gitweb") ∧
  (Stat os (gitwebFiles flags) = Ok {| IsDir := true |} → fixed = flags) ∧
  (gitwebFiles flags ≠ "/usr/share/gitweb/static" → fixed = flags) ∧
  fixed = set_gitwebFiles flags (gitwebFiles fixed) ∧
  fixupGitwebFiles os fixed = fixed.
Proof.
  intros fixed. split; [| split; [| split; [| split]]].
  - intros Hdefault Hmissing. unfold fixed, fixupGitwebFiles.
    rewrite Hdefault in Hmissing |- *. cbn [String.eqb Ascii.eqb Bool.eqb]. rewrite andb_true_r.
    destruct (Stat os "/usr/share/gitweb/static") as [[[|]] | err];
      [now destruct Hmissing | reflexivity | reflexivity].
  - intros Hdir. unfold fixed, fixupGitwebFiles. rewrite Hdir. reflexivity.
  - intros Hother. unfold fixed, fixupGitwebFiles. apply String.eqb_neq in Hother.
    now rewrite Hother, andb_false_r.
  - apply fixupGitwebFiles_frame.
  - unfold fixed, fixupGitwebFiles.
    destruct (String.eqb (gitwebFiles flags) "/usr/share/gitweb/static") eqn:Hdef.
    + destruct (match Stat os (gitwebFiles flags) with Err _ => true | Ok fi => negb (IsDir fi) end)
        eqn:Hmissing; cbn [andb].
      * cbn [gitwebFiles set_gitwebFiles]. now rewrite andb_false_r.
      * now rewrite Hmissing.
    + rewrite andb_false_r. now rewrite Hdef, andb_false_r.
Qed.

Lemma fixupGitwebFiles_only_default_witness :
  fixupGitwebFiles site_os site_flags = set_gitwebFiles site_flags "/usr/share/gitweb" ∧
  fixupGitwebFiles (os_of_tree {[ "/usr/share/gitweb/static" := None ]} "") site_flags
  = site_flags ∧
  fixupGitwebFiles site_os (set_gitwebFiles site_flags "/opt/gitweb")
  = set_gitwebFiles site_flags "/opt/gitweb".
Proof.
  split; [| split].
  - apply (proj1 (fixupGitwebFiles_only_default site_os site_flags)); [reflexivity |].
    discriminate.
  - apply (proj1 (proj2 (fixupGitwebFiles_only_default
                           (os_of_tree {[ "/usr/share/gitweb/static" := None ]} "")
                           site_flags))).
    reflexivity.
  - apply (proj1 (proj2 (proj2 (fixupGitwebFiles_only_default site_os
                                  (set_gitwebFiles site_flags "/opt/gitweb"))))).
    discriminate.
Defined.

(** X12.  Once the templates are read, [main] goes on to register the
    routes unless the root flag is empty and the working directory is not
    known.  A root given on the
    command line is kept; an empty one becomes the working directory; no
    flag other than the root and the gitweb files directory is changed. *)
Theorem startup_flags (os : OS) (flags : Flags) :
  (startup os flags = None ↔ root flags = "" ∧ ∃ err, Getwd os = Err err) ∧
  (∀ flags', startup os flags = Some flags' →
     (root flags ≠ "" → root flags' = root flags) ∧
     (root flags = "" → Getwd os = Ok (root flags')) ∧
     flags' = set_gitwebFiles (set_root flags (root flags')) (gitwebFiles flags')).
Proof.
  unfold startup. destruct (String.eqb (root flags) "") eqn:Hroot.
  - apply String.eqb_eq in Hroot. destruct (Getwd os) as [wd | err]; cbn [mbind option_bind].
    + split; [split; [discriminate | intros [_ [e He]]; discriminate] |].
      intros flags' [= <-].
      pose proof (fixupGitwebFiles_frame os (set_root flags wd)) as Hfix.
      split; [intros Hne; contradiction |]. split.
      * intros _. rewrite Hfix. reflexivity.
      * rewrite Hfix at 1. rewrite Hfix at 2. reflexivity.
    + split; [split; [intros _; split; [exact Hroot | now exists err] | reflexivity] |].
      discriminate.
  - apply String.eqb_neq in Hroot. cbn [mbind option_bind].
    split; [split; [discriminate | intros [He _]; contradiction] |].
    intros flags' [= <-].
    pose proof (fixupGitwebFiles_frame os flags) as Hfix.
    split; [intros _; now rewrite Hfix |]. split; [intros He; contradiction |].
    rewrite Hfix at 1. rewrite Hfix at 2. now destruct flags.
Qed.

Lemma startup_flags_witness :
  startup site_os defaultFlags
  = Some (set_gitwebFiles (set_root defaultFlags "/srv/camweb") "/usr/share/gitweb").
Proof.
  destruct (startup site_os defaultFlags) as [flags' |] eqn:Hs.
  - destruct (proj2 (startup_flags site_os defaultFlags) flags' Hs) as [_ [Hwd Hrest]].
    specialize (Hwd eq_refl). injection Hwd as Hwd. rewrite Hrest, <- Hwd.
    injection Hs as <-. reflexivity.
  - discriminate Hs.
Defined.

(** ** Parsing a URL without percent signs *)

Lemma plain_cons (c : ascii) (s : string) :
  strings.Contains (String c s) "%" = false ↔
  Ascii.eqb c "%" = false ∧ strings.Contains s "%" = false.
Proof. rewrite Contains_byte_cons. apply orb_false_iff. Qed.

Lemma plain_append (a b : string) :
  strings.Contains (a +:+ b) "%" = false ↔
  strings.Contains a "%" = false ∧ strings.Contains b "%" = false.
Proof.
  induction a as [|c a IH].
  - simpl. split; [intros H; split; [reflexivity | exact H] | now intros [_ H]].
  - change (String c a +:+ b) with (String c (a +:+ b)). rewrite !plain_cons, IH. tauto.
Qed.

Lemma unescape_ok_plain (s : string) :
  strings.Contains s "%" = false → url.unescape_ok s = true.
Proof.
  induction s as [|c s IH]; [reflexivity |]. intros H. apply plain_cons in H as [Hc Hs].
  cbn [url.unescape_ok]. rewrite Hc. exact (IH Hs).
Qed.

Lemma split_plain (s : string) (c : ascii) (cutc : bool) :
  strings.Contains s "%" = false →
  strings.Contains (fst (url.split s c cutc)) "%" = false ∧
  strings.Contains (snd (url.split s c cutc)) "%" = false.
Proof.
  induction s as [|d s IH]; [now split |]. intros H.
  pose proof H as Hds. apply plain_cons in H as [Hd Hs]. cbn [url.split].
  destruct (Ascii.eqb d c).
  - cbn [fst snd]. split; [reflexivity |]. now destruct cutc.
  - destruct (IH Hs) as [H1 H2]. destruct (url.split s c cutc) as [t u]. cbn [fst snd] in *.
    split; [apply plain_cons; now split | exact H2].
Qed.

Lemma slice_from_plain (n : nat) (s : string) :
  strings.Contains s "%" = false →
  strings.Contains (default "" (strings.slice_from n s)) "%" = false.
Proof.
  revert s. induction n as [|n IH]; intros s H; [now destruct s |].
  destruct s as [|c s]; [reflexivity |]. apply plain_cons in H as [_ Hs]. exact (IH s Hs).
Qed.

Lemma substring_plain (n m : nat) (s : string) :
  strings.Contains s "%" = false →
  strings.Contains (String.substring n m s) "%" = false.
Proof.
  revert n m. induction s as [|c s IH]; intros n m H; [now destruct n, m |].
  apply plain_cons in H as [Hc Hs].
  destruct n as [|n]; [destruct m as [|m]; [reflexivity |] |]; cbn [String.substring].
  - apply plain_cons. split; [exact Hc | exact (IH 0%nat m Hs)].
  - exact (IH n m Hs).
Qed.

Lemma getscheme_at_later (rawurl s : string) (i : nat) :
  url.getscheme_at (S i) rawurl s ≠ None.
Proof.
  revert i. induction s as [|c s IH]; intros i; cbn [url.getscheme_at]; [discriminate |].
  destruct (url.letter c); [apply IH |].
  destruct (url.digit c || strings.mem c "+-."); cbn [Nat.eqb]; [apply IH |].
  destruct (Ascii.eqb c ":"); discriminate.
Qed.

(** [getscheme] fails only on a colon at the very start. *)
Lemma getscheme_None (rawurl : string) :
  url.getscheme rawurl = None ↔ strings.HasPrefix rawurl ":" = true.
Proof.
  unfold url.getscheme. destruct rawurl as [|c s]; [split; discriminate |].
  cbn [strings.HasPrefix]. rewrite andb_true_r.
  destruct (Ascii.eqb c ":") eqn:Hc.
  - apply Ascii.eqb_eq in Hc. subst c. split; reflexivity.
  - split; [| discriminate]. cbn [url.getscheme_at].
    destruct (url.letter c); [intros H; now apply getscheme_at_later in H |].
    destruct (url.digit c || strings.mem c "+-."); cbn [Nat.eqb]; [discriminate |].
    rewrite Hc. discriminate.
Qed.

Lemma getscheme_at_plain (rawurl s scheme rest : string) (i : nat) :
  strings.Contains rawurl "%" = false →
  strings.Contains s "%" = false →
  url.getscheme_at i rawurl s = Some (scheme, rest) →
  strings.Contains rest "%" = false.
Proof.
  intros Hraw. revert i. induction s as [|c s IH]; intros i Hs; cbn [url.getscheme_at].
  - now intros [= _ <-].
  - apply plain_cons in Hs as [_ Hs].
    destruct (url.letter c); [apply (IH _ Hs) |].
    destruct (url.digit c || strings.mem c "+-.").
    + destruct (i =? 0)%nat; [now intros [= _ <-] | apply (IH _ Hs)].
    + destruct (Ascii.eqb c ":"); [| now intros [= _ <-]].
      destruct (i =? 0)%nat; [discriminate | now intros [= _ <-]].
Qed.

Lemma parseAuthority_plain (authority : string) :
  strings.Contains authority "%" = false →
  ∃ host, url.parseAuthority authority = Some host ∧ strings.Contains host "%" = false.
Proof.
  intros H. unfold url.parseAuthority.
  destruct (strings.LastIndex authority "@") as [i |]; [| now exists authority].
  pose proof (substring_plain 0 i authority H) as Huser.
  exists (default "" (strings.slice_from (S i) authority)).
  split; [| apply slice_from_plain, H].
  destruct (strings.Index (String.substring 0 i authority) ":").
  - destruct (split_plain (String.substring 0 i authority) ":" true Huser) as [H1 H2].
    destruct (url.split (String.substring 0 i authority) ":" true) as [username password].
    cbn [fst snd] in H1, H2. now rewrite (unescape_ok_plain _ H1), (unescape_ok_plain _ H2).
  - now rewrite (unescape_ok_plain _ Huser).
Qed.

Lemma parse_ok_plain (rawurl : string) :
  strings.Contains rawurl "%" = false →
  url.parse_ok rawurl = negb (strings.HasPrefix rawurl ":").
Proof.
  intros H. unfold url.parse_ok.
  destruct (String.eqb rawurl "*") eqn:Hstar.
  { apply String.eqb_eq in Hstar. now subst rawurl. }
  destruct (url.getscheme rawurl) as [[scheme rest] |] eqn:Hscheme.
  - assert (Hcolon : strings.HasPrefix rawurl ":" = false).
    { destruct (strings.HasPrefix rawurl ":") eqn:Hc; [| reflexivity].
      apply getscheme_None in Hc. congruence. }
    rewrite Hcolon. cbn [negb].
    pose proof (getscheme_at_plain _ _ _ _ _ H H Hscheme) as Hrest.
    destruct (split_plain rest "?" true Hrest) as [Hrest1 _].
    destruct (url.split rest "?" true) as [rest1 query]. cbn [fst] in Hrest1.
    destruct (negb (strings.HasPrefix rest1 "/") && negb (String.eqb scheme ""));
      [reflexivity |].
    destruct ((negb (String.eqb scheme "") || negb (strings.HasPrefix rest1 "///"))
              && strings.HasPrefix rest1 "//").
    + pose proof (slice_from_plain 2 rest1 Hrest1) as Hafter.
      destruct (split_plain _ "/" false Hafter) as [Hauth Hpath].
      destruct (url.split (default "" (strings.slice_from 2 rest1)) "/" false)
        as [authority path]. cbn [fst snd] in Hauth, Hpath.
      destruct (parseAuthority_plain authority Hauth) as [host [-> Hhost]].
      rewrite Hhost. exact (unescape_ok_plain _ Hpath).
    + exact (unescape_ok_plain _ Hrest1).
  - apply getscheme_None in Hscheme. now rewrite Hscheme.
Qed.

(** A URL without a percent sign parses unless it starts with a colon. *)
Lemma Parse_ok_plain (rawurl : string) :
  strings.Contains rawurl "%" = false →
  url.Parse_ok rawurl = negb (strings.HasPrefix rawurl ":").
Proof.
  intros H. unfold url.Parse_ok.
  destruct (split_plain rawurl "#" true H) as [Hu Hfrag].
  assert (Hcolon : strings.HasPrefix (fst (url.split rawurl "#" true)) ":"
                   = strings.HasPrefix rawurl ":").
  { destruct rawurl as [|c s]; [reflexivity |]. cbn [url.split].
    destruct (Ascii.eqb c "#") eqn:Hc.
    - apply Ascii.eqb_eq in Hc. now subst c.
    - destruct (url.split s "#" true) as [t u]. reflexivity. }
  destruct (url.split rawurl "#" true) as [u frag]. cbn [fst snd] in *.
  now rewrite (parse_ok_plain u Hu), (unescape_ok_plain frag Hfrag), Hcolon, andb_true_r.
Qed.

(** ** Registration of the routes *)

Lemma is_explicit_insert (m : gmap string muxEntry) (key k : string) (e : muxEntry) :
  is_explicit (<[key := e]> m) k
  = if String.eqb k key then explicit e else is_explicit m k.
Proof.
  unfold is_explicit. destruct (String.eqb k key) eqn:Hk.
  - apply String.eqb_eq in Hk as ->. now rewrite lookup_insert_eq.
  - apply String.eqb_neq in Hk. rewrite lookup_insert_ne by congruence. reflexivity.
Qed.

(** After a registration the explicitly registered patterns are the ones
    before and the new one. *)
Lemma Handle_is_explicit (mux mux' : ServeMux) (pat : string) (handler : Handler) (k : string) :
  Handle mux pat handler = Some mux' →
  is_explicit (m mux') k = String.eqb k pat || is_explicit (m mux) k.
Proof.
  unfold Handle. destruct (String.eqb pat ""); [discriminate |].
  destruct (is_explicit (m mux) pat) eqn:Hexp; [discriminate |].
  set (m1 := <[pat := _]> (m mux)).
  assert (H1 : is_explicit m1 k = String.eqb k pat || is_explicit (m mux) k).
  { unfold m1. rewrite is_explicit_insert. now destruct (String.eqb k pat). }
  destruct (ends_with_slash pat && negb (is_explicit m1 (drop_last pat))) eqn:Himp;
    intros [= <-]; cbn [m]; [| exact H1].
  rewrite is_explicit_insert. destruct (String.eqb k (drop_last pat)) eqn:Hk; [| exact H1].
  apply String.eqb_eq in Hk. subst k. cbn [explicit]. rewrite <- H1.
  apply andb_true_iff in Himp as [_ Himp]. apply negb_true_iff in Himp. now rewrite Himp.
Qed.

Lemma Handle_None (mux : ServeMux) (pat : string) (handler : Handler) :
  Handle mux pat handler = None ↔ pat = "" ∨ is_explicit (m mux) pat = true.
Proof.
  unfold Handle. destruct (String.eqb pat "") eqn:Hpat.
  - apply String.eqb_eq in Hpat. tauto.
  - apply String.eqb_neq in Hpat. destruct (is_explicit (m mux) pat); [tauto |].
    destruct (ends_with_slash pat && _); split; try discriminate; intros [? | ?];
      congruence.
Qed.

(** A list of registrations goes through exactly when no pattern is empty,
    none is registered twice, and none is registered already. *)
Lemma registrations_go_through (regs : list (string * Handler)) (mux : ServeMux) :
  is_Some (fold_left (λ (mux : option ServeMux) (ph : string * Handler),
                        mux ≫= λ mux, Handle mux (fst ph) (snd ph)) regs (Some mux)) ↔
  ¬ In "" (map fst regs) ∧ NoDup (map fst regs) ∧
  ∀ p, In p (map fst regs) → is_explicit (m mux) p = false.
Proof.
  revert mux. induction regs as [|[p hd] regs IH]; intros mux.
  - simpl. split; [intros _; repeat split; [tauto | constructor | tauto] | now eexists].
  - cbn [fold_left fst snd map mbind option_bind].
    destruct (Handle mux p hd) as [mux1 |] eqn:HH.
    + assert (Hp : p ≠ "" ∧ is_explicit (m mux) p = false).
      { destruct (String.eqb p "") eqn:E1, (is_explicit (m mux) p) eqn:E2;
          try (assert (Handle mux p hd = None) as Hn
                 by (apply Handle_None; rewrite ?String.eqb_eq in E1; auto); congruence).
        apply String.eqb_neq in E1. auto. }
      destruct Hp as [Hne Hfresh]. rewrite IH. split.
      * intros [Hno [Hnd Hexp]]. split; [| split].
        -- intros [Heq | Hin]; [congruence | contradiction].
        -- apply NoDup_cons. split; [| exact Hnd]. intros Hin.
           apply list_elem_of_In in Hin. specialize (Hexp p Hin).
           rewrite (Handle_is_explicit _ _ _ _ p HH), String.eqb_refl in Hexp. discriminate.
        -- intros q [<- | Hin]; [exact Hfresh |]. specialize (Hexp q Hin).
           rewrite (Handle_is_explicit _ _ _ _ q HH) in Hexp.
           now apply orb_false_iff in Hexp.
      * intros [Hno [Hnd Hexp]]. apply NoDup_cons in Hnd as [Hnotin Hnd]. split; [| split].
        -- intros Hin. apply Hno. now right.
        -- exact Hnd.
        -- intros q Hin. rewrite (Handle_is_explicit _ _ _ _ q HH).
           rewrite (Hexp q (or_intror Hin)), orb_false_r. apply String.eqb_neq.
           intros ->. apply Hnotin. now apply list_elem_of_In.
    + rewrite registrations_None. split; [intros [? ?]; discriminate |].
      intros [Hno [Hnd Hexp]]. apply Handle_None in HH as [-> | Hexp'].
      * exfalso. apply Hno. now left.
      * rewrite (Hexp p (or_introl eq_refl)) in Hexp'. discriminate.
Qed.

Lemma last_byte_append_slash (a : string) : ends_with_slash (a +:+ "/") = true.
Proof.
  unfold ends_with_slash. induction a as [|c a IH]; [reflexivity |].
  simpl. destruct (a +:+ "/") eqn:Ha; [destruct a; discriminate | exact IH].
Qed.

(** The registrations go through when no build-status route is configured;
    with one, a registration panics exactly when its pattern is the pattern
    of a built-in subtree route. *)
Lemma registrations_collide (os : OS) (flags : Flags)
    (pageHtml : Template PageData) (errorHtml : Template string) :
  let registered :=
    fold_left (λ (mux : option ServeMux) (ph : string * Handler),
                 mux ≫= λ mux, Handle mux (fst ph) (snd ph))
              (registrations os flags pageHtml errorHtml) (Some NewServeMux) in
  (build_status_enabled flags = false → is_Some registered) ∧
  (build_status_enabled flags = true →
   (registered = None ↔
    In (build_status_pattern flags)
       (["/static/"; "/talks/"; "/pkg/"; "/cmd/"; "/r/"; "/issue/"; "/"] ++
        (if String.eqb (gitwebScript flags) "" then [] else ["/code/"])))).
Proof.
  assert (Hempty : ∀ p : string, is_explicit (m NewServeMux) p = false) by reflexivity.
  intros registered. unfold registered. split.
  - intros Hoff. apply registrations_go_through. unfold registrations.
    unfold build_status_enabled in Hoff. rewrite Hoff.
    destruct (String.eqb (gitwebScript flags) ""); cbn [negb app map fst];
      (split; [| split; [| auto]]);
      [ intros H; repeat (destruct H as [H | H]; [discriminate H |]); destruct H
      | apply (bool_decide_unpack _); vm_compute; exact I
      | intros H; repeat (destruct H as [H | H]; [discriminate H |]); destruct H
      | apply (bool_decide_unpack _); vm_compute; exact I ].
  - intros Hon.
    set (regs := registrations os flags pageHtml errorHtml).
    assert (Hiff := registrations_go_through regs NewServeMux). fold regs.
    assert (Hpats : map fst regs
                    = (["/favicon.ico"; "/robots.txt"; "/static/"; "/talks/"; "/pkg/"; "/cmd/";
                        "/r/"; "/debugz/ip"; "/test.cgi"; "/test.cgi/foo"; "/code"] ++
                       (if String.eqb (gitwebScript flags) "" then [] else ["/code/"]) ++
                       ["/issue/"; "/"]) ++ [build_status_pattern flags]).
    { unfold regs, registrations. unfold build_status_enabled in Hon. rewrite Hon.
      destruct (String.eqb (gitwebScript flags) ""); reflexivity. }
    pose proof (last_byte_append_slash (strings.TrimRight (buildbotHost flags) "/")) as Hslash.
    fold (build_status_pattern flags) in Hslash.
    set (bbh := build_status_pattern flags) in *.
    assert (Hbbh : bbh ≠ "") by (intros Heq; rewrite Heq in Hslash; discriminate).
    split.
    + intros Hnone.
      destruct (in_dec string_dec bbh
                  (["/static/"; "/talks/"; "/pkg/"; "/cmd/"; "/r/"; "/issue/"; "/"] ++
                   (if String.eqb (gitwebScript flags) "" then [] else ["/code/"])))
        as [Hin | Hnotin]; [exact Hin | exfalso].
      assert (Hsome : is_Some (fold_left (λ (mux : option ServeMux) (ph : string * Handler),
                        mux ≫= λ mux, Handle mux (fst ph) (snd ph)) regs (Some NewServeMux))).
      { apply Hiff. rewrite Hpats. split; [| split; [| auto]].
        - rewrite in_app_iff. intros [H | [H | []]]; [| congruence].
          destruct (String.eqb (gitwebScript flags) ""); cbn [app] in H;
            repeat (destruct H as [H | H]; [discriminate H |]); destruct H.
        - apply NoDup_app. split; [| split; [| apply NoDup_singleton]].
          + destruct (String.eqb (gitwebScript flags) ""); cbn [app];
              apply (bool_decide_unpack _); vm_compute; exact I.
          + intros x Hx Hx'. apply list_elem_of_singleton in Hx'. subst x.
            apply list_elem_of_In in Hx. apply Hnotin.
            destruct (String.eqb (gitwebScript flags) ""); cbn [app] in Hx |- *;
              repeat (destruct Hx as [Hx | Hx];
                      [first [ rewrite <- Hx in Hslash; discriminate Hslash
                             | rewrite <- Hx; simpl; tauto ] |]);
              destruct Hx. }
      rewrite Hnone in Hsome. now destruct Hsome.
    + intros Hin.
      destruct (fold_left _ regs (Some NewServeMux)) as [mux0 |] eqn:Hfold; [| reflexivity].
      exfalso. assert (Hsome : is_Some (Some mux0)) by now eexists.
      apply Hiff in Hsome as [_ [Hnd _]].
      rewrite Hpats in Hnd. apply NoDup_app in Hnd as [_ [Hdisj _]].
      apply (Hdisj bbh); [| apply list_elem_of_singleton; reflexivity].
      apply list_elem_of_In.
      destruct (String.eqb (gitwebScript flags) ""); cbn [app] in Hin |- *;
        repeat (destruct Hin as [Hin | Hin]; [rewrite <- Hin; simpl; tauto |]);
        destruct Hin.
Qed.


(** X13.  Once [main] has reached its route registrations (the templates
    are read and the root is known), it gets through them unless the
    code-review URL [http://<gerrithost>:8000/] does not parse (the proxy
    constructor then panics on the nil URL), or a build-status route is
    configured and its backend URL does not parse ([log.Fatalf]) or its
    pattern, the host with one final slash, is the pattern of a built-in
    subtree route: [/static/], [/talks/], [/pkg/], [/cmd/], [/r/],
    [/issue/], [/], or [/code/] when gitweb is on.  A host without a percent
    sign gives a code-review URL that parses, and a backend URL without a
    percent sign parses unless it starts with a colon. *)
Theorem registrations_panic_on_collision (os : OS) (flags : Flags)
    (pageHtml : Template PageData) (errorHtml : Template string) :
  (mux os flags pageHtml errorHtml = None ↔
   url.Parse_ok ("http://" +:+ gerritHost flags +:+ ":8000/") = false ∨
   (build_status_enabled flags = true ∧
    (url.Parse_ok (buildbotBackend flags) = false ∨
     In (build_status_pattern flags)
        (["/static/"; "/talks/"; "/pkg/"; "/cmd/"; "/r/"; "/issue/"; "/"] ++
         (if String.eqb (gitwebScript flags) "" then [] else ["/code/"]))))) ∧
  (strings.Contains (gerritHost flags) "%" = false →
   url.Parse_ok ("http://" +:+ gerritHost flags +:+ ":8000/") = true) ∧
  (strings.Contains (buildbotBackend flags) "%" = false →
   url.Parse_ok (buildbotBackend flags) = negb (strings.HasPrefix (buildbotBackend flags) ":")).
Proof.
  split; [| split].
  - destruct (registrations_collide os flags pageHtml errorHtml) as [Hoff Hon].
    unfold mux. fold (build_status_enabled flags).
    destruct (url.Parse_ok ("http://" +:+ gerritHost flags +:+ ":8000/")) eqn:Hgerrit;
      cbn [negb]; [| split; [now left | reflexivity]].
    destruct (build_status_enabled flags) eqn:Hbs; cbn [andb].
    + specialize (Hon eq_refl).
      destruct (url.Parse_ok (buildbotBackend flags)) eqn:Hbackend; cbn [negb].
      * rewrite Hon. split; [intros Hin; right; split; [reflexivity | now right] |].
        intros [Hfalse | [_ [Hfalse | Hin]]]; [discriminate | discriminate | exact Hin].
      * split; [intros _; right; split; [reflexivity | now left] | reflexivity].
    + destruct (Hoff eq_refl) as [mux0 ->].
      split; [discriminate |]. intros [Hfalse | [Hfalse _]]; discriminate.
  - intros Hplain. rewrite Parse_ok_plain; [reflexivity |].
    apply plain_append. split; [reflexivity |]. apply plain_append. now split.
  - apply Parse_ok_plain.
Qed.

Lemma registrations_panic_witness :
  mux site_os (set_buildbot site_flags "/static" "http://localhost:8010/")
    site_page site_error = None ∧
  mux site_os (set_buildbot site_flags "build.camlistore.org" "%zz") site_page site_error
    = None ∧
  url.Parse_ok "http://review.camlistore.org:8000/" = true.
Proof.
  split; [| split].
  - apply (proj2 (proj1 (registrations_panic_on_collision site_os
                           (set_buildbot site_flags "/static" "http://localhost:8010/")
                           site_page site_error))).
    right. split; [reflexivity |]. right. simpl. tauto.
  - apply (proj2 (proj1 (registrations_panic_on_collision site_os
                           (set_buildbot site_flags "build.camlistore.org" "%zz")
                           site_page site_error))).
    right. split; [reflexivity |]. left. reflexivity.
  - apply (proj1 (proj2 (registrations_panic_on_collision site_os
                           (set_gerritHost site_flags "review.camlistore.org")
                           site_page site_error))).
    reflexivity.
Defined.

(** ** No request makes the server panic *)

Lemma StripPrefix_no_panic (prefix : string) (hd : Handler) (r : Request) :
  (∀ r', panics (hd r') = false) → panics (StripPrefix prefix hd r) = false.
Proof.
  intros Hhd. unfold StripPrefix.
  destruct (strings.HasPrefix (url.Path (URL r)) prefix) eqn:Hpre; [| reflexivity].
  destruct (HasPrefix_slice _ _ Hpre) as [t [_ Ht]]. rewrite Ht. apply Hhd.
Qed.

Lemma registered_no_panic (os : OS) (flags : Flags)
    (pageHtml : Template PageData) (errorHtml : Template string)
    (p : string) (hd : Handler) (r : Request) :
  In (p, hd) (registrations os flags pageHtml errorHtml) →
  url.Path (URL r) ≠ "" →
  panics (hd r) = false.
Proof.
  intros Hin Hpath. unfold registrations in Hin. rewrite !in_app_iff in Hin.
  destruct Hin as [Hin | [Hin | [Hin | Hin]]].
  - cbn [In] in Hin.
    repeat (destruct Hin as [[= <- <-] | Hin]);
      try reflexivity; try (apply StripPrefix_no_panic; reflexivity); try destruct Hin.
    + unfold gerritHandler. destruct (negb _); [destruct (TLS r) |]; reflexivity.
    + apply ipHandler_no_panic.
  - destruct (negb (String.eqb (gitwebScript flags) "")); [| destruct Hin].
    destruct Hin as [[= <- <-] | []].
    unfold fixUpGitwebUrls. destruct (String.eqb _ _); [| reflexivity].
    unfold gitwebHandler. destruct (_ || _); [reflexivity |].
    apply StripPrefix_no_panic. reflexivity.
  - destruct Hin as [[= <- <-] | [[= <- <-] | []]].
    + unfold issueRedirect. destruct (regexp.FindStringSubmatch _ _); reflexivity.
    + now apply mainHandler_no_panic.
  - destruct (_ && _); [| destruct Hin]. destruct Hin as [[= <- <-] | []]. reflexivity.
Qed.

(** X14.  No request with a non-empty path makes the handler that [main]
    builds (before the request logger is wrapped around it) panic in the
    code of the site, whatever the flags, the file system, the templates and
    the output of the [ip] command: no slice of a path or of the command
    output is taken out of range. *)
Theorem server_never_panics (os : OS) (flags : Flags)
    (pageHtml : Template PageData) (errorHtml : Template string)
    (unicode_lower : string → string) (server : Handler) (r : Request) :
  main os flags pageHtml errorHtml unicode_lower = Some server →
  url.Path (URL r) ≠ "" →
  panics (server r) = false.
Proof.
  intros Hmain Hpath. unfold main in Hmain.
  destruct (startup os flags) as [flags' |]; [| discriminate].
  cbn [mbind option_bind] in Hmain. unfold handler in Hmain.
  destruct (mux os flags' pageHtml errorHtml) as [mux0 |] eqn:Hmux; [| discriminate].
  injection Hmain as <-. unfold noWwwHandler.
  destruct (_ && _ && isBot r); [reflexivity |].
  destruct (String.eqb (strings.ToLower unicode_lower (Host r)) "www.camlistore.org"); [reflexivity |].
  unfold ServeMux_ServeHTTP. destruct (String.eqb (RequestURI r) "*"); [reflexivity |].
  destruct (negb _ && negb _); [reflexivity |].
  destruct (handler_cases mux0 (Host r) (url.Path (URL r))) as [-> | [k [e [Hk [_ ->]]]]];
    [reflexivity |].
  destruct (mux_entries _ _ _ _ _ (mux_registered _ _ _ _ _ Hmux) Hk) as [H0 | [Hin | [q [_ [_ [_ [_ [path ->]]]]]]]].
  - cbn [NewServeMux m] in H0. rewrite lookup_empty in H0. discriminate.
  - exact (registered_no_panic _ _ _ _ _ _ r Hin Hpath).
  - reflexivity.
Qed.

Lemma server_never_panics_witness :
  panics (site_handler (get "camlistore.org" "/static/" "" "curl")) = false.
Proof.
  unfold site_handler.
  destruct (main site_os site_flags site_page site_error site_lower) as [hd |] eqn:Hmain;
    [| discriminate].
  apply (server_never_panics site_os site_flags site_page site_error site_lower hd _ Hmain).
  discriminate.
Defined.

(** ** Dispatch by the longest registered pattern *)

Lemma mux_keys (regs : list (string * Handler)) (mux mux' : ServeMux)
    (k : string) (e : muxEntry) :
  fold_left (λ (mux : option ServeMux) (ph : string * Handler),
               mux ≫= λ mux, Handle mux (fst ph) (snd ph)) regs (Some mux) = Some mux' →
  m mux' !! k = Some e →
  m mux !! k = Some e ∨ ∃ q, In q (map fst regs) ∧ (k = q ∨ k = drop_last q).
Proof.
  intros Hfold Hk.
  destruct (mux_entries _ _ _ _ _ Hfold Hk) as [H0 | [Hin | [q [Hq [-> _]]]]].
  - now left.
  - right. exists k. split; [| now left]. exact (in_map fst _ _ Hin).
  - right. exists q. split; [exact Hq | now right].
Qed.

(** The multiplexer of [main] finds the entry of a registered pattern that
    matches a path when every other key that matches is shorter; the keys
    are the registered patterns and, for the redirects, the same patterns
    without their last byte. *)
Lemma registered_match (os : OS) (flags : Flags)
    (pageHtml : Template PageData) (errorHtml : Template string)
    (mux0 : ServeMux) (path p : string) (hd : Handler) :
  mux os flags pageHtml errorHtml = Some mux0 →
  In (p, hd) (registrations os flags pageHtml errorHtml) →
  pathMatch p path = true →
  (∀ q, In q (map fst (registrations os flags pageHtml errorHtml)) →
        (pathMatch q path = true → q = p ∨ (String.length q < String.length p)%nat) ∧
        (pathMatch (drop_last q) path = true →
         drop_last q = p ∨ (String.length (drop_last q) < String.length p)%nat)) →
  match_ mux0 path = Some {| explicit := true; h := hd; pattern := p |}.
Proof.
  intros Hmux Hin Hp Hall.
  apply (match_longest path mux0 p); [| exact Hp |].
  - exact (registered_entry _ NewServeMux mux0 p hd Hin (mux_registered _ _ _ _ _ Hmux)).
  - intros k' e' Hk' Hm'.
    destruct (mux_keys _ _ _ _ _ (mux_registered _ _ _ _ _ Hmux) Hk') as [H0 | [q [Hq [-> | ->]]]].
    + cbn [NewServeMux m] in H0. rewrite lookup_empty in H0. discriminate.
    + now apply (Hall q Hq).
    + now apply (Hall q Hq).
Qed.

Lemma registered_no_match (os : OS) (flags : Flags)
    (pageHtml : Template PageData) (errorHtml : Template string)
    (mux0 : ServeMux) (path : string) :
  mux os flags pageHtml errorHtml = Some mux0 →
  (∀ q, In q (map fst (registrations os flags pageHtml errorHtml)) →
        pathMatch q path = false ∧ pathMatch (drop_last q) path = false) →
  match_ mux0 path = None.
Proof.
  intros Hmux Hall. unfold match_. rewrite fold_longer_match_none; [reflexivity |].
  intros [k e] Hin. apply list_elem_of_In, elem_of_map_to_list in Hin. cbn [fst].
  destruct (mux_keys _ _ _ _ _ (mux_registered _ _ _ _ _ Hmux) Hin) as [H0 | [q [Hq [-> | ->]]]].
  - cbn [NewServeMux m] in H0. rewrite lookup_empty in H0. discriminate.
  - now apply (Hall q Hq).
  - now apply (Hall q Hq).
Qed.

Lemma Handle_hosts (mux mux' : ServeMux) (pat : string) (handler : Handler) :
  Handle mux pat handler = Some mux' →
  hosts mux' = hosts mux || negb (strings.HasPrefix pat "/").
Proof.
  unfold Handle. destruct (String.eqb pat ""); [discriminate |].
  destruct (is_explicit (m mux) pat); [discriminate |].
  destruct (ends_with_slash pat && _); intros [= <-]; reflexivity.
Qed.

(** The multiplexer looks for host-specific patterns exactly when some
    registered pattern does not start with a slash. *)
Lemma registrations_hosts (regs : list (string * Handler)) (mux mux' : ServeMux) :
  fold_left (λ (mux : option ServeMux) (ph : string * Handler),
               mux ≫= λ mux, Handle mux (fst ph) (snd ph)) regs (Some mux) = Some mux' →
  hosts mux' = hosts mux || existsb (λ ph, negb (strings.HasPrefix (fst ph) "/")) regs.
Proof.
  revert mux. induction regs as [|[p hd] regs IH]; intros mux Hfold.
  - injection Hfold as <-. now rewrite orb_false_r.
  - cbn [fold_left fst snd mbind option_bind] in Hfold.
    destruct (Handle mux p hd) as [mux1 |] eqn:HH;
      [| rewrite registrations_None in Hfold; discriminate].
    rewrite (IH mux1 Hfold), (Handle_hosts _ _ _ _ HH). cbn [existsb fst].
    now rewrite orb_assoc.
Qed.

(** Without the build-status route every pattern is one of the fixed ones. *)
Lemma patterns_without_build_status (os : OS) (flags : Flags)
    (pageHtml : Template PageData) (errorHtml : Template string) (q : string) :
  build_status_enabled flags = false →
  In q (map fst (registrations os flags pageHtml errorHtml)) →
  In q ["/favicon.ico"; "/robots.txt"; "/static/"; "/talks/"; "/pkg/"; "/cmd/"; "/r/";
        "/debugz/ip"; "/test.cgi"; "/test.cgi/foo"; "/code"; "/code/"; "/issue/"; "/"].
Proof.
  intros Hbs. unfold build_status_enabled in Hbs. unfold registrations. rewrite Hbs.
  destruct (negb (String.eqb (gitwebScript flags) "")); cbn [map app fst In]; intuition.
Qed.

Lemma hosts_without_build_status (os : OS) (flags : Flags)
    (pageHtml : Template PageData) (errorHtml : Template string) (mux0 : ServeMux) :
  build_status_enabled flags = false →
  mux os flags pageHtml errorHtml = Some mux0 →
  hosts mux0 = false.
Proof.
  intros Hbs Hmux. rewrite (registrations_hosts _ _ _ (mux_registered _ _ _ _ _ Hmux)).
  unfold build_status_enabled in Hbs. unfold registrations. rewrite Hbs.
  destruct (negb (String.eqb (gitwebScript flags) "")); reflexivity.
Qed.

Lemma ServeMux_clean_path (mux0 : ServeMux) (r : Request) :
  RequestURI r ≠ "*" →
  cleanPath (url.Path (URL r)) = url.Path (URL r) →
  ServeMux_ServeHTTP mux0 r = http.handler mux0 (Host r) (url.Path (URL r)) r.
Proof.
  intros Huri Hclean. unfold ServeMux_ServeHTTP. apply String.eqb_neq in Huri.
  now rewrite Huri, Hclean, String.eqb_refl, andb_false_r.
Qed.

Lemma fixUpGitwebUrls_clean (handler : Handler) (req : Request) :
  strings.Contains (url.String_ (URL req)) "%3B" = false →
  fixUpGitwebUrls handler req = handler req.
Proof.
  intros Hfree. unfold fixUpGitwebUrls. rewrite Replace_all by discriminate.
  rewrite replace_scan_free by (discriminate || exact Hfree).
  now rewrite String.eqb_refl.
Qed.

Lemma StripPrefix_append (prefix rest : string) (hd : Handler) (r : Request) :
  url.Path (URL r) = prefix +:+ rest →
  StripPrefix prefix hd r = hd (with_path r rest).
Proof.
  intros Hpath. unfold StripPrefix.
  now rewrite Hpath, HasPrefix_append, slice_from_append.
Qed.

#[local] Ltac other_patterns_shorter Hall :=
  repeat (destruct Hall as [<- | Hall];
          [split; intros Hm; vm_compute in Hm;
           first [discriminate Hm | left; reflexivity | right; vm_compute; lia] |]);
  destruct Hall.

(** X15.  The multiplexer of [main] hands a request whose path is in
    canonical form to the handler of a registered pattern that matches the
    path, when every other matching key, the implicit redirect keys
    included, is shorter and no key matches the host followed by the path. *)
Theorem longest_pattern_serves (os : OS) (flags : Flags)
    (pageHtml : Template PageData) (errorHtml : Template string)
    (mux0 : ServeMux) (p : string) (hd : Handler) (r : Request) :
  mux os flags pageHtml errorHtml = Some mux0 →
  In (p, hd) (registrations os flags pageHtml errorHtml) →
  RequestURI r ≠ "*" →
  cleanPath (url.Path (URL r)) = url.Path (URL r) →
  pathMatch p (url.Path (URL r)) = true →
  (∀ q, In q (map fst (registrations os flags pageHtml errorHtml)) →
        (pathMatch q (url.Path (URL r)) = true →
         q = p ∨ (String.length q < String.length p)%nat) ∧
        (pathMatch (drop_last q) (url.Path (URL r)) = true →
         drop_last q = p ∨ (String.length (drop_last q) < String.length p)%nat)) →
  (∀ q, In q (map fst (registrations os flags pageHtml errorHtml)) →
        pathMatch q (Host r +:+ url.Path (URL r)) = false ∧
        pathMatch (drop_last q) (Host r +:+ url.Path (URL r)) = false) →
  ServeMux_ServeHTTP mux0 r = hd r.
Proof.
  intros Hmux Hin Huri Hclean Hp Hall Hhost.
  rewrite ServeMux_clean_path by assumption. unfold http.handler.
  rewrite (registered_no_match _ _ _ _ _ _ Hmux Hhost).
  rewrite (registered_match _ _ _ _ _ _ _ _ Hmux Hin Hp Hall).
  destruct (hosts mux0); reflexivity.
Qed.

Lemma longest_pattern_serves_witness :
  ∃ mux0, mux site_os site_flags site_page site_error = Some mux0 ∧
          ServeMux_ServeHTTP mux0 (get "camlistore.org" "/debugz/ip" "" "curl")
          = ipHandler site_os (get "camlistore.org" "/debugz/ip" "" "curl").
Proof.
  destruct (mux site_os site_flags site_page site_error) as [mux0 |] eqn:Hmux;
    [| discriminate Hmux].
  exists mux0. split; [reflexivity |].
  apply (longest_pattern_serves site_os site_flags site_page site_error mux0 "/debugz/ip").
  - exact Hmux.
  - unfold registrations. apply in_or_app. left. cbn [In]. tauto.
  - discriminate.
  - reflexivity.
  - reflexivity.
  - intros q Hq.
    apply (patterns_without_build_status site_os site_flags site_page site_error q eq_refl) in Hq.
    other_patterns_shorter Hq.
  - intros q Hq.
    apply (patterns_without_build_status site_os site_flags site_page site_error q eq_refl) in Hq.
    repeat (destruct Hq as [<- | Hq]; [split; reflexivity |]). destruct Hq.
Defined.

(** X16.  Without a build-status route, the multiplexer of [main] serves a
    canonical path below [/static/] or [/talks/] from the directory of that
    name under the root, with the prefix removed from the path, and serves
    [/favicon.ico] and [/robots.txt] from the [static] directory with the
    path as it is. *)
Theorem file_trees_served (os : OS) (flags : Flags)
    (pageHtml : Template PageData) (errorHtml : Template string)
    (mux0 : ServeMux) (r : Request) :
  mux os flags pageHtml errorHtml = Some mux0 →
  build_status_enabled flags = false →
  RequestURI r ≠ "*" →
  (∀ prefix dir rest,
     In (prefix, dir) [("/static/", "static"); ("/talks/", "talks")] →
     url.Path (URL r) = prefix +:+ rest →
     cleanPath (url.Path (URL r)) = url.Path (URL r) →
     ServeMux_ServeHTTP mux0 r
     = [EvServe (FileServer (filepath.Join [root flags; dir])) (with_path r rest)]) ∧
  (In (url.Path (URL r)) ["/favicon.ico"; "/robots.txt"] →
   ServeMux_ServeHTTP mux0 r
   = [EvServe (FileServer (filepath.Join [root flags; "static"])) r]).
Proof.
  intros Hmux Hbs Huri. pose proof (hosts_without_build_status _ _ _ _ _ Hbs Hmux) as Hhosts.
  split.
  - intros prefix dir rest Hin Hpath Hclean.
    rewrite ServeMux_clean_path by assumption. unfold http.handler. rewrite Hhosts, Hpath.
    destruct Hin as [[= <- <-] | [[= <- <-] | []]].
    + rewrite (registered_match os flags pageHtml errorHtml mux0 _ "/static/"
                 (StripPrefix "/static/" (serve (FileServer (filepath.Join [root flags; "static"]))))
                 Hmux).
      * cbn [h]. now rewrite (StripPrefix_append "/static/" rest).
      * unfold registrations. apply in_or_app. left. cbn [In]. tauto.
      * reflexivity.
      * intros q Hq. apply (patterns_without_build_status os flags pageHtml errorHtml q Hbs) in Hq.
        other_patterns_shorter Hq.
    + rewrite (registered_match os flags pageHtml errorHtml mux0 _ "/talks/"
                 (StripPrefix "/talks/" (serve (FileServer (filepath.Join [root flags; "talks"]))))
                 Hmux).
      * cbn [h]. now rewrite (StripPrefix_append "/talks/" rest).
      * unfold registrations. apply in_or_app. left. cbn [In]. tauto.
      * reflexivity.
      * intros q Hq. apply (patterns_without_build_status os flags pageHtml errorHtml q Hbs) in Hq.
        other_patterns_shorter Hq.
  - intros Hin.
    assert (Hclean : cleanPath (url.Path (URL r)) = url.Path (URL r)).
    { destruct Hin as [<- | [<- | []]]; reflexivity. }
    rewrite ServeMux_clean_path by assumption. unfold http.handler. rewrite Hhosts.
    destruct Hin as [Hp | [Hp | []]]; rewrite <- Hp.
    + rewrite (registered_match os flags pageHtml errorHtml mux0 _ "/favicon.ico"
                 (serve (FileServer (filepath.Join [root flags; "static"]))) Hmux).
      * reflexivity.
      * unfold registrations. apply in_or_app. left. cbn [In]. tauto.
      * reflexivity.
      * intros q Hq. apply (patterns_without_build_status os flags pageHtml errorHtml q Hbs) in Hq.
        other_patterns_shorter Hq.
    + rewrite (registered_match os flags pageHtml errorHtml mux0 _ "/robots.txt"
                 (serve (FileServer (filepath.Join [root flags; "static"]))) Hmux).
      * reflexivity.
      * unfold registrations. apply in_or_app. left. cbn [In]. tauto.
      * reflexivity.
      * intros q Hq. apply (patterns_without_build_status os flags pageHtml errorHtml q Hbs) in Hq.
        other_patterns_shorter Hq.
Qed.

Lemma file_trees_served_witness :
  ∃ mux0, mux site_os site_flags site_page site_error = Some mux0 ∧
          ServeMux_ServeHTTP mux0 (get "camlistore.org" "/static/all.css" "" "curl")
          = [EvServe (FileServer "/srv/camweb/static")
                     (with_path (get "camlistore.org" "/static/all.css" "" "curl") "all.css")] ∧
          ServeMux_ServeHTTP mux0 (get "camlistore.org" "/robots.txt" "" "curl")
          = [EvServe (FileServer "/srv/camweb/static")
                     (get "camlistore.org" "/robots.txt" "" "curl")].
Proof.
  destruct (mux site_os site_flags site_page site_error) as [mux0 |] eqn:Hmux;
    [| discriminate Hmux].
  exists mux0. split; [reflexivity |]. split.
  - assert (Huri : RequestURI (get "camlistore.org" "/static/all.css" "" "curl") ≠ "*")
      by discriminate.
    destruct (file_trees_served site_os site_flags site_page site_error mux0 _
                Hmux eq_refl Huri) as [Htree _].
    apply (Htree "/static/" "static" "all.css"); [cbn [In]; tauto | reflexivity | reflexivity].
  - assert (Huri : RequestURI (get "camlistore.org" "/robots.txt" "" "curl") ≠ "*")
      by discriminate.
    destruct (file_trees_served site_os site_flags site_page site_error mux0 _
                Hmux eq_refl Huri) as [_ Hfile].
    apply Hfile. cbn [In]. tauto.
Defined.

Lemma patterns_without_gitweb (os : OS) (flags : Flags)
    (pageHtml : Template PageData) (errorHtml : Template string) (q : string) :
  build_status_enabled flags = false →
  gitwebScript flags = "" →
  In q (map fst (registrations os flags pageHtml errorHtml)) →
  In q ["/favicon.ico"; "/robots.txt"; "/static/"; "/talks/"; "/pkg/"; "/cmd/"; "/r/";
        "/debugz/ip"; "/test.cgi"; "/test.cgi/foo"; "/code"; "/issue/"; "/"].
Proof.
  intros Hbs Hgw. unfold build_status_enabled in Hbs. unfold registrations.
  rewrite Hbs, Hgw. cbn [map app fst In String.eqb negb]. intuition.
Qed.

(** X17.  Without a build-status route, a request with a canonical path
    [/code/] followed by [rest] and a URL free of [%3B] is served, when a
    gitweb script is configured, by the CGI handler with the path as it is
    if [rest] is empty or starts with a question mark, and otherwise from
    the gitweb files directory with [/code/] removed from the path; when no
    gitweb script is configured the fallback handler serves it. *)
Theorem code_tree_served (os : OS) (flags : Flags)
    (pageHtml : Template PageData) (errorHtml : Template string)
    (mux0 : ServeMux) (r : Request) (rest : string) :
  mux os flags pageHtml errorHtml = Some mux0 →
  build_status_enabled flags = false →
  RequestURI r ≠ "*" →
  url.Path (URL r) = "/code/" +:+ rest →
  cleanPath (url.Path (URL r)) = url.Path (URL r) →
  (gitwebScript flags ≠ "" →
   strings.Contains (url.String_ (URL r)) "%3B" = false →
   ServeMux_ServeHTTP mux0 r
   = if String.eqb rest "" || strings.HasPrefix rest "?"
     then [EvServe (gitwebCgi os flags) r]
     else [EvServe (FileServer (gitwebFiles flags)) (with_path r rest)]) ∧
  (gitwebScript flags = "" →
   ServeMux_ServeHTTP mux0 r = mainHandler os flags pageHtml errorHtml r).
Proof.
  intros Hmux Hbs Huri Hpath Hclean.
  pose proof (hosts_without_build_status _ _ _ _ _ Hbs Hmux) as Hhosts.
  rewrite ServeMux_clean_path by assumption. unfold http.handler. rewrite Hhosts.
  split.
  - intros Hgw Hfree. apply String.eqb_neq in Hgw. rewrite Hpath.
    rewrite (registered_match os flags pageHtml errorHtml mux0 _ "/code/"
               (fixUpGitwebUrls
                  (gitwebHandler (serve (gitwebCgi os flags))
                     (StripPrefix "/code/" (serve (FileServer (gitwebFiles flags))))))
               Hmux).
    + cbn [h]. rewrite fixUpGitwebUrls_clean by exact Hfree.
      unfold gitwebHandler. rewrite Hpath.
      destruct rest as [|c rest']; [reflexivity |].
      replace (String.eqb ("/code/" +:+ String c rest') "/code/") with false by reflexivity.
      replace (strings.HasPrefix ("/code/" +:+ String c rest') "/code/?")
        with (strings.HasPrefix (String c rest') "?") by reflexivity.
      cbn [String.eqb orb].
      destruct (strings.HasPrefix (String c rest') "?"); [reflexivity |].
      now rewrite (StripPrefix_append "/code/" (String c rest')).
    + unfold registrations. apply in_or_app. right. apply in_or_app. left.
      rewrite Hgw. cbn [negb In]. tauto.
    + reflexivity.
    + intros q Hq. apply (patterns_without_build_status os flags pageHtml errorHtml q Hbs) in Hq.
      other_patterns_shorter Hq.
  - intros Hgw. rewrite Hpath.
    rewrite (registered_match os flags pageHtml errorHtml mux0 _ "/"
               (mainHandler os flags pageHtml errorHtml) Hmux).
    + reflexivity.
    + unfold registrations. apply in_or_app. right. apply in_or_app. right.
      apply in_or_app. left. cbn [In]. tauto.
    + reflexivity.
    + intros q Hq.
      apply (patterns_without_gitweb os flags pageHtml errorHtml q Hbs Hgw) in Hq.
      other_patterns_shorter Hq.
Qed.

Lemma code_tree_served_witness :
  (∃ mux0, mux site_os site_flags site_page site_error = Some mux0 ∧
           ServeMux_ServeHTTP mux0 (get "camlistore.org" "/code/gitweb.css" "" "curl")
           = [EvServe (FileServer "/usr/share/gitweb/static")
                      (with_path (get "camlistore.org" "/code/gitweb.css" "" "curl") "gitweb.css")]) ∧
  (∃ mux0, mux site_os (set_gitwebScript site_flags "") site_page site_error = Some mux0 ∧
           ServeMux_ServeHTTP mux0 (get "camlistore.org" "/code/gitweb.css" "" "curl")
           = mainHandler site_os (set_gitwebScript site_flags "") site_page site_error
               (get "camlistore.org" "/code/gitweb.css" "" "curl")).
Proof.
  assert (Huri : RequestURI (get "camlistore.org" "/code/gitweb.css" "" "curl") ≠ "*")
    by discriminate.
  split.
  - destruct (mux site_os site_flags site_page site_error) as [mux0 |] eqn:Hmux;
      [| discriminate Hmux].
    exists mux0. split; [reflexivity |].
    destruct (code_tree_served site_os site_flags site_page site_error mux0 _ "gitweb.css"
                Hmux eq_refl Huri eq_refl eq_refl) as [Hgit _].
    apply Hgit; [discriminate | reflexivity].
  - destruct (mux site_os (set_gitwebScript site_flags "") site_page site_error)
      as [mux0 |] eqn:Hmux; [| discriminate Hmux].
    exists mux0. split; [reflexivity |].
    destruct (code_tree_served site_os (set_gitwebScript site_flags "") site_page site_error
                mux0 _ "gitweb.css" Hmux eq_refl Huri eq_refl eq_refl) as [_ Hplain].
    apply Hplain. reflexivity.
Defined.

(** ** The redirects that subtree patterns bring with them *)

Lemma Handle_keeps_keys (mux mux' : ServeMux) (pat k : string) (handler : Handler) :
  Handle mux pat handler = Some mux' →
  is_Some (m mux !! k) → is_Some (m mux' !! k).
Proof.
  unfold Handle. destruct (String.eqb pat ""); [discriminate |].
  destruct (is_explicit (m mux) pat); [discriminate |].
  destruct (ends_with_slash pat && _); intros [= <-] Hk; cbn [m];
    rewrite ?lookup_insert_is_Some; destruct (decide (pat = k)), (decide (drop_last pat = k));
    auto.
Qed.

Lemma Handle_tree_key (mux mux' : ServeMux) (pat : string) (handler : Handler) :
  Handle mux pat handler = Some mux' →
  ends_with_slash pat = true →
  is_Some (m mux' !! drop_last pat).
Proof.
  unfold Handle. destruct (String.eqb pat ""); [discriminate |].
  destruct (is_explicit (m mux) pat); [discriminate |]. intros HH Hslash.
  rewrite Hslash in HH. cbn [andb] in HH.
  destruct (is_explicit _ (drop_last pat)) eqn:Hexp; injection HH as <-; cbn [m].
  - unfold is_explicit in Hexp. destruct (_ !! drop_last pat); [eauto | discriminate].
  - rewrite lookup_insert_eq. eauto.
Qed.

Lemma registrations_keep_keys (regs : list (string * Handler)) (mux mux' : ServeMux)
    (k : string) :
  fold_left (λ (mux : option ServeMux) (ph : string * Handler),
               mux ≫= λ mux, Handle mux (fst ph) (snd ph)) regs (Some mux) = Some mux' →
  is_Some (m mux !! k) → is_Some (m mux' !! k).
Proof.
  revert mux. induction regs as [|[p hd] regs IH]; intros mux Hfold Hk.
  - now injection Hfold as <-.
  - cbn [fold_left fst snd mbind option_bind] in Hfold.
    destruct (Handle mux p hd) as [mux1 |] eqn:HH;
      [| rewrite registrations_None in Hfold; discriminate].
    apply (IH mux1 Hfold). exact (Handle_keeps_keys _ _ _ _ _ HH Hk).
Qed.

(** Once the registrations have gone through, the multiplexer has a key for
    every registered subtree pattern without its final slash. *)
Lemma registrations_tree_key (regs : list (string * Handler)) (mux mux' : ServeMux)
    (p : string) :
  In p (map fst regs) →
  ends_with_slash p = true →
  fold_left (λ (mux : option ServeMux) (ph : string * Handler),
               mux ≫= λ mux, Handle mux (fst ph) (snd ph)) regs (Some mux) = Some mux' →
  is_Some (m mux' !! drop_last p).
Proof.
  revert mux. induction regs as [|[q hd] regs IH]; intros mux Hin Hslash Hfold;
    [destruct Hin |].
  cbn [fold_left fst snd mbind option_bind] in Hfold.
  destruct (Handle mux q hd) as [mux1 |] eqn:HH;
    [| rewrite registrations_None in Hfold; discriminate].
  destruct Hin as [Hq | Hin].
  - cbn [fst] in Hq. subst q. apply (registrations_keep_keys regs mux1 mux' _ Hfold).
    exact (Handle_tree_key _ _ _ _ HH Hslash).
  - exact (IH mux1 Hin Hslash Hfold).
Qed.

(** X18.  Without a build-status route, the multiplexer of [main] answers
    a request for the name of one of its subtrees without the final slash
    ([/static], [/talks], [/pkg], [/cmd], [/r], [/issue]) with a 301
    redirect to the name with the slash; the handler registered for the
    subtree does not run. *)
Theorem tree_redirects (os : OS) (flags : Flags)
    (pageHtml : Template PageData) (errorHtml : Template string)
    (mux0 : ServeMux) (r : Request) (tree : string) :
  mux os flags pageHtml errorHtml = Some mux0 →
  build_status_enabled flags = false →
  RequestURI r ≠ "*" →
  In tree ["/static/"; "/talks/"; "/pkg/"; "/cmd/"; "/r/"; "/issue/"] →
  url.Path (URL r) = drop_last tree →
  ServeMux_ServeHTTP mux0 r = [EvRedirect tree 301].
Proof.
  intros Hmux Hbs Huri Htree Hpath.
  pose proof (hosts_without_build_status _ _ _ _ _ Hbs Hmux) as Hhosts.
  assert (Hreg : In tree (map fst (registrations os flags pageHtml errorHtml))).
  { unfold registrations. rewrite !map_app, !in_app_iff. cbn [map fst In] in Htree |- *.
    tauto. }
  assert (Hslash : ends_with_slash tree = true).
  { repeat (destruct Htree as [<- | Htree]; [reflexivity |]). destruct Htree. }
  destruct (registrations_tree_key _ NewServeMux mux0 tree Hreg Hslash
              (mux_registered _ _ _ _ _ Hmux)) as [e He].
  assert (Hredirect : h e = RedirectHandler tree StatusMovedPermanently).
  { destruct (mux_entries _ _ _ _ _ (mux_registered _ _ _ _ _ Hmux) He) as [H0 | [Hin | [q [Hq [Hkey [_ [Hroot _]]]]]]].
    - cbn [NewServeMux m] in H0. rewrite lookup_empty in H0. discriminate.
    - apply (in_map fst) in Hin. cbn [fst] in Hin.
      apply (patterns_without_build_status os flags pageHtml errorHtml _ Hbs) in Hin.
      repeat (destruct Htree as [<- | Htree];
              [repeat (destruct Hin as [Hin | Hin]; [discriminate Hin |]); destruct Hin |]).
      destruct Htree.
    - apply (patterns_without_build_status os flags pageHtml errorHtml _ Hbs) in Hq.
      repeat (destruct Htree as [<- | Htree];
              [repeat (destruct Hq as [<- | Hq];
                       [first [discriminate Hkey | exact (Hroot eq_refl)] |]);
               destruct Hq |]).
      destruct Htree. }
  assert (Hclean : cleanPath (url.Path (URL r)) = url.Path (URL r)).
  { rewrite Hpath.
    repeat (destruct Htree as [<- | Htree]; [reflexivity |]). destruct Htree. }
  rewrite ServeMux_clean_path by assumption. unfold http.handler. rewrite Hhosts, Hpath.
  rewrite (match_longest (drop_last tree) mux0 (drop_last tree) e He).
  - now rewrite Hredirect.
  - repeat (destruct Htree as [<- | Htree]; [reflexivity |]). destruct Htree.
  - intros k' e' Hk' Hm'.
    destruct (mux_keys _ _ _ _ _ (mux_registered _ _ _ _ _ Hmux) Hk') as [H0 | [q [Hq Hkq]]].
    { cbn [NewServeMux m] in H0. rewrite lookup_empty in H0. discriminate. }
    apply (patterns_without_build_status os flags pageHtml errorHtml q Hbs) in Hq.
    assert (Hboth :
      (pathMatch q (drop_last tree) = true →
       q = drop_last tree ∨ (String.length q < String.length (drop_last tree))%nat) ∧
      (pathMatch (drop_last q) (drop_last tree) = true →
       drop_last q = drop_last tree ∨
       (String.length (drop_last q) < String.length (drop_last tree))%nat)).
    { clear Hkq Hm' Hk' He Hreg Hredirect Hpath.
      repeat (destruct Htree as [<- | Htree]; [other_patterns_shorter Hq |]).
      destruct Htree. }
    destruct Hkq as [-> | ->]; now apply Hboth.
Qed.

Lemma tree_redirects_witness :
  ∃ mux0, mux site_os site_flags site_page site_error = Some mux0 ∧
          ServeMux_ServeHTTP mux0 (get "camlistore.org" "/talks" "" "curl")
          = [EvRedirect "/talks/" 301].
Proof.
  destruct (mux site_os site_flags site_page site_error) as [mux0 |] eqn:Hmux;
    [| discriminate Hmux].
  exists mux0. split; [reflexivity |].
  apply (tree_redirects site_os site_flags site_page site_error mux0 _ "/talks/" Hmux eq_refl).
  - discriminate.
  - cbn [In]. tauto.
  - reflexivity.
Defined.

#[local] Ltac dispatch_to os flags pageHtml errorHtml mux0 Hmux Hbs pat hd :=
  rewrite (registered_match os flags pageHtml errorHtml mux0 _ pat hd Hmux);
  [ reflexivity
  | unfold registrations; rewrite !in_app_iff; cbn [In]; tauto
  | reflexivity
  | let q := fresh "q" in
    let Hq := fresh "Hq" in
    intros q Hq;
    apply (patterns_without_build_status os flags pageHtml errorHtml q Hbs) in Hq;
    other_patterns_shorter Hq ].

(** X19.  Without a build-status route, the multiplexer of [main] hands a
    request with a canonical path to the documentation handler below [/pkg/]
    and [/cmd/], to the code-review handler below [/r/], to the issue
    redirect below [/issue/], to the address handler for [/debugz/ip], and
    to the test CGI script for [/test.cgi] and [/test.cgi/foo]; each of
    them gets the request with its path unchanged. *)
Theorem routes_to_handlers (os : OS) (flags : Flags)
    (pageHtml : Template PageData) (errorHtml : Template string)
    (mux0 : ServeMux) (r : Request) :
  mux os flags pageHtml errorHtml = Some mux0 →
  build_status_enabled flags = false →
  RequestURI r ≠ "*" →
  cleanPath (url.Path (URL r)) = url.Path (URL r) →
  (∀ rest, url.Path (URL r) = "/pkg/" +:+ rest ∨ url.Path (URL r) = "/cmd/" +:+ rest →
           ServeMux_ServeHTTP mux0 r = [EvServe GodocHandler r]) ∧
  (∀ rest, url.Path (URL r) = "/r/" +:+ rest →
           ServeMux_ServeHTTP mux0 r = gerritHandler flags r) ∧
  (∀ rest, url.Path (URL r) = "/issue/" +:+ rest →
           ServeMux_ServeHTTP mux0 r = issueRedirect r) ∧
  (url.Path (URL r) = "/debugz/ip" → ServeMux_ServeHTTP mux0 r = ipHandler os r) ∧
  (In (url.Path (URL r)) ["/test.cgi"; "/test.cgi/foo"] →
   ServeMux_ServeHTTP mux0 r
   = [EvServe (CgiHandler (filepath.Join [root flags; "test.cgi"]) "/test.cgi" []) r]).
Proof.
  intros Hmux Hbs Huri Hclean.
  pose proof (hosts_without_build_status _ _ _ _ _ Hbs Hmux) as Hhosts.
  rewrite ServeMux_clean_path by assumption. unfold http.handler. rewrite Hhosts.
  repeat split.
  - intros rest [Hpath | Hpath]; rewrite Hpath.
    + dispatch_to os flags pageHtml errorHtml mux0 Hmux Hbs "/pkg/" (serve GodocHandler).
    + dispatch_to os flags pageHtml errorHtml mux0 Hmux Hbs "/cmd/" (serve GodocHandler).
  - intros rest Hpath. rewrite Hpath.
    dispatch_to os flags pageHtml errorHtml mux0 Hmux Hbs "/r/" (gerritHandler flags).
  - intros rest Hpath. rewrite Hpath.
    dispatch_to os flags pageHtml errorHtml mux0 Hmux Hbs "/issue/" issueRedirect.
  - intros Hpath. rewrite Hpath.
    dispatch_to os flags pageHtml errorHtml mux0 Hmux Hbs "/debugz/ip" (ipHandler os).
  - intros [Hpath | [Hpath | []]]; rewrite <- Hpath.
    + dispatch_to os flags pageHtml errorHtml mux0 Hmux Hbs "/test.cgi" (testCgi flags).
    + dispatch_to os flags pageHtml errorHtml mux0 Hmux Hbs "/test.cgi/foo" (testCgi flags).
Qed.

Lemma routes_to_handlers_witness :
  ∃ mux0, mux site_os site_flags site_page site_error = Some mux0 ∧
          ServeMux_ServeHTTP mux0 (get "camlistore.org" "/issue/42" "" "curl")
          = [EvRedirect "https://code.google.com/p/camlistore/issues/detail?id=42" 302].
Proof.
  destruct (mux site_os site_flags site_page site_error) as [mux0 |] eqn:Hmux;
    [| discriminate Hmux].
  exists mux0. split; [reflexivity |].
  assert (Huri : RequestURI (get "camlistore.org" "/issue/42" "" "curl") ≠ "*") by discriminate.
  destruct (routes_to_handlers site_os site_flags site_page site_error mux0 _
              Hmux eq_refl Huri eq_refl) as [_ [_ [Hissue _]]].
  rewrite (Hissue "42" eq_refl). reflexivity.
Defined.

(** ** Requests that the fallback handler leaves unanswered *)

Lemma served_nil (os : OS) (pageHtml : Template PageData) (errorHtml : Template string)
    (absPath : string) :
  served os pageHtml errorHtml absPath = [] ↔
  ∃ data, ReadFile os absPath = Ok data ∧ rendered pageHtml (served_title data) data = [].
Proof.
  unfold served. destruct (ReadFile os absPath) as [data | err].
  - split.
    + intros Hnil. exists data. split; [reflexivity |].
      now destruct (rendered pageHtml (served_title data) data).
    + intros [data' [[= <-] ->]]. reflexivity.
  - split; [discriminate | intros [data [Hread _]]; discriminate Hread].
Qed.

(** X20.  For a request with a non-empty path, the fallback handler sends
    no response at all in exactly three cases: the path without its first
    byte contains two consecutive dots; it is not under [gw/] and names a
    directory whose [index.html] is a directory too; or the file it resolves
    to is read and the page template writes nothing for it.  In the second
    case the handler has examined both names and read no file.  With a page
    template that always writes something only the first two cases are
    left. *)
Theorem fallback_unanswered (os : OS) (flags : Flags)
    (pageHtml : Template PageData) (errorHtml : Template string)
    (req : Request) (c : ascii) (relPath : string) :
  url.Path (URL req) = String c relPath →
  let absPath := filepath.Join [root flags; "content"; relPath] in
  let indexPath := filepath.Join [root flags; "content"; relPath +:+ "/index.html"] in
  let nested :=
    strings.Contains relPath ".." = false ∧ strings.HasPrefix relPath "gw/" = false ∧
    Lstat os absPath = Ok {| IsDir := true |} ∧ Lstat os indexPath = Ok {| IsDir := true |} in
  let blank :=
    strings.Contains relPath ".." = false ∧ strings.HasPrefix relPath "gw/" = false ∧
    ∃ name data,
      (Lstat os absPath = Ok {| IsDir := false |} ∧ name = absPath ∨
       Lstat os absPath = Ok {| IsDir := true |} ∧
       Lstat os indexPath = Ok {| IsDir := false |} ∧ name = indexPath) ∧
      ReadFile os name = Ok data ∧ rendered pageHtml (served_title data) data = [] in
  (response (mainHandler os flags pageHtml errorHtml req) = [] ↔
   strings.Contains relPath ".." = true ∨ nested ∨ blank) ∧
  (nested → mainHandler os flags pageHtml errorHtml req = [EvLstat absPath; EvLstat indexPath]) ∧
  ((∀ title data, rendered pageHtml title data ≠ []) →
   (response (mainHandler os flags pageHtml errorHtml req) = [] ↔
    strings.Contains relPath ".." = true ∨ nested)).
Proof.
  intros Hpath absPath indexPath nested blank.
  assert (Hquiet : response (mainHandler os flags pageHtml errorHtml req) = [] ↔
                   strings.Contains relPath ".." = true ∨ nested ∨ blank).
  { rewrite (mainHandler_response _ _ _ _ _ _ _ Hpath). unfold content_answer, nested, blank.
    fold absPath indexPath.
    destruct (strings.Contains relPath "..") eqn:Hdots; [split; [now left | reflexivity] |].
    destruct (strings.HasPrefix relPath "gw/") eqn:Hgw.
    { split; [discriminate |].
      intros [H | [[_ [H _]] | [_ [H _]]]]; discriminate H. }
    cbv zeta. fold absPath indexPath.
    destruct (Lstat os absPath) as [[[|]] | e1].
    - destruct (Lstat os indexPath) as [[[|]] | e2].
      + split; [intros _; right; left; now repeat split | reflexivity].
      + rewrite served_nil. split.
        * intros [data [Hread Hnone]]. right. right. split; [reflexivity |].
          split; [reflexivity |]. exists indexPath, data. split; [right |]; auto.
        * intros [H | [[_ [_ [_ H]]] | [_ [_ [name [data [Hname [Hread Hnone]]]]]]]];
            try discriminate H.
          destruct Hname as [[H _] | [_ [_ ->]]]; [discriminate H |]. now exists data.
      + split; [discriminate |].
        intros [H | [[_ [_ [_ H]]] | [_ [_ [name [data [Hname _]]]]]]]; try discriminate H.
        destruct Hname as [[H _] | [_ [H _]]]; discriminate H.
    - rewrite served_nil. split.
      + intros [data [Hread Hnone]]. right. right. split; [reflexivity |].
        split; [reflexivity |]. exists absPath, data. split; [left |]; auto.
      + intros [H | [[_ [_ [H _]]] | [_ [_ [name [data [Hname [Hread Hnone]]]]]]]];
          try discriminate H.
        destruct Hname as [[_ ->] | [H _]]; [| discriminate H]. now exists data.
    - split; [discriminate |].
      intros [H | [[_ [_ [H _]]] | [_ [_ [name [data [Hname _]]]]]]]; try discriminate H.
      destruct Hname as [[H _] | [H _]]; discriminate H. }
  split; [exact Hquiet |]. split.
  - intros [Hdots [Hgw [Hdir Hindex]]].
    rewrite (mainHandler_resolves _ _ _ _ _ _ _ Hpath Hdots Hgw). cbv zeta.
    fold absPath indexPath. rewrite Hdir. cbn [IsDir]. rewrite Hindex. reflexivity.
  - intros Hwrites. rewrite Hquiet. split; [| tauto].
    intros [H | [H | [_ [_ [name [data [_ [_ Hnone]]]]]]]]; [now left | now right |].
    now destruct (Hwrites _ _ Hnone).
Qed.

Lemma fallback_unanswered_witness :
  response (mainHandler site_os site_flags site_page site_error
              (get "camlistore.org" "/docs/../secret" "" "curl")) = [] ∧
  mainHandler (os_of_tree nested_tree "") site_flags site_page site_error
    (get "camlistore.org" "/d" "" "curl")
  = [EvLstat "/srv/camweb/content/d"; EvLstat "/srv/camweb/content/d/index.html"] ∧
  response (mainHandler site_os site_flags blank_page site_error
              (get "camlistore.org" "/plain.html" "" "curl")) = [].
Proof.
  split; [| split].
  - apply (proj1 (fallback_unanswered site_os site_flags site_page site_error
                    (get "camlistore.org" "/docs/../secret" "" "curl") "/"%char "docs/../secret"
                    eq_refl)).
    left. reflexivity.
  - apply (proj1 (proj2 (fallback_unanswered (os_of_tree nested_tree "") site_flags site_page
                           site_error (get "camlistore.org" "/d" "" "curl") "/"%char "d"
                           eq_refl))).
    repeat split; reflexivity.
  - apply (proj1 (fallback_unanswered site_os site_flags blank_page site_error
                    (get "camlistore.org" "/plain.html" "" "curl") "/"%char "plain.html"
                    eq_refl)).
    right. right. split; [reflexivity |]. split; [reflexivity |].
    exists "/srv/camweb/content/plain.html", "<h1><b>Hi</b></h1>".
    split; [left; split; reflexivity |]. split; reflexivity.
Defined.
